(** * useGeminiStream: turn controller and stream event processor

    A shallow embedding of the [useGeminiStream] hook
    (packages/cli/src/ui/hooks/useGeminiStream.ts) and the properties of its
    turn controller: queueing of submissions, streaming-state derivation,
    cancellation, content splitting, tool-call batching and the tool-call
    re-entry effect.

    Reading guide.  The hook is a React function component body.  Three kinds
    of storage occur in it and are kept apart here:
    - values of one render ([messageQueue], [isResponding], [toolCalls] and
      the derived [streamingState]): a callback reads the values of the
      render that created it; they are the record [Render];
    - live storage written through setters and refs ([setMessageQueue],
      [setIsResponding], [turnCancelledRef], [abortControllerRef],
      [pendingHistoryItemRef]): the record [State];
    - collaborators outside the hook (history store, tool scheduler, model
      client, ...): every call made to them is appended to [trace]. *)

From Stdlib Require Import String Ascii DecimalString.
From Stdlib Require Import List Bool NArith ZArith Lia.
Import ListNotations.

(** ** JavaScript strings *)

(** A JavaScript string is a sequence of UTF-16 code units. *)
Definition jsstring := list N.

Definition js (s : string) : jsstring :=
  map N_of_ascii (list_ascii_of_string s).

(** `${n}` for a non-negative integer. *)
Definition js_of_N (n : N) : jsstring :=
  js (NilZero.string_of_uint (N.to_uint n)).

Definition LF : N := 10%N.

(** WhiteSpace and LineTerminator code points of ECMAScript, the ones
    [String.prototype.trim] removes. *)
Definition isWhiteSpace (c : N) : bool :=
  (  (c =? 9) || (c =? 10) || (c =? 11) || (c =? 12) || (c =? 13)
  || (c =? 32) || (c =? 160) || (c =? 5760)
  || ((8192 <=? c) && (c <=? 8202))
  || (c =? 8232) || (c =? 8233) || (c =? 8239) || (c =? 8287)
  || (c =? 12288) || (c =? 65279))%N.

Fixpoint trimStart (s : jsstring) : jsstring :=
  match s with
  | c :: s' => if isWhiteSpace c then trimStart s' else s
  | [] => []
  end.

Definition trimEnd (s : jsstring) : jsstring := rev (trimStart (rev s)).

Definition trim (s : jsstring) : jsstring := trimEnd (trimStart s).

(** [s.split('\n')]: never empty; [''.split('\n')] is [['']]. *)
Fixpoint split (sep : N) (s : jsstring) : list jsstring :=
  match s with
  | [] => [[]]
  | c :: s' =>
      if (c =? sep)%N then [] :: split sep s'
      else match split sep s' with
           | l :: ls => (c :: l) :: ls
           | [] => [[c]]
           end
  end.

(** [lines.join('\n')]. *)
Fixpoint join (sep : N) (ls : list jsstring) : jsstring :=
  match ls with
  | [] => []
  | [l] => l
  | l :: ls' => l ++ sep :: join sep ls'
  end.

Definition clampIndex (len i : Z) : Z := Z.max 0 (Z.min i len).

(** [s.substring(a, b)]: both indices are clamped to [0, length] and swapped
    when out of order. *)
Definition substring (s : jsstring) (a b : Z) : jsstring :=
  let len := Z.of_nat (length s) in
  let a' := clampIndex len a in
  let b' := clampIndex len b in
  let lo := Z.min a' b' in
  let hi := Z.max a' b' in
  firstn (Z.to_nat (hi - lo)) (skipn (Z.to_nat lo) s).

(** [s.substring(a)]. *)
Definition substringFrom (s : jsstring) (a : Z) : jsstring :=
  substring s a (Z.of_nat (length s)).

(** ** Data model *)

(** [string | Part]: one element of a [PartListUnion] array. *)
Inductive PartUnion :=
| PartString (s : jsstring)
| PartObject (payload : jsstring).

(** [PartListUnion = PartUnion | PartUnion[]]. *)
Inductive PartListUnion :=
| PLSingle (p : PartUnion)
| PLArray (ps : list PartUnion).

(** [typeof query === 'string'] *)
Definition asString (q : PartListUnion) : option jsstring :=
  match q with
  | PLSingle (PartString s) => Some s
  | _ => None
  end.

Inductive StreamingState := Idle | Responding | WaitingForConfirmation.

Inductive StreamProcessingStatus := Completed | UserCancelled | Error.

Inductive Status :=
| validating | scheduled | awaiting_approval | executing
| success | error | cancelled.

Record ToolCallRequestInfo := {
  callId : jsstring;
  name : jsstring;
  args : jsstring;
  isClientInitiated : bool
}.

(** A tool call as the scheduler tracks it.  [responseSubmittedToGemini] and
    the response exist on the terminal statuses only; elsewhere the flag reads
    as [undefined], i.e. [false]. *)
Record TrackedToolCall := {
  request : ToolCallRequestInfo;
  status : Status;
  responseSubmittedToGemini : bool;
  responseParts : PartListUnion
}.

Inductive ToolCallStatus :=
| Pending | Canceled | Confirming | Executing | Success | ToolError.

Record IndividualToolCallDisplay := {
  displayCallId : jsstring;
  displayName : jsstring;
  displayStatus : ToolCallStatus
}.

(** The [type] tag of a history item; [ty_undefined] is what
    [item?.type as 'gemini' | 'gemini_content'] yields on a missing item. *)
Inductive ItemType :=
| ty_user | ty_gemini | ty_gemini_content | ty_info | ty_error
| ty_tool_group | ty_user_shell | ty_undefined.

Record HistoryItemWithoutId := {
  type : ItemType;
  text : jsstring;
  tools : list IndividualToolCallDisplay
}.

Definition textItem (ty : ItemType) (s : jsstring) : HistoryItemWithoutId :=
  {| type := ty; text := s; tools := [] |}.

Record ThoughtSummary := { subject : jsstring; description : jsstring }.

Record ErrorValue := { message : jsstring; errorStatus : option N }.

Record ChatCompressionInfo := {
  originalTokenCount : option N;
  newTokenCount : option N
}.

Record UsageMetadata := { totalTokenCount : N }.

Inductive GeminiEvent :=
| Thought (value : ThoughtSummary)
| Content (value : jsstring)
| ToolCallRequest (value : ToolCallRequestInfo)
| UserCancelledEvent
| ErrorEvent (value : ErrorValue)
| ChatCompressed (value : option ChatCompressionInfo)
| UsageMetadataEvent (value : UsageMetadata)
| ToolCallConfirmation
| ToolCallResponse.

(** What [await] can throw into [submitQuery]. *)
Inductive Thrown :=
| UnauthorizedError
| NodeError (code : jsstring) (msg : jsstring)
| OtherError (msg : jsstring).

(** An [AbortController] and its [signal] are one token, named by the order
    of allocation. *)
Definition AbortSignal := nat.

Record InkKey := { escape : bool }.

(** ** One render *)

Record Render := {
  isResponding : bool;
  toolCalls : list TrackedToolCall;
  messageQueue : list jsstring
}.

Definition isStatus (a b : Status) : bool :=
  match a, b with
  | validating, validating | scheduled, scheduled
  | awaiting_approval, awaiting_approval | executing, executing
  | success, success | error, error | cancelled, cancelled => true
  | _, _ => false
  end.

Definition completedAndUnsubmitted (tc : TrackedToolCall) : bool :=
  (isStatus (status tc) success || isStatus (status tc) error
   || isStatus (status tc) cancelled)
  && negb (responseSubmittedToGemini tc).

(** The [useMemo] at the top of the hook. *)
Definition streamingState (r : Render) : StreamingState :=
  if existsb (fun tc => isStatus (status tc) awaiting_approval) (toolCalls r)
  then WaitingForConfirmation
  else if isResponding r
          || existsb (fun tc =>
                        isStatus (status tc) executing
                        || isStatus (status tc) scheduled
                        || isStatus (status tc) validating
                        || completedAndUnsubmitted tc) (toolCalls r)
  then Responding
  else Idle.

(** ** Live storage and collaborators *)

(** A call made to a collaborator of the hook. *)
Inductive Call :=
| AddItem (item : HistoryItemWithoutId) (timestamp : N)
| ScheduleToolCalls (requests : list ToolCallRequestInfo) (signal : AbortSignal)
| MarkToolsAsSubmitted (callIds : list jsstring)
| SendMessageStream (query : PartListUnion) (signal : AbortSignal)
| Abort (signal : AbortSignal)
| StartNewTurn
| AddUsage (usage : UsageMetadata)
| OnAuthError
| PerformMemoryRefresh
| LogUserPrompt (len : nat) (prompt : jsstring)
| OnDebugMessage (msg : jsstring)
| LogMessage (msg : jsstring)
| HandleSlashCommand (cmd : jsstring)
| HandleShellCommand (cmd : jsstring) (signal : AbortSignal)
| HandleAtCommand (cmd : jsstring) (messageId : N) (signal : AbortSignal).

Record State := {
  st_messageQueue : list jsstring;
  st_isResponding : bool;
  st_thought : option ThoughtSummary;
  turnCancelledRef : bool;
  abortControllerRef : option AbortSignal;
  pendingHistoryItemRef : option HistoryItemWithoutId;
  (** the scheduler's list of tracked tool calls *)
  st_toolCalls : list TrackedToolCall;
  (** [AbortController]s allocated so far *)
  controllers : nat;
  (** [Date.now()] *)
  now : N;
  (** calls to collaborators, oldest first *)
  trace : list Call
}.

(** The values a render started in state [st] hands to its callbacks. *)
Definition renderOf (st : State) : Render :=
  {| isResponding := st_isResponding st;
     toolCalls := st_toolCalls st;
     messageQueue := st_messageQueue st |}.

Definition setMessageQueue (f : list jsstring -> list jsstring) (st : State) :=
  {| st_messageQueue := f (st_messageQueue st);
     st_isResponding := st_isResponding st;
     st_thought := st_thought st;
     turnCancelledRef := turnCancelledRef st;
     abortControllerRef := abortControllerRef st;
     pendingHistoryItemRef := pendingHistoryItemRef st;
     st_toolCalls := st_toolCalls st;
     controllers := controllers st;
     now := now st;
     trace := trace st |}.

Definition setIsResponding (b : bool) (st : State) :=
  {| st_messageQueue := st_messageQueue st;
     st_isResponding := b;
     st_thought := st_thought st;
     turnCancelledRef := turnCancelledRef st;
     abortControllerRef := abortControllerRef st;
     pendingHistoryItemRef := pendingHistoryItemRef st;
     st_toolCalls := st_toolCalls st;
     controllers := controllers st;
     now := now st;
     trace := trace st |}.

Definition setThought (t : option ThoughtSummary) (st : State) :=
  {| st_messageQueue := st_messageQueue st;
     st_isResponding := st_isResponding st;
     st_thought := t;
     turnCancelledRef := turnCancelledRef st;
     abortControllerRef := abortControllerRef st;
     pendingHistoryItemRef := pendingHistoryItemRef st;
     st_toolCalls := st_toolCalls st;
     controllers := controllers st;
     now := now st;
     trace := trace st |}.

Definition setTurnCancelled (b : bool) (st : State) :=
  {| st_messageQueue := st_messageQueue st;
     st_isResponding := st_isResponding st;
     st_thought := st_thought st;
     turnCancelledRef := b;
     abortControllerRef := abortControllerRef st;
     pendingHistoryItemRef := pendingHistoryItemRef st;
     st_toolCalls := st_toolCalls st;
     controllers := controllers st;
     now := now st;
     trace := trace st |}.

Definition setAbortController (c : option AbortSignal) (st : State) :=
  {| st_messageQueue := st_messageQueue st;
     st_isResponding := st_isResponding st;
     st_thought := st_thought st;
     turnCancelledRef := turnCancelledRef st;
     abortControllerRef := c;
     pendingHistoryItemRef := pendingHistoryItemRef st;
     st_toolCalls := st_toolCalls st;
     controllers := controllers st;
     now := now st;
     trace := trace st |}.

(** [useStateAndRef]'s setter: the ref is written at once, so later reads of
    [pendingHistoryItemRef.current] in the same callback see the new value. *)
Definition setPendingHistoryItem (p : option HistoryItemWithoutId) (st : State) :=
  {| st_messageQueue := st_messageQueue st;
     st_isResponding := st_isResponding st;
     st_thought := st_thought st;
     turnCancelledRef := turnCancelledRef st;
     abortControllerRef := abortControllerRef st;
     pendingHistoryItemRef := p;
     st_toolCalls := st_toolCalls st;
     controllers := controllers st;
     now := now st;
     trace := trace st |}.

Definition setToolCalls (tcs : list TrackedToolCall) (st : State) :=
  {| st_messageQueue := st_messageQueue st;
     st_isResponding := st_isResponding st;
     st_thought := st_thought st;
     turnCancelledRef := turnCancelledRef st;
     abortControllerRef := abortControllerRef st;
     pendingHistoryItemRef := pendingHistoryItemRef st;
     st_toolCalls := tcs;
     controllers := controllers st;
     now := now st;
     trace := trace st |}.

Definition call (c : Call) (st : State) :=
  {| st_messageQueue := st_messageQueue st;
     st_isResponding := st_isResponding st;
     st_thought := st_thought st;
     turnCancelledRef := turnCancelledRef st;
     abortControllerRef := abortControllerRef st;
     pendingHistoryItemRef := pendingHistoryItemRef st;
     st_toolCalls := st_toolCalls st;
     controllers := controllers st;
     now := now st;
     trace := trace st ++ [c] |}.

(** [new AbortController()] *)
Definition newAbortController (st : State) : State * AbortSignal :=
  ({| st_messageQueue := st_messageQueue st;
      st_isResponding := st_isResponding st;
      st_thought := st_thought st;
      turnCancelledRef := turnCancelledRef st;
      abortControllerRef := abortControllerRef st;
      pendingHistoryItemRef := pendingHistoryItemRef st;
      st_toolCalls := st_toolCalls st;
      controllers := S (controllers st);
      now := now st;
      trace := trace st |}, controllers st).

Definition addItem (item : HistoryItemWithoutId) (timestamp : N) : State -> State :=
  call (AddItem item timestamp).

(** The committed history: the items handed to [addItem], in call order. *)
Definition history (st : State) : list HistoryItemWithoutId :=
  flat_map (fun c => match c with AddItem i _ => [i] | _ => [] end) (trace st).

(** The batches handed to the tool scheduler, in call order. *)
Definition scheduledBatches (st : State)
  : list (list ToolCallRequestInfo * AbortSignal) :=
  flat_map (fun c => match c with
                     | ScheduleToolCalls rs s => [(rs, s)]
                     | _ => []
                     end) (trace st).

(** The streams opened on the model client, in call order. *)
Definition openedStreams (st : State) : list (PartListUnion * AbortSignal) :=
  flat_map (fun c => match c with
                     | SendMessageStream q s => [(q, s)]
                     | _ => []
                     end) (trace st).

Fixpoint eqb_js (a b : jsstring) : bool :=
  match a, b with
  | [], [] => true
  | x :: a', y :: b' => (x =? y)%N && eqb_js a' b'
  | _, _ => false
  end.

(** What [markToolsAsSubmitted] does to one tracked call. *)
Definition markSubmitted (callIds : list jsstring) (tc : TrackedToolCall)
  : TrackedToolCall :=
  if existsb (eqb_js (callId (request tc))) callIds
  then {| request := request tc;
          status := status tc;
          responseSubmittedToGemini := true;
          responseParts := responseParts tc |}
  else tc.

(** Modelled from the spec: [markToolsAsSubmitted] of the tool scheduler
    (useReactToolScheduler.ts is not among the sources).  "Marks them
    submitted": every tracked call whose id is listed gets
    [responseSubmittedToGemini = true]; the others are untouched. *)
Definition markToolsAsSubmitted (callIds : list jsstring) (st : State) : State :=
  setToolCalls (map (markSubmitted callIds) (st_toolCalls st))
    (call (MarkToolsAsSubmitted callIds) st).

Inductive SlashCommandResult :=
| SlashBoolean (handled : bool)
| SlashAction (shouldScheduleTool : bool)
              (toolName : option jsstring) (toolArgs : option jsstring).

Record AtCommandResult := {
  processedQuery : option PartListUnion;
  atShouldProceed : bool
}.

(** What happens while [submitQuery] is suspended in [for await]: the next
    stream event arrives, or a key press is delivered to the [useInput]
    handler of the render current at that moment. *)
Inductive Arrival :=
| StreamEvent (event : GeminiEvent)
| KeyPress (r : Render) (key : InkKey).

(** A stream ends normally or by throwing. *)
Record Stream := {
  arrivals : list Arrival;
  thrown : option Thrown
}.

(** The hook's arguments and imports that are not among the sources. *)
Record Collaborators := {
  (** Modelled from the spec: [findLastSafeSplitPoint]
      (utils/markdownUtilities.ts is not among the sources), "split(buffer) ->
      index"; its contract is the hypothesis [splitContract] below. *)
  findLastSafeSplitPoint : jsstring -> Z;
  parseAndFormatApiError : ErrorValue -> jsstring;
  getErrorMessage : Thrown -> jsstring;
  getModel : jsstring;
  (** [useLogger()] has produced a logger *)
  hasLogger : bool;
  handleSlashCommand : jsstring -> SlashCommandResult;
  shellModeActive : bool;
  handleShellCommand : jsstring -> AbortSignal -> bool;
  isAtCommand : jsstring -> bool;
  handleAtCommand : jsstring -> N -> AbortSignal -> AtCommandResult;
  (** `${toolName}-${Date.now()}-${Math.random().toString(16).slice(2)}` *)
  newCallId : jsstring -> N -> jsstring;
  (** [None]: resolves; [Some e]: rejects with [e] *)
  performMemoryRefresh : option Thrown;
  sendMessageStream : PartListUnion -> AbortSignal -> Stream
}.

Definition splitContract (env : Collaborators) : Prop :=
  forall buffer,
    (0 <= findLastSafeSplitPoint env buffer <= Z.of_nat (length buffer))%Z.

(** ** The hook *)

Definition mergePartListUnions (list : list PartListUnion) : PartListUnion :=
  PLArray (flat_map (fun item =>
                       match item with
                       | PLArray ps => ps
                       | PLSingle p => [p]
                       end) list).

Definition isResponding_state (s : StreamingState) : bool :=
  match s with Responding => true | _ => false end.

Definition isBusy (s : StreamingState) : bool :=
  match s with Responding | WaitingForConfirmation => true | Idle => false end.

(** [if (pendingHistoryItemRef.current) addItem(pendingHistoryItemRef.current, ts)] *)
Definition addPendingItem (timestamp : N) (st : State) : State :=
  match pendingHistoryItemRef st with
  | Some item => addItem item timestamp st
  | None => st
  end.

(** The [useInput] handler of render [r]. *)
Definition useInput (r : Render) (key : InkKey) (st : State) : State :=
  if isResponding_state (streamingState r) && escape key then
    if turnCancelledRef st then st
    else
      let st := setTurnCancelled true st in
      let st := match abortControllerRef st with
                | Some c => call (Abort c) st
                | None => st
                end in
      let st := addPendingItem (now st) st in
      let st := addItem (textItem ty_info (js "Request cancelled.")) (now st) st in
      let st := setPendingHistoryItem None st in
      setIsResponding false st
  else st.

(** [{ queryToSend: null, shouldProceed: false }] is [None];
    [{ queryToSend: q, shouldProceed: true }] is [Some q]. *)
Definition prepareQueryForGemini (env : Collaborators) (query : PartListUnion)
    (userMessageTimestamp : N) (abortSignal : AbortSignal) (st : State)
  : State * option PartListUnion :=
  if turnCancelledRef st then (st, None)
  else
    match asString query with
    | Some s =>
        if (length (trim s) =? 0)%nat then (st, None)
        else
          let trimmedQuery := trim s in
          let st := call (LogUserPrompt (length trimmedQuery) trimmedQuery) st in
          let st := call (OnDebugMessage
                            (js "User query: '" ++ trimmedQuery ++ js "'")) st in
          let st := if hasLogger env
                    then call (LogMessage trimmedQuery) st else st in
          let st := call (HandleSlashCommand trimmedQuery) st in
          match handleSlashCommand env trimmedQuery with
          | SlashBoolean true => (st, None)
          | SlashAction true toolName toolArgs =>
              match toolName, toolArgs with
              | Some n, Some a =>
                  if (0 <? length n)%nat then
                    (call (ScheduleToolCalls
                             [{| callId := newCallId env n (now st);
                                 name := n;
                                 args := a;
                                 isClientInitiated := true |}] abortSignal) st,
                     None)
                  else (st, None)
              | _, _ => (st, None)
              end
          | _ =>
              let shell :=
                if shellModeActive env
                then (call (HandleShellCommand trimmedQuery abortSignal) st,
                      handleShellCommand env trimmedQuery abortSignal)
                else (st, false) in
              let st := fst shell in
              if snd shell then (st, None)
              else if isAtCommand env trimmedQuery then
                let st := call (HandleAtCommand trimmedQuery
                                  userMessageTimestamp abortSignal) st in
                let atCommandResult :=
                  handleAtCommand env trimmedQuery userMessageTimestamp
                    abortSignal in
                if negb (atShouldProceed atCommandResult) then (st, None)
                else
                  match processedQuery atCommandResult with
                  | Some q => (st, Some q)
                  | None =>
                      (call (OnDebugMessage
                               (js "Query processing resulted in null, not sending to Gemini."))
                         st, None)
                  end
              else
                (addItem (textItem ty_user trimmedQuery) userMessageTimestamp st,
                 Some (PLSingle (PartString trimmedQuery)))
          end
    | None => (st, Some query)
    end.

(** *** Stream event handlers *)

Definition isGeminiItem (p : option HistoryItemWithoutId) : bool :=
  match p with
  | Some item =>
      match type item with
      | ty_gemini | ty_gemini_content => true
      | _ => false
      end
  | None => false
  end.

(** [item?.type] *)
Definition typeOf (p : option HistoryItemWithoutId) : ItemType :=
  match p with
  | Some item => type item
  | None => ty_undefined
  end.

(** First half of [handleContentEvent]: when the pending item is not model
    text, commit it and start an empty 'gemini' item; the buffer restarts at
    the event's value. *)
Definition startGeminiItem (eventValue currentGeminiMessageBuffer : jsstring)
    (userMessageTimestamp : N) (st : State) : State * jsstring :=
  if negb (isGeminiItem (pendingHistoryItemRef st)) then
    (setPendingHistoryItem (Some (textItem ty_gemini []))
       (addPendingItem userMessageTimestamp st),
     eventValue)
  else (st, currentGeminiMessageBuffer ++ eventValue).

(** Second half of [handleContentEvent]: keep the whole buffer pending, or
    commit the part before the split point. *)
Definition splitGeminiMessage (env : Collaborators)
    (newGeminiMessageBuffer : jsstring) (userMessageTimestamp : N) (st : State)
  : State * jsstring :=
  let splitPoint := findLastSafeSplitPoint env newGeminiMessageBuffer in
  if (splitPoint =? Z.of_nat (length newGeminiMessageBuffer))%Z then
    (setPendingHistoryItem
       (Some (textItem (typeOf (pendingHistoryItemRef st))
                newGeminiMessageBuffer)) st,
     newGeminiMessageBuffer)
  else
    let beforeText := substring newGeminiMessageBuffer 0 splitPoint in
    let afterText := substringFrom newGeminiMessageBuffer splitPoint in
    let st := addItem (textItem (typeOf (pendingHistoryItemRef st)) beforeText)
                userMessageTimestamp st in
    (setPendingHistoryItem (Some (textItem ty_gemini_content afterText)) st,
     afterText).

Definition handleContentEvent (env : Collaborators)
    (eventValue currentGeminiMessageBuffer : jsstring)
    (userMessageTimestamp : N) (st : State) : State * jsstring :=
  if turnCancelledRef st then (st, [])
  else
    let started := startGeminiItem eventValue currentGeminiMessageBuffer
                     userMessageTimestamp st in
    splitGeminiMessage env (snd started) userMessageTimestamp (fst started).

Definition cancelTool (tool : IndividualToolCallDisplay) :=
  match displayStatus tool with
  | Pending | Confirming | Executing =>
      {| displayCallId := displayCallId tool;
         displayName := displayName tool;
         displayStatus := Canceled |}
  | _ => tool
  end.

Definition handleUserCancelledEvent (userMessageTimestamp : N) (st : State) :=
  if turnCancelledRef st then st
  else
    let st :=
      match pendingHistoryItemRef st with
      | Some item =>
          let st :=
            match type item with
            | ty_tool_group =>
                addItem {| type := type item;
                           text := text item;
                           tools := map cancelTool (tools item) |}
                  userMessageTimestamp st
            | _ => addItem item userMessageTimestamp st
            end in
          setPendingHistoryItem None st
      | None => st
      end in
    let st := addItem (textItem ty_info (js "User cancelled the request."))
                userMessageTimestamp st in
    setIsResponding false st.

Definition handleErrorEvent (env : Collaborators) (eventValue : ErrorValue)
    (userMessageTimestamp : N) (st : State) : State :=
  let st := match pendingHistoryItemRef st with
            | Some item =>
                setPendingHistoryItem None (addItem item userMessageTimestamp st)
            | None => st
            end in
  addItem (textItem ty_error (parseAndFormatApiError env eventValue))
    userMessageTimestamp st.

(** [`${count ?? 'unknown'}`], for the counts the client reports: numbers of
    tokens, integers far below 10^21, which JavaScript prints as their
    decimal digits. *)
Definition tokenCount (n : option N) : jsstring :=
  match n with
  | Some k => js_of_N k
  | None => js "unknown"
  end.

Definition handleChatCompressionEvent (env : Collaborators)
    (eventValue : option ChatCompressionInfo) (st : State) : State :=
  addItem
    (textItem ty_info
       (js "IMPORTANT: This conversation approached the input token limit for "
        ++ getModel env ++ js ". "
        ++ js "A compressed context will be sent for future messages (compressed from: "
        ++ tokenCount (match eventValue with
                       | Some v => originalTokenCount v
                       | None => None
                       end)
        ++ js " to "
        ++ tokenCount (match eventValue with
                       | Some v => newTokenCount v
                       | None => None
                       end)
        ++ js " tokens)."))
    (now st) st.

(** The local variables of [processGeminiStreamEvents] together with the
    live storage. *)
Record Loop := {
  live : State;
  geminiMessageBuffer : jsstring;
  toolCallRequests : list ToolCallRequestInfo
}.

(** One iteration of [for await (const event of stream)]. *)
Definition handleEvent (env : Collaborators) (userMessageTimestamp : N)
    (event : GeminiEvent) (l : Loop) : Loop :=
  match event with
  | Thought value =>
      {| live := setThought (Some value) (live l);
         geminiMessageBuffer := geminiMessageBuffer l;
         toolCallRequests := toolCallRequests l |}
  | Content value =>
      let res := handleContentEvent env value (geminiMessageBuffer l)
                   userMessageTimestamp (live l) in
      {| live := fst res;
         geminiMessageBuffer := snd res;
         toolCallRequests := toolCallRequests l |}
  | ToolCallRequest value =>
      {| live := live l;
         geminiMessageBuffer := geminiMessageBuffer l;
         toolCallRequests := toolCallRequests l ++ [value] |}
  | UserCancelledEvent =>
      {| live := handleUserCancelledEvent userMessageTimestamp (live l);
         geminiMessageBuffer := geminiMessageBuffer l;
         toolCallRequests := toolCallRequests l |}
  | ErrorEvent value =>
      {| live := handleErrorEvent env value userMessageTimestamp (live l);
         geminiMessageBuffer := geminiMessageBuffer l;
         toolCallRequests := toolCallRequests l |}
  | ChatCompressed value =>
      {| live := handleChatCompressionEvent env value (live l);
         geminiMessageBuffer := geminiMessageBuffer l;
         toolCallRequests := toolCallRequests l |}
  | UsageMetadataEvent value =>
      {| live := call (AddUsage value) (live l);
         geminiMessageBuffer := geminiMessageBuffer l;
         toolCallRequests := toolCallRequests l |}
  | ToolCallConfirmation | ToolCallResponse => l
  end.

Definition arrive (env : Collaborators) (userMessageTimestamp : N)
    (a : Arrival) (l : Loop) : Loop :=
  match a with
  | StreamEvent event => handleEvent env userMessageTimestamp event l
  | KeyPress r key =>
      {| live := useInput r key (live l);
         geminiMessageBuffer := geminiMessageBuffer l;
         toolCallRequests := toolCallRequests l |}
  end.

Definition consume (env : Collaborators) (userMessageTimestamp : N)
    (arrived : list Arrival) (l : Loop) : Loop :=
  fold_left (fun l a => arrive env userMessageTimestamp a l) arrived l.

Definition processGeminiStreamEvents (env : Collaborators) (stream : Stream)
    (userMessageTimestamp : N) (signal : AbortSignal) (st : State)
  : State * (StreamProcessingStatus + Thrown) :=
  let l := consume env userMessageTimestamp (arrivals stream)
             {| live := st; geminiMessageBuffer := [];
                toolCallRequests := [] |} in
  match thrown stream with
  | Some e => (live l, inr e)
  | None =>
      (if (0 <? length (toolCallRequests l))%nat
       then call (ScheduleToolCalls (toolCallRequests l) signal) (live l)
       else live l,
       inl Completed)
  end.

(** *** submitQuery *)

(** [const nextQuery = messageQueue[0]; setMessageQueue(prev => prev.slice(1));
    void submitQuery(nextQuery, { isContinuation: false })], guarded by
    [messageQueue.length > 0].  The recursive call is what the second
    component names: it is the last thing the caller does. *)
Definition submitNextFromQueue (r : Render) (st : State)
  : State * option jsstring :=
  match messageQueue r with
  | nextQuery :: _ => (setMessageQueue (@tl jsstring) st, Some nextQuery)
  | [] => (st, None)
  end.

(** The early return of [submitQuery] while a query is in progress. *)
Definition enqueueQuery (query : PartListUnion) (st : State) : State :=
  match asString query with
  | Some s =>
      let queries :=
        filter (fun q => (0 <? length (trim q))%nat) (split LF s) in
      if (0 <? length queries)%nat
      then setMessageQueue (fun prev => prev ++ queries) st
      else st
  | None => st
  end.

(** The [try] and [catch] blocks: the state, [hasError] and
    [streamProcessingStatus] with which [finally] is entered. *)
Definition runStream (env : Collaborators) (queryToSend : PartListUnion)
    (userMessageTimestamp : N) (signal : AbortSignal) (st : State)
  : State * bool * StreamProcessingStatus :=
  let st := call PerformMemoryRefresh st in
  let tried :=
    match performMemoryRefresh env with
    | Some e => (st, inr e)
    | None =>
        processGeminiStreamEvents env
          (sendMessageStream env queryToSend signal)
          userMessageTimestamp signal
          (call (SendMessageStream queryToSend signal) st)
    end in
  match snd tried with
  | inl streamProcessingStatus => (fst tried, false, streamProcessingStatus)
  | inr e =>
      match e with
      | UnauthorizedError => (call OnAuthError (fst tried), true, Completed)
      | NodeError code _ =>
          if eqb_js code (js "ERR_CANCELED")
          then (fst tried, true, UserCancelled)
          else (handleErrorEvent env
                  {| message := getErrorMessage env e; errorStatus := None |}
                  userMessageTimestamp (fst tried), true, Completed)
      | OtherError _ =>
          (handleErrorEvent env
             {| message := getErrorMessage env e; errorStatus := None |}
             userMessageTimestamp (fst tried), true, Completed)
      end
  end.

Definition isCompleted (s : StreamProcessingStatus) : bool :=
  match s with Completed => true | _ => false end.

(** The [finally] block. *)
Definition finishTurn (r : Render) (hasError : bool)
    (streamProcessingStatus : StreamProcessingStatus)
    (userMessageTimestamp : N) (st : State) : State * option jsstring :=
  let st := match pendingHistoryItemRef st with
            | Some item =>
                setPendingHistoryItem None (addItem item userMessageTimestamp st)
            | None => st
            end in
  let st := setIsResponding false st in
  let st := setAbortController None st in
  if negb (turnCancelledRef st)
     && negb hasError
     && isCompleted streamProcessingStatus
     && (length (toolCalls r) =? 0)%nat
     && (0 <? length (messageQueue r))%nat
  then submitNextFromQueue r st
  else (st, None).

(** "Start of a new turn": the statements between the early return and the
    queue check. *)
Definition startTurn (st : State) : State * AbortSignal :=
  let st := call StartNewTurn st in
  let st := setTurnCancelled false st in
  let created := newAbortController st in
  (setAbortController (Some (snd created)) (fst created), snd created).

(** One activation of [submitQuery] of render [r].  The result names the
    query of the recursive call [void submitQuery(nextQuery, ...)] when the
    activation ends in one. *)
Definition submitQueryOnce (r : Render) (env : Collaborators)
    (query : PartListUnion) (isContinuation : bool) (st : State)
  : State * option jsstring :=
  if isBusy (streamingState r) && negb isContinuation then
    (enqueueQuery query st, None)
  else
    let started := startTurn st in
    let st := fst started in
    let signal := snd started in
    let userMessageTimestamp := now st in
    if (0 <? length (messageQueue r))%nat && negb isContinuation then
      submitNextFromQueue r st
    else
      let st := setIsResponding true st in
      let st := setThought None st in
      let prepared :=
        prepareQueryForGemini env query userMessageTimestamp signal st in
      match snd prepared with
      | None => submitNextFromQueue r (setIsResponding false (fst prepared))
      | Some queryToSend =>
          let '(st, hasError, streamProcessingStatus) :=
            runStream env queryToSend userMessageTimestamp signal
              (fst prepared) in
          finishTurn r hasError streamProcessingStatus userMessageTimestamp st
      end.

(** [submitQuery] with its recursive calls; the callback calls itself, so
    every activation reads the same render.  [None]: the recursion is deeper
    than [fuel]; [submitQueryWithin] tells what is left behind then. *)
Fixpoint submitQuery (fuel : nat) (r : Render) (env : Collaborators)
    (query : PartListUnion) (isContinuation : bool) (st : State)
  : option State :=
  match fuel with
  | O => None
  | S fuel' =>
      match submitQueryOnce r env query isContinuation st with
      | (st', None) => Some st'
      | (st', Some nextQuery) =>
          submitQuery fuel' r env (PLSingle (PartString nextQuery)) false st'
      end
  end.

(** [submitQuery] on a call stack with room for [depth] activations.  A
    recursive call is an ordinary call made by the activation before it
    returns, one frame deeper.  When there is no room left, the call fails
    with a RangeError before it has done anything; its promise is rejected,
    [void] discards it, and the callers return one after the other.  The
    result is the live storage once the outermost call has returned, and
    whether the stack was exhausted on the way. *)
Fixpoint submitQueryWithin (depth : nat) (r : Render) (env : Collaborators)
    (query : PartListUnion) (isContinuation : bool) (st : State)
  : State * bool :=
  match depth with
  | O => (st, true)
  | S depth' =>
      match submitQueryOnce r env query isContinuation st with
      | (st', None) => (st', false)
      | (st', Some nextQuery) =>
          submitQueryWithin depth' r env (PLSingle (PartString nextQuery))
            false st'
      end
  end.

(** [submitQuery] from its entry to its first [await], the one of
    [prepareQueryForGemini] (for a query that is not a string,
    [prepareQueryForGemini] does nothing before that point).  [inl]: the
    activation has ended before; [inr]: it is suspended there, with its
    locals [userMessageTimestamp] and [abortController.signal]. *)
Definition submitQueryUntilAwait (r : Render) (query : PartListUnion)
    (isContinuation : bool) (st : State)
  : (State * option jsstring) + (State * N * AbortSignal) :=
  if isBusy (streamingState r) && negb isContinuation then
    inl (enqueueQuery query st, None)
  else
    let started := startTurn st in
    let st := fst started in
    let signal := snd started in
    let userMessageTimestamp := now st in
    if (0 <? length (messageQueue r))%nat && negb isContinuation then
      inl (submitNextFromQueue r st)
    else
      let st := setIsResponding true st in
      let st := setThought None st in
      inr (st, userMessageTimestamp, signal).

(** [submitQuery] from that [await] on, resumed in the live storage [st]. *)
Definition submitQueryAfterAwait (r : Render) (env : Collaborators)
    (query : PartListUnion) (userMessageTimestamp : N) (signal : AbortSignal)
    (st : State) : State * option jsstring :=
  let prepared :=
    prepareQueryForGemini env query userMessageTimestamp signal st in
  match snd prepared with
  | None => submitNextFromQueue r (setIsResponding false (fst prepared))
  | Some queryToSend =>
      let '(st, hasError, streamProcessingStatus) :=
        runStream env queryToSend userMessageTimestamp signal
          (fst prepared) in
      finishTurn r hasError streamProcessingStatus userMessageTimestamp st
  end.

(** The [useEffect] that submits the responses of finished tool calls:
    [markToolsAsSubmitted(callIds)], then [void submitQuery(...)], which runs
    until its first [await] and leaves the rest of the turn for later, then
    [markToolsAsSubmitted(callIds)] once more; the suspended [submitQuery]
    goes on after the effect has returned. *)
Definition toolCompletionEffect (r : Render) (env : Collaborators) (st : State)
  : State * option jsstring :=
  let completedAndUnsubmittedTools :=
    filter completedAndUnsubmitted (toolCalls r) in
  if (0 <? length completedAndUnsubmittedTools)%nat then
    let toolParts := map responseParts completedAndUnsubmittedTools in
    let callIds :=
      map (fun tool => callId (request tool)) completedAndUnsubmittedTools in
    let st := markToolsAsSubmitted callIds st in
    match submitQueryUntilAwait r (mergePartListUnions toolParts) true st with
    | inl ended => (markToolsAsSubmitted callIds (fst ended), snd ended)
    | inr (suspended, userMessageTimestamp, signal) =>
        submitQueryAfterAwait r env (mergePartListUnions toolParts)
          userMessageTimestamp signal
          (markToolsAsSubmitted callIds suspended)
    end
  else (st, None).

(** ** Vocabulary of the properties *)

Definition awaitingApproval (r : Render) : Prop :=
  exists tc, In tc (toolCalls r) /\ status tc = awaiting_approval.

Definition inFlight (r : Render) : Prop :=
  isResponding r = true
  \/ exists tc, In tc (toolCalls r)
       /\ (status tc = executing \/ status tc = scheduled
           \/ status tc = validating
           \/ ((status tc = success \/ status tc = error
                \/ status tc = cancelled)
               /\ responseSubmittedToGemini tc = false)).

(** A line that [q => q.trim().length > 0] keeps. *)
Definition nonBlank (line : jsstring) : bool :=
  negb (forallb isWhiteSpace line).

Definition textQuery (s : jsstring) : PartListUnion := PLSingle (PartString s).

(** The tool-call requests of a stream, in stream order. *)
Definition requestsOf (arrived : list Arrival) : list ToolCallRequestInfo :=
  flat_map (fun a => match a with
                     | StreamEvent (ToolCallRequest value) => [value]
                     | _ => []
                     end) arrived.

(** The calls the stream event handlers and the key handler make. *)
Definition handlerCall (c : Call) : Prop :=
  match c with
  | AddItem _ _ | AddUsage _ | Abort _ => True
  | _ => False
  end.

(** [st'] is [st] after more calls, all of them satisfying [ok], with the
    scheduler's list untouched. *)
Definition grows (ok : Call -> Prop) (st st' : State) : Prop :=
  st_toolCalls st' = st_toolCalls st
  /\ exists extra, trace st' = trace st ++ extra /\ Forall ok extra.

(** A call that neither opens a stream nor marks tool calls as submitted. *)
Definition laterCall (c : Call) : Prop :=
  match c with
  | SendMessageStream _ _ | MarkToolsAsSubmitted _ => False
  | _ => True
  end.

(** A tool call is finished: its status is terminal. *)
Definition finished (tc : TrackedToolCall) : Prop :=
  status tc = success \/ status tc = error \/ status tc = cancelled.

(** The lists of ids handed to [markToolsAsSubmitted], in call order. *)
Definition submittedMarks (st : State) : list (list jsstring) :=
  flat_map (fun c => match c with
                     | MarkToolsAsSubmitted ids => [ids]
                     | _ => []
                     end) (trace st).

(** ** Concrete hooks for the examples *)

(** The hook after its first render: the initial values of its [useState]
    and [useRef] calls. *)
Definition mounted : State :=
  {| st_messageQueue := [];
     st_isResponding := false;
     st_thought := None;
     turnCancelledRef := false;
     abortControllerRef := None;
     pendingHistoryItemRef := None;
     st_toolCalls := [];
     controllers := 0;
     now := 1700000000000%N;
     trace := [] |}.

(** Collaborators that handle no command, never fail and answer every
    request with [stream]; the splitter never splits. *)
Definition plainEnv (stream : Stream) : Collaborators :=
  {| findLastSafeSplitPoint := fun buffer => Z.of_nat (length buffer);
     parseAndFormatApiError := fun e => js "[API Error: " ++ message e ++ js "]";
     getErrorMessage := fun e => match e with
                                 | UnauthorizedError => js "Unauthorized"
                                 | NodeError _ m | OtherError m => m
                                 end;
     getModel := js "gemini-2.5-pro";
     hasLogger := true;
     handleSlashCommand := fun _ => SlashBoolean false;
     shellModeActive := false;
     handleShellCommand := fun _ _ => false;
     isAtCommand := fun _ => false;
     handleAtCommand := fun q _ _ =>
       {| processedQuery := Some (textQuery q); atShouldProceed := true |};
     newCallId := fun n t => n ++ js "-" ++ js_of_N t ++ js "-8f3a";
     performMemoryRefresh := None;
     sendMessageStream := fun _ _ => stream |}.

Definition emptyStream : Stream := {| arrivals := []; thrown := None |}.

Definition streamingRender : Render :=
  {| isResponding := true; toolCalls := []; messageQueue := [] |}.

(** A render that is idle with two messages waiting. *)
Definition backlogRender : Render :=
  {| isResponding := false; toolCalls := [];
     messageQueue := [js "a"; js "b"] |}.

(** The live storage that [backlogRender] was rendered from. *)
Definition backlog : State := setMessageQueue (fun _ => [js "a"; js "b"]) mounted.

Definition toolResult : PartListUnion := PLArray [PartObject (js "functionResponse")].

Definition escapeKey : InkKey := {| escape := true |}.

(** A turn in the middle of its stream: the model has sent "Hel" so far. *)
Definition midTurn : State :=
  {| st_messageQueue := [];
     st_isResponding := true;
     st_thought := None;
     turnCancelledRef := false;
     abortControllerRef := Some 0;
     pendingHistoryItemRef := Some (textItem ty_gemini (js "Hel"));
     st_toolCalls := [];
     controllers := 1;
     now := 1700000000000%N;
     trace := [StartNewTurn;
               AddItem (textItem ty_user (js "hi")) 1700000000000%N;
               PerformMemoryRefresh;
               SendMessageStream (textQuery (js "hi")) 0] |}.

(** [midTurn] after the user pressed escape. *)
Definition cancelledTurn : State := useInput streamingRender escapeKey midTurn.

Definition loopAt (st : State) (buffer : jsstring) : Loop :=
  {| live := st; geminiMessageBuffer := buffer; toolCallRequests := [] |}.

Definition quotaError : ErrorValue :=
  {| message := js "quota exceeded"; errorStatus := Some 429%N |}.

(** A splitter that commits everything up to and including the last blank
    line (two line feeds in a row). *)
Fixpoint afterLastBlankLine (s : jsstring) : nat :=
  match s with
  | a :: ((b :: rest) as s') =>
      match afterLastBlankLine s' with
      | O => if ((a =? LF) && (b =? LF))%N then 2 else 0
      | S k => S (S k)
      end
  | _ => 0
  end.

Definition paragraphSplit (buffer : jsstring) : Z :=
  match afterLastBlankLine buffer with
  | O => Z.of_nat (length buffer)
  | S k => Z.of_nat (S k)
  end.

Definition paragraphEnv : Collaborators :=
  {| findLastSafeSplitPoint := paragraphSplit;
     parseAndFormatApiError := parseAndFormatApiError (plainEnv emptyStream);
     getErrorMessage := getErrorMessage (plainEnv emptyStream);
     getModel := getModel (plainEnv emptyStream);
     hasLogger := true;
     handleSlashCommand := fun _ => SlashBoolean false;
     shellModeActive := false;
     handleShellCommand := fun _ _ => false;
     isAtCommand := fun _ => false;
     handleAtCommand := handleAtCommand (plainEnv emptyStream);
     newCallId := newCallId (plainEnv emptyStream);
     performMemoryRefresh := None;
     sendMessageStream := fun _ _ => emptyStream |}.

(** A turn whose pending item is a group of tool calls. *)
Definition toolGroupPending : State :=
  setPendingHistoryItem
    (Some {| type := ty_tool_group; text := [];
             tools := [{| displayCallId := js "call-1";
                          displayName := js "read_file";
                          displayStatus := Executing |}] |})
    midTurn.

Definition readFileCall : TrackedToolCall :=
  {| request := {| callId := js "call-1"; name := js "read_file";
                   args := js "{}"; isClientInitiated := false |};
     status := success;
     responseSubmittedToGemini := false;
     responseParts := toolResult |}.

(** The scheduler has just reported [readFileCall] as finished. *)
Definition toolFinished : State := setToolCalls [readFileCall] mounted.



Definition readFileRequest : ToolCallRequestInfo := request readFileCall.

Definition listDirRequest : ToolCallRequestInfo :=
  {| callId := js "call-2"; name := js "list_directory";
     args := js "{}"; isClientInitiated := false |}.

(** The model answers with text, asks for two tools and goes on talking. *)
Definition twoToolStream : Stream :=
  {| arrivals := [StreamEvent (Content (js "Let me look."));
                  StreamEvent (ToolCallRequest readFileRequest);
                  StreamEvent (UsageMetadataEvent {| totalTokenCount := 42 |});
                  StreamEvent (ToolCallRequest listDirRequest)];
     thrown := None |}.

Definition answerStream : Stream :=
  {| arrivals := [StreamEvent (Content (js "2+2 "));
                  StreamEvent (Content (js "is 4."))];
     thrown := None |}.

(** ** Further parts of the hook *)

(** [items.every((t, i) => f(t, i))], from index [i] on. *)
Fixpoint everyFrom {A : Type} (i : nat) (f : A -> nat -> bool) (items : list A)
  : bool :=
  match items with
  | [] => true
  | t :: rest => f t i && everyFrom (S i) f rest
  end.

Definition every {A : Type} (f : A -> nat -> bool) (items : list A) : bool :=
  everyFrom 0 f items.

(** [toolCalls.length ? mapTrackedToolCallsToDisplay(toolCalls) : undefined];
    [mapToDisplay] is the import [mapTrackedToolCallsToDisplay] of the tool
    scheduler. *)
Definition pendingToolCallGroupDisplay
    (mapToDisplay : list TrackedToolCall -> HistoryItemWithoutId) (r : Render)
  : option HistoryItemWithoutId :=
  if (0 <? length (toolCalls r))%nat
  then Some (mapToDisplay (toolCalls r))
  else None.

Definition isToolGroup (item : HistoryItemWithoutId) : bool :=
  match type item with ty_tool_group => true | _ => false end.

(** The function given to the [useMemo] of [pendingGeminiHistoryItems]: the
    pending item, then the display of the tracked tool calls unless the
    pending item is a tool group that already shows them. *)
Definition listPendingItems
    (display : option HistoryItemWithoutId) (st : State)
  : list HistoryItemWithoutId :=
  let items := match pendingHistoryItemRef st with
               | Some item => [item]
               | None => []
               end in
  match display with
  | Some group =>
      if negb (match pendingHistoryItemRef st with
               | Some item =>
                   isToolGroup item
                   && every (fun t i =>
                               match nth_error (tools group) i with
                               | Some shown =>
                                   eqb_js (displayCallId t) (displayCallId shown)
                               | None => false
                               end) (tools item)
               | None => false
               end)
      then items ++ [group]
      else items
  | None => items
  end.

(** [useMemo(..., [pendingHistoryItemRef, pendingToolCallGroupDisplay])] at
    one render.  The first dependency is the ref object, the same at every
    render, so the list is computed at the first render ([memo = None]) and
    again only when React finds the display changed; otherwise the list
    computed earlier is returned as it is. *)
Definition pendingGeminiHistoryItems
    (memo : option (list HistoryItemWithoutId)) (displayChanged : bool)
    (display : option HistoryItemWithoutId) (st : State)
  : list HistoryItemWithoutId :=
  match memo with
  | Some computed =>
      if displayChanged then listPendingItems display st else computed
  | None => listPendingItems display st
  end.

(** ** Vocabulary of the further properties *)

(** A stream made of text only. *)
Definition contentEvents (deltas : list jsstring) : list Arrival :=
  map (fun delta => StreamEvent (Content delta)) deltas.

Definition isModelText (ty : ItemType) : Prop :=
  ty = ty_gemini \/ ty = ty_gemini_content.

(** What a stream event leaves alone. *)
Definition sameOutside (st st' : State) : Prop :=
  st_messageQueue st' = st_messageQueue st
  /\ abortControllerRef st' = abortControllerRef st
  /\ controllers st' = controllers st
  /\ now st' = now st
  /\ st_toolCalls st' = st_toolCalls st.

(** The thought shown after the arrivals: the latest one wins. *)
Definition lastThought (arrived : list Arrival) (shown : option ThoughtSummary)
  : option ThoughtSummary :=
  fold_left (fun acc a => match a with
                          | StreamEvent (Thought value) => Some value
                          | _ => acc
                          end) arrived shown.

Definition isKeyPress (a : Arrival) : bool :=
  match a with KeyPress _ _ => true | StreamEvent _ => false end.

Definition pendingAsList (st : State) : list HistoryItemWithoutId :=
  match pendingHistoryItemRef st with
  | Some item => [item]
  | None => []
  end.

(** The text of the items, put together. *)
Definition textOf (items : list HistoryItemWithoutId) : jsstring :=
  concat (map text items).

(** [st] after the calls [extra], nothing else changed. *)
Definition afterCalls (extra : list Call) (st : State) : State :=
  fold_left (fun s c => call c s) extra st.

(** The calls [prepareQueryForGemini] can make. *)
Definition prepareCall (c : Call) : Prop :=
  match c with
  | LogUserPrompt _ _ | OnDebugMessage _ | LogMessage _
  | HandleSlashCommand _ | HandleShellCommand _ _ | HandleAtCommand _ _ _
  | ScheduleToolCalls _ _ | AddItem _ _ => True
  | _ => False
  end.

(** No command handler takes the query: it is a plain prompt for the model. *)
Definition plainPrompt (env : Collaborators) (prompt : jsstring) : Prop :=
  (handleSlashCommand env prompt = SlashBoolean false
   \/ exists n a, handleSlashCommand env prompt = SlashAction false n a)
  /\ (shellModeActive env = false
      \/ forall signal, handleShellCommand env prompt signal = false)
  /\ isAtCommand env prompt = false.

(** A queue entry as [submitQuery] makes them: one line, not blank. *)
Definition queuedLine (entry : jsstring) : Prop :=
  ~ In LF entry /\ nonBlank entry = true.

(** The failure is the one a cancelled request ends in. *)
Definition cancelShaped (e : Thrown) : bool :=
  match e with
  | NodeError code _ => eqb_js code (js "ERR_CANCELED")
  | _ => false
  end.

(** The calls to [onAuthError] so far. *)
Definition authErrors (st : State) : nat :=
  length (filter (fun c => match c with OnAuthError => true | _ => false end)
            (trace st)).

(** A tool of a shown group is still under way. *)
Definition underWay (tool : IndividualToolCallDisplay) : bool :=
  match displayStatus tool with
  | Pending | Confirming | Executing => true
  | _ => false
  end.

Definition executingGroup : HistoryItemWithoutId :=
  {| type := ty_tool_group; text := [];
     tools := [{| displayCallId := js "call-1"; displayName := js "read_file";
                  displayStatus := Success |};
               {| displayCallId := js "call-2"; displayName := js "shell";
                  displayStatus := Confirming |}] |}.

(** The ids shown by a group of tool calls, in order. *)
Definition shownIds (group : HistoryItemWithoutId) : list jsstring :=
  map displayCallId (tools group).

(** The parts of a [PartListUnion], a single part counting as one. *)
Definition partsOf (q : PartListUnion) : list PartUnion :=
  match q with
  | PLArray ps => ps
  | PLSingle p => [p]
  end.

(** Every tracked call is finished and its response has been submitted. *)
Definition allSettled (r : Render) : Prop :=
  Forall (fun tc => finished tc /\ responseSubmittedToGemini tc = true)
    (toolCalls r).

Definition emptyGroup : HistoryItemWithoutId :=
  {| type := ty_tool_group; text := []; tools := [] |}.

(** The calls with which [prepareQueryForGemini] announces a prompt before
    it decides what to do with it. *)
Definition noticeCall (c : Call) : Prop :=
  match c with
  | LogUserPrompt _ _ | OnDebugMessage _ | LogMessage _
  | HandleSlashCommand _ | HandleShellCommand _ _ => True
  | _ => False
  end.

(** The abort signals a call carries. *)
Definition signalsOf (c : Call) : list AbortSignal :=
  match c with
  | ScheduleToolCalls _ s | SendMessageStream _ s | Abort s
  | HandleShellCommand _ s | HandleAtCommand _ _ s => [s]
  | _ => []
  end.

(** Every signal the call carries is [n]. *)
Definition usesSignal (n : AbortSignal) (c : Call) : Prop :=
  Forall (eq n) (signalsOf c).

(** Calls that only add to the history. *)
Definition showCall (c : Call) : Prop :=
  match c with AddItem _ _ => True | _ => False end.

(** What the key handler calls when the abort controller is [a]. *)
Definition abortOf (a : option AbortSignal) (c : Call) : Prop :=
  match c with
  | AddItem _ _ => True
  | Abort s => a = Some s
  | _ => False
  end.

(** The usage reports handed to [addUsage], in call order. *)
Definition usageReports (st : State) : list UsageMetadata :=
  flat_map (fun c => match c with AddUsage u => [u] | _ => [] end) (trace st).

(** The usage reports of a stream, in stream order. *)
Definition usageOf (arrived : list Arrival) : list UsageMetadata :=
  flat_map (fun a => match a with
                     | StreamEvent (UsageMetadataEvent value) => [value]
                     | _ => []
                     end) arrived.



(** Events that are no part of the displayed message and do not end it. *)
Definition besideMessage (event : GeminiEvent) : bool :=
  match event with
  | Thought _ | ToolCallRequest _ | ChatCompressed _ | UsageMetadataEvent _
  | ToolCallConfirmation | ToolCallResponse => true
  | Content _ | UserCancelledEvent | ErrorEvent _ => false
  end.

(** ** Vocabulary of the whole-turn properties *)



(** An entry that reports something about the turn: an error or a notice,
    no text of the model or of the user. *)
Definition isReport (item : HistoryItemWithoutId) : Prop :=
  type item = ty_error \/ type item = ty_info.


(** The user asked "hi" right after the mount, and the model has sent "Hel"
    so far: [submitQuery] is waiting for the next event of its stream. *)
Definition helloSoFar : State :=
  let env := plainEnv {| arrivals := [StreamEvent (Content (js "Hel"))];
                         thrown := None |} in
  let turn := setThought None (setIsResponding true (fst (startTurn mounted))) in
  let prepared :=
    prepareQueryForGemini env (textQuery (js "hi")) (now mounted) 0 turn in
  fst (fst (runStream env (textQuery (js "hi")) (now mounted) 0
              (fst prepared))).

(** Meanwhile the user types two more lines; the render shown then takes
    them. *)
Definition typedWhileBusy : State :=
  fst (submitQueryOnce (renderOf helloSoFar) (plainEnv emptyStream)
         (textQuery (js "a" ++ [LF] ++ js "b")) false helloSoFar).

(** The stream then sends the rest of its text and ends. *)
Definition streamEnded : State :=
  live (consume (plainEnv emptyStream) 1700000000000%N
          [StreamEvent (Content (js "lo"))]
          (loopAt typedWhileBusy (js "Hel"))).

(** The user presses escape in the middle of the answer; the connection
    then breaks. *)
Definition brokenStream : Stream :=
  {| arrivals := [StreamEvent (Content (js "Hel"));
                  KeyPress streamingRender escapeKey;
                  StreamEvent (Content (js "lo"))];
     thrown := Some (OtherError (js "socket hang up")) |}.


(** The turn is cancelled, nothing is pending, and the history is [shown]
    followed by reports only. *)
Definition cancelledSince (shown : list HistoryItemWithoutId) (st : State)
  : Prop :=
  turnCancelledRef st = true
  /\ pendingHistoryItemRef st = None
  /\ exists later, history st = shown ++ later /\ Forall isReport later.

(** * Properties *)

(** ** The hook at work *)

(** "What is 2+2?" submitted to the idle hook: one stream, one committed
    answer, no tool scheduled, no turn left active. *)
Example plain_question :
  let out := submitQueryOnce (renderOf mounted) (plainEnv answerStream)
               (textQuery (js "What is 2+2?")) false mounted in
  snd out = None
  /\ history (fst out)
     = [textItem ty_user (js "What is 2+2?");
        textItem ty_gemini (js "2+2 is 4.")]
  /\ openedStreams (fst out) = [(textQuery (js "What is 2+2?"), 0)]
  /\ scheduledBatches (fst out) = []
  /\ streamingState (renderOf (fst out)) = Idle.
Proof. repeat split. Qed.

(** A stream asking for two tools: one batch, in stream order, with the
    signal of the turn. *)
Example two_tools_one_batch :
  scheduledBatches
    (fst (submitQueryOnce (renderOf mounted) (plainEnv twoToolStream)
            (textQuery (js "what is in here?")) false mounted))
  = [([readFileRequest; listDirRequest], 0)].
Proof. reflexivity. Qed.

(** "line1\nline2" submitted while the model is streaming. *)
Example two_lines_queued :
  st_messageQueue
    (fst (submitQueryOnce streamingRender (plainEnv emptyStream)
            (textQuery (js "line1" ++ [LF] ++ js "line2")) false midTurn))
  = [js "line1"; js "line2"].
Proof. reflexivity. Qed.

(** ** Strings *)

Lemma split_nonempty (sep : N) (s : jsstring) : split sep s <> [].
Proof.
  destruct s as [|c s]; simpl; [discriminate|].
  destruct (c =? sep)%N; [discriminate|].
  destruct (split sep s); discriminate.
Qed.

(** Splitting loses nothing: joining the lines gives the string back. *)
Lemma join_split (sep : N) (s : jsstring) : join sep (split sep s) = s.
Proof.
  induction s as [|c s IH]; simpl; [reflexivity|].
  destruct (N.eqb_spec c sep) as [->|Hne].
  - pose proof (split_nonempty sep s) as Hs.
    destruct (split sep s) as [|l ls]; [contradiction|].
    simpl in *. now rewrite IH.
  - pose proof (split_nonempty sep s) as Hs.
    destruct (split sep s) as [|l ls]; [contradiction|].
    destruct ls as [|l' ls]; simpl in *; now rewrite <- IH.
Qed.

Lemma trimStart_nil_iff (s : jsstring) :
  trimStart s = [] <-> forallb isWhiteSpace s = true.
Proof.
  induction s as [|c s IH]; simpl; [tauto|].
  destruct (isWhiteSpace c); simpl; [exact IH|].
  split; discriminate.
Qed.

(** [s.trim().length > 0] fails exactly on the strings made of white space. *)
Lemma trim_blank_iff (s : jsstring) :
  (0 <? length (trim s))%nat = false <-> forallb isWhiteSpace s = true.
Proof.
  unfold trim, trimEnd.
  rewrite Nat.ltb_ge, Nat.le_0_r, length_rev, length_zero_iff_nil.
  split.
  - intros H. apply trimStart_nil_iff.
    destruct (trimStart s) as [|c t] eqn:E; [reflexivity|].
    exfalso.
    assert (Hc : isWhiteSpace c = false).
    { clear H. induction s as [|a s IH]; simpl in E; [discriminate|].
      destruct (isWhiteSpace a) eqn:Ea; [auto|].
      now inversion E; subst. }
    assert (Hlast : forall u, trimStart (u ++ [c]) <> []).
    { induction u as [|a u IHu]; simpl.
      - rewrite Hc. discriminate.
      - destruct (isWhiteSpace a); [exact IHu|discriminate]. }
    simpl in H. exact (Hlast _ H).
  - intros H. apply trimStart_nil_iff in H. now rewrite H.
Qed.

Lemma eqb_js_eq (a b : jsstring) : eqb_js a b = true <-> a = b.
Proof.
  revert b; induction a as [|x a IH]; destruct b as [|y b]; simpl;
    try (split; [discriminate|discriminate]); [tauto|].
  rewrite andb_true_iff, N.eqb_eq, IH.
  split; [intros [-> ->]; reflexivity|intros H; inversion H; auto].
Qed.

(** ** State bookkeeping *)

Lemma isStatus_eq (a b : Status) : isStatus a b = true <-> a = b.
Proof. destruct a, b; simpl; split; congruence. Qed.

(** ** Streaming-state derivation *)

Lemma awaitingApproval_existsb (r : Render) :
  existsb (fun tc => isStatus (status tc) awaiting_approval) (toolCalls r) = true
  <-> awaitingApproval r.
Proof.
  unfold awaitingApproval. rewrite existsb_exists.
  split; intros [tc [Hin H]]; exists tc; split; auto; now apply isStatus_eq.
Qed.

Lemma inFlight_orb (r : Render) :
  isResponding r
  || existsb (fun tc =>
                isStatus (status tc) executing
                || isStatus (status tc) scheduled
                || isStatus (status tc) validating
                || completedAndUnsubmitted tc) (toolCalls r) = true
  <-> inFlight r.
Proof.
  unfold inFlight, completedAndUnsubmitted.
  rewrite orb_true_iff, existsb_exists.
  split; (intros [H|[tc [Hin H]]]; [left; exact H|right; exists tc; split; auto]).
  - rewrite !orb_true_iff, andb_true_iff, !orb_true_iff, negb_true_iff,
      !isStatus_eq in H. tauto.
  - rewrite !orb_true_iff, andb_true_iff, !orb_true_iff, negb_true_iff,
      !isStatus_eq. tauto.
Qed.

(** C4.  The streaming state is computed from the render's turn-active flag
    [isResponding] and its tracked tool calls alone (nothing else of the
    render or of the live storage enters): it is [WaitingForConfirmation]
    exactly when some tracked call awaits approval; otherwise [Responding]
    exactly when the turn is streaming or some tracked call is executing,
    scheduled, validating, or finished (success, error, cancelled) with its
    response not yet submitted; otherwise [Idle]. *)
Theorem streamingState_derivation (responding : bool)
    (tracked : list TrackedToolCall) (queue queue' : list jsstring) :
  let r := {| isResponding := responding; toolCalls := tracked;
              messageQueue := queue |} in
  streamingState r
  = streamingState {| isResponding := responding; toolCalls := tracked;
                      messageQueue := queue' |}
  /\ (streamingState r = WaitingForConfirmation <-> awaitingApproval r)
  /\ (streamingState r = Responding <-> ~ awaitingApproval r /\ inFlight r)
  /\ (streamingState r = Idle <-> ~ awaitingApproval r /\ ~ inFlight r).
Proof.
  intros r. split; [reflexivity|].
  pose proof (awaitingApproval_existsb r) as HA.
  pose proof (inFlight_orb r) as HF.
  unfold streamingState.
  destruct (existsb _ (toolCalls r)) eqn:EA.
  - assert (awaitingApproval r) by (apply HA; reflexivity).
    repeat split; try tauto; try discriminate.
  - assert (~ awaitingApproval r) by (intros X; apply HA in X; discriminate).
    destruct (isResponding r || _) eqn:EF.
    + assert (inFlight r) by (apply HF; reflexivity).
      repeat split; try tauto; try discriminate.
    + assert (~ inFlight r) by (intros X; apply HF in X; discriminate).
      repeat split; try tauto; try discriminate.
Qed.

Lemma nonBlank_trim (line : jsstring) :
  (0 <? length (trim line))%nat = nonBlank line.
Proof.
  unfold nonBlank.
  destruct (forallb isWhiteSpace line) eqn:E; simpl.
  - now apply trim_blank_iff.
  - destruct (0 <? length (trim line))%nat eqn:T; [reflexivity|].
    apply trim_blank_iff in T. congruence.
Qed.

Lemma setMessageQueue_same (st : State) :
  setMessageQueue (fun _ => st_messageQueue st) st = st.
Proof. now destruct st. Qed.

(** ** Submissions while a turn is active *)

Lemma enqueueQuery_queue (query : PartListUnion) (st : State) :
  enqueueQuery query st
  = setMessageQueue (fun _ => st_messageQueue (enqueueQuery query st)) st
  /\ st_messageQueue (enqueueQuery query st)
     = st_messageQueue st
       ++ match asString query with
          | Some s => filter nonBlank (split LF s)
          | None => []
          end.
Proof.
  unfold enqueueQuery.
  destruct (asString query) as [s|].
  - rewrite (filter_ext _ _ nonBlank_trim).
    destruct (filter nonBlank (split LF s)) as [|q qs]; simpl.
    + rewrite app_nil_r. split; [now destruct st|reflexivity].
    + split; reflexivity.
  - rewrite app_nil_r. split; [now destruct st|reflexivity].
Qed.

(** C1.  A non-continuation [submitQuery] whose render is [Responding] or
    [WaitingForConfirmation] returns at once without a recursive call; it
    changes nothing but the message queue (no stream is opened, no new turn is
    started, the cancellation flag and the abort controller are untouched).
    A textual query is split at the line feeds, which loses nothing of it
    (joining the lines gives it back), and its non-blank lines are appended to
    the queue in order; a query that is not a string leaves the queue as it
    is. *)
Theorem busy_submission_is_queued (r : Render) (env : Collaborators)
    (query : PartListUnion) (st : State) :
  streamingState r = Responding \/ streamingState r = WaitingForConfirmation ->
  let out := submitQueryOnce r env query false st in
  snd out = None
  /\ (forall fuel, submitQuery (S fuel) r env query false st = Some (fst out))
  /\ fst out = setMessageQueue (fun _ => st_messageQueue (fst out)) st
  /\ trace (fst out) = trace st
  /\ turnCancelledRef (fst out) = turnCancelledRef st
  /\ abortControllerRef (fst out) = abortControllerRef st
  /\ match asString query with
     | Some s =>
         st_messageQueue (fst out)
         = st_messageQueue st ++ filter nonBlank (split LF s)
         /\ join LF (split LF s) = s
     | None => st_messageQueue (fst out) = st_messageQueue st
     end.
Proof.
  intros Hbusy out.
  assert (Hout : out = (enqueueQuery query st, None)).
  { unfold out, submitQueryOnce.
    destruct Hbusy as [-> | ->]; reflexivity. }
  destruct (enqueueQuery_queue query st) as [Hst Hq].
  rewrite Hout; simpl.
  split; [reflexivity|].
  split; [intros fuel; simpl; fold out; now rewrite Hout|].
  split; [exact Hst|].
  repeat split; try (rewrite Hst; reflexivity).
  destruct (asString query) as [s|].
  - split; [exact Hq|apply join_split].
  - now rewrite Hq, app_nil_r.
Qed.

Lemma busy_submission_is_queued_witness :
  streamingState streamingRender = Responding
  /\ st_messageQueue
       (fst (submitQueryOnce streamingRender (plainEnv emptyStream)
               (textQuery (js "line1
  
line2")) false mounted))
     = [js "line1"; js "line2"].
Proof.
  split; [reflexivity|].
  pose proof (busy_submission_is_queued streamingRender (plainEnv emptyStream)
                (textQuery (js "line1
  
line2")) mounted (or_introl eq_refl)) as H.
  destruct H as (_ & _ & _ & _ & _ & _ & H & _).
  exact H.
Defined.

(** ** Draining the queue *)

Lemma submitNextFromQueue_spec (r : Render) (st : State) :
  let out := submitNextFromQueue r st in
  (snd out <> None <-> messageQueue r <> [])
  /\ (forall next, snd out = Some next ->
        exists rest, messageQueue r = next :: rest
                     /\ fst out = setMessageQueue (@tl jsstring) st)
  /\ (snd out = None -> fst out = st).
Proof.
  unfold submitNextFromQueue.
  destruct (messageQueue r) as [|q qs]; simpl.
  - repeat split; try congruence; try discriminate.
  - repeat split; try congruence; try discriminate.
    intros next H; inversion H; subst. now exists qs.
Qed.

(** One activation at the queue check.  A non-continuation [submitQuery] of
    an idle render whose queue is not empty starts a turn, removes the first entry of the live queue and
    ends by calling itself with the first entry of its render's queue; the
    caller's query does not enter the result in any way (it is neither sent
    nor queued: the only collaborator called is [startNewTurn]).  When the
    render's queue is the live queue, the entry taken is the oldest one and
    the rest stays queued in order. *)
Theorem queued_entry_supersedes_query (r : Render) (env : Collaborators)
    (query : PartListUnion) (st : State) (oldest : jsstring)
    (rest : list jsstring) :
  streamingState r = Idle ->
  messageQueue r = oldest :: rest ->
  let st' := setMessageQueue (@tl jsstring) (fst (startTurn st)) in
  submitQueryOnce r env query false st = (st', Some oldest)
  /\ (forall query',
        submitQueryOnce r env query' false st
        = submitQueryOnce r env query false st)
  /\ trace st' = trace st ++ [StartNewTurn]
  /\ st_messageQueue st' = tl (st_messageQueue st)
  /\ (messageQueue r = st_messageQueue st ->
      st_messageQueue st = oldest :: st_messageQueue st').
Proof.
  intros Hidle Hq st'.
  assert (Hall : forall q, submitQueryOnce r env q false st = (st', Some oldest)).
  { intros q. unfold submitQueryOnce, submitNextFromQueue.
    rewrite Hidle, Hq. reflexivity. }
  split; [apply Hall|].
  split; [intros q'; now rewrite !Hall|].
  split; [reflexivity|].
  split; [reflexivity|].
  intros Hlive. simpl. now rewrite <- Hlive, Hq.
Qed.

Lemma queued_entry_supersedes_query_witness :
  streamingState backlogRender = Idle
  /\ messageQueue backlogRender = [js "a"; js "b"]
  /\ submitQueryOnce backlogRender (plainEnv emptyStream)
       (textQuery (js "c")) false backlog
     = (setMessageQueue (@tl jsstring) (fst (startTurn backlog)), Some (js "a")).
Proof.
  split; [reflexivity|]. split; [reflexivity|].
  exact (proj1 (queued_entry_supersedes_query backlogRender
                  (plainEnv emptyStream) (textQuery (js "c")) backlog
                  (js "a") [js "b"] eq_refl eq_refl)).
Defined.

(** The recursive call at the head of the queue check is made by the same
    callback and so reads the same render: it takes the same branch again,
    whatever the depth allowed. *)
Remark submitQuery_same_render (r : Render) (env : Collaborators)
    (query : PartListUnion) (st : State) (fuel : nat) :
  streamingState r = Idle -> messageQueue r <> [] ->
  submitQuery fuel r env query false st = None.
Proof.
  intros Hidle Hq. revert query st.
  induction fuel as [|fuel IH]; intros query st; [reflexivity|].
  simpl. unfold submitQueryOnce, submitNextFromQueue. rewrite Hidle.
  destruct (messageQueue r) as [|q qs]; [contradiction|]. simpl.
  apply IH.
Qed.

Lemma runStream_status (env : Collaborators) (queryToSend : PartListUnion)
    (ts : N) (signal : AbortSignal) (st : State) :
  snd (fst (runStream env queryToSend ts signal st)) = false ->
  snd (runStream env queryToSend ts signal st) = Completed.
Proof.
  unfold runStream.
  destruct (performMemoryRefresh env) as [e|]; simpl.
  - destruct e as [|code m|m]; simpl; try discriminate; try reflexivity.
    destruct (eqb_js code (js "ERR_CANCELED")); simpl; [discriminate|reflexivity].
  - unfold processGeminiStreamEvents.
    destruct (thrown _) as [e|]; simpl; [|reflexivity].
    destruct e as [|code m|m]; simpl; try discriminate; try reflexivity.
    destruct (eqb_js code (js "ERR_CANCELED")); simpl; [discriminate|reflexivity].
Qed.

Lemma finishTurn_spec (r : Render) (hasError : bool)
    (status : StreamProcessingStatus) (ts : N) (st : State) :
  let out := finishTurn r hasError status ts st in
  pendingHistoryItemRef (fst out) = None
  /\ st_isResponding (fst out) = false
  /\ abortControllerRef (fst out) = None
  /\ trace (fst out)
     = trace st ++ match pendingHistoryItemRef st with
                   | Some item => [AddItem item ts]
                   | None => []
                   end
  /\ (snd out <> None <->
      turnCancelledRef st = false /\ hasError = false /\ status = Completed
      /\ toolCalls r = [] /\ messageQueue r <> [])
  /\ (forall next, snd out = Some next ->
        exists rest, messageQueue r = next :: rest
                     /\ st_messageQueue (fst out) = tl (st_messageQueue st))
  /\ (snd out = None -> st_messageQueue (fst out) = st_messageQueue st).
Proof.
  unfold finishTurn.
  set (st1 := match pendingHistoryItemRef st with
              | Some item => setPendingHistoryItem None (addItem item ts st)
              | None => st
              end).
  set (st2 := setAbortController None (setIsResponding false st1)).
  assert (H2 : pendingHistoryItemRef st2 = None
               /\ st_isResponding st2 = false
               /\ abortControllerRef st2 = None
               /\ trace st2 = trace st ++ match pendingHistoryItemRef st with
                                          | Some item => [AddItem item ts]
                                          | None => []
                                          end
               /\ turnCancelledRef st2 = turnCancelledRef st
               /\ st_messageQueue st2 = st_messageQueue st).
  { unfold st2, st1. destruct (pendingHistoryItemRef st) eqn:E; simpl;
      rewrite ?app_nil_r; auto 10. }
  destruct H2 as (Hp & Hr & Ha & Ht & Hc & Hq).
  clearbody st2. clear st1.
  rewrite Hc.
  destruct (submitNextFromQueue_spec r st2) as (Hn & Hs & Hnone).
  destruct (negb (turnCancelledRef st) && negb hasError && isCompleted status
            && (length (toolCalls r) =? 0)%nat
            && (0 <? length (messageQueue r))%nat) eqn:G.
  - rewrite !andb_true_iff, !negb_true_iff, Nat.eqb_eq, Nat.ltb_lt,
      length_zero_iff_nil in G.
    destruct G as ((((G1 & G2) & G3) & G4) & G5).
    assert (status = Completed) by (destruct status; simpl in G3; congruence).
    unfold submitNextFromQueue in *.
    destruct (messageQueue r) as [|q qs]; [simpl in G5; lia|]. simpl.
    repeat split; auto; try congruence.
    + intros next H'; inversion H'; subst. exists qs. split; [reflexivity|].
      now rewrite Hq.
  - simpl. repeat split; auto; try congruence.
    intros (G1 & G2 & G3 & G4 & G5). exfalso.
    rewrite G1, G2, G3, G4 in G. simpl in G.
    destruct (messageQueue r); [congruence|discriminate].
Qed.

(** The [finally] block as the callback reads it, on the [toolCalls] and
    [messageQueue] of its render.  A [submitQuery] that gets as far as the
    model request ends in the [finally] block, whatever the outcome of the stream: a still-pending
    display item is committed to the history and cleared, [isResponding] and
    the abort controller are reset.  It then calls itself with a queued
    message (as a non-continuation) exactly when the cancellation flag is not
    set, nothing was thrown during the turn, the render has no tracked tool
    calls and the render's queue is not empty; the message passed is the
    first entry of that queue and the live queue loses its first entry, so
    that, the render's queue being the live one, messages leave in the order
    they came. *)
Theorem turn_completion (r : Render) (env : Collaborators)
    (query : PartListUnion) (isContinuation : bool) (st : State)
    (queryToSend : PartListUnion) :
  let started := startTurn st in
  let ts := now (fst started) in
  let prepared :=
    prepareQueryForGemini env query ts (snd started)
      (setThought None (setIsResponding true (fst started))) in
  isBusy (streamingState r) && negb isContinuation = false ->
  (0 <? length (messageQueue r))%nat && negb isContinuation = false ->
  snd prepared = Some queryToSend ->
  let ran := runStream env queryToSend ts (snd started) (fst prepared) in
  let before := fst (fst ran) in
  let hasError := snd (fst ran) in
  let out := submitQueryOnce r env query isContinuation st in
  pendingHistoryItemRef (fst out) = None
  /\ st_isResponding (fst out) = false
  /\ abortControllerRef (fst out) = None
  /\ trace (fst out)
     = trace before ++ match pendingHistoryItemRef before with
                       | Some item => [AddItem item ts]
                       | None => []
                       end
  /\ (snd out <> None <->
      turnCancelledRef before = false /\ hasError = false
      /\ toolCalls r = [] /\ messageQueue r <> [])
  /\ (forall next, snd out = Some next ->
        exists rest,
          messageQueue r = next :: rest
          /\ st_messageQueue (fst out) = tl (st_messageQueue before)
          /\ (messageQueue r = st_messageQueue before ->
              st_messageQueue before = next :: st_messageQueue (fst out)))
  /\ (snd out = None -> st_messageQueue (fst out) = st_messageQueue before).
Proof.
  intros started ts prepared Hbusy Hqueue Hprep ran before hasError out.
  assert (Hout : out = finishTurn r hasError (snd ran) ts before).
  { unfold out, submitQueryOnce. rewrite Hbusy.
    fold started. rewrite Hqueue. fold ts. fold prepared. rewrite Hprep.
    fold ran. unfold before, hasError.
    destruct ran as [[s h] t]. reflexivity. }
  rewrite Hout.
  destruct (finishTurn_spec r hasError (snd ran) ts before)
    as (H1 & H2 & H3 & H4 & H5 & H6 & H7).
  pose proof (runStream_status env queryToSend ts (snd started) (fst prepared))
    as Hst. fold ran in Hst. fold hasError in Hst.
  repeat split; auto.
  - now apply H5.
  - now apply H5.
  - now apply H5.
  - now apply H5.
  - intros (G1 & G2 & G3 & G4). apply H5. auto 6.
  - intros next Hn. destruct (H6 next Hn) as (rest & Hr & Hl).
    exists rest. repeat split; auto.
    intros Hsame. rewrite Hl, <- Hsame, Hr. reflexivity.
Qed.


(** ** What the handlers call *)

Lemma grows_refl (ok : Call -> Prop) (st : State) : grows ok st st.
Proof. split; [reflexivity|]. exists []. now rewrite app_nil_r. Qed.

Lemma grows_trans (ok : Call -> Prop) (a b c : State) :
  grows ok a b -> grows ok b c -> grows ok a c.
Proof.
  intros [Ex [x [Hx Fx]]] [Ey [y [Hy Fy]]].
  split; [congruence|]. exists (x ++ y).
  rewrite Hy, Hx, app_assoc. split; [reflexivity|now apply Forall_app].
Qed.

Lemma grows_call (ok : Call -> Prop) (c : Call) (a b : State) :
  ok c -> grows ok a b -> grows ok a (call c b).
Proof.
  intros Hc [E [x [Hx Fx]]]. split; [exact E|].
  exists (x ++ [c]). simpl.
  rewrite Hx, app_assoc. split; [reflexivity|].
  apply Forall_app; split; [assumption|now constructor].
Qed.

Lemma grows_weaken (ok ok' : Call -> Prop) (a b : State) :
  (forall c, ok c -> ok' c) -> grows ok a b -> grows ok' a b.
Proof.
  intros Hw [E [x [Hx Fx]]]. split; [exact E|].
  exists x. split; [exact Hx|]. eapply Forall_impl; eauto.
Qed.

Ltac grows_tac :=
  first
    [ apply grows_refl
    | split; [reflexivity|];
      exists []; simpl; rewrite app_nil_r; split; [reflexivity|constructor]
    | split; [reflexivity|];
      simpl; eexists; split;
      [rewrite <- ?app_assoc; simpl; reflexivity|repeat constructor] ].

Lemma addPendingItem_grows (ts : N) (st : State) :
  grows handlerCall st (addPendingItem ts st).
Proof.
  unfold addPendingItem, addItem.
  destruct (pendingHistoryItemRef st); grows_tac.
Qed.

Lemma useInput_grows (r : Render) (key : InkKey) (st : State) :
  grows handlerCall st (useInput r key st).
Proof.
  unfold useInput, addPendingItem, addItem.
  destruct (isResponding_state (streamingState r) && escape key);
    [|apply grows_refl].
  destruct (turnCancelledRef st); [apply grows_refl|].
  simpl. destruct (abortControllerRef st); simpl;
    destruct (pendingHistoryItemRef st); simpl; grows_tac.
Qed.

Lemma handleContentEvent_grows (env : Collaborators) (v buf : jsstring)
    (ts : N) (st : State) :
  grows handlerCall st (fst (handleContentEvent env v buf ts st)).
Proof.
  unfold handleContentEvent, startGeminiItem, splitGeminiMessage,
    addPendingItem, addItem.
  destruct (turnCancelledRef st); [apply grows_refl|].
  destruct (negb (isGeminiItem (pendingHistoryItemRef st)));
    destruct (pendingHistoryItemRef st); simpl;
    match goal with |- context [(?a =? ?b)%Z] => destruct (a =? b)%Z end;
    simpl; grows_tac.
Qed.

Lemma handleUserCancelledEvent_grows (ts : N) (st : State) :
  grows handlerCall st (handleUserCancelledEvent ts st).
Proof.
  unfold handleUserCancelledEvent, addItem.
  destruct (turnCancelledRef st); [apply grows_refl|].
  destruct (pendingHistoryItemRef st) as [item|]; [destruct (type item)|];
    simpl; grows_tac.
Qed.

Lemma handleErrorEvent_grows (env : Collaborators) (v : ErrorValue) (ts : N)
    (st : State) :
  grows handlerCall st (handleErrorEvent env v ts st).
Proof.
  unfold handleErrorEvent, addItem.
  destruct (pendingHistoryItemRef st); simpl; grows_tac.
Qed.

Lemma handleEvent_grows (env : Collaborators) (ts : N) (event : GeminiEvent)
    (l : Loop) :
  grows handlerCall (live l) (live (handleEvent env ts event l)).
Proof.
  destruct event; simpl.
  - grows_tac.
  - apply handleContentEvent_grows.
  - apply grows_refl.
  - apply handleUserCancelledEvent_grows.
  - apply handleErrorEvent_grows.
  - unfold handleChatCompressionEvent, addItem. grows_tac.
  - grows_tac.
  - apply grows_refl.
  - apply grows_refl.
Qed.

Lemma arrive_grows (env : Collaborators) (ts : N) (a : Arrival) (l : Loop) :
  grows handlerCall (live l) (live (arrive env ts a l)).
Proof.
  destruct a; simpl; [apply handleEvent_grows|apply useInput_grows].
Qed.

Lemma consume_grows (env : Collaborators) (ts : N) (arrived : list Arrival)
    (l : Loop) :
  grows handlerCall (live l) (live (consume env ts arrived l)).
Proof.
  revert l; induction arrived as [|a arrived IH]; intros l; simpl.
  - apply grows_refl.
  - eapply grows_trans; [apply arrive_grows|apply IH].
Qed.

Lemma scheduledBatches_app (st st' : State) (extra : list Call) :
  trace st' = trace st ++ extra ->
  scheduledBatches st'
  = scheduledBatches st
    ++ flat_map (fun c => match c with
                          | ScheduleToolCalls rs s => [(rs, s)]
                          | _ => []
                          end) extra.
Proof. intros H. unfold scheduledBatches. now rewrite H, flat_map_app. Qed.

Lemma grows_scheduledBatches (st st' : State) :
  grows handlerCall st st' -> scheduledBatches st' = scheduledBatches st.
Proof.
  intros [_ [extra [H F]]]. rewrite (scheduledBatches_app st st' extra H).
  rewrite <- app_nil_r. f_equal. clear H.
  induction F as [|c cs Hc _ IH]; [reflexivity|].
  destruct c; simpl in *; try contradiction; exact IH.
Qed.

Lemma grows_openedStreams (st st' : State) :
  grows laterCall st st' -> openedStreams st' = openedStreams st.
Proof.
  intros [_ [extra [H F]]]. unfold openedStreams. rewrite H, flat_map_app.
  rewrite <- app_nil_r. f_equal. clear H.
  induction F as [|c cs Hc _ IH]; [reflexivity|].
  destruct c; simpl in *; try contradiction; exact IH.
Qed.

Lemma handlerCall_later (c : Call) : handlerCall c -> laterCall c.
Proof. destruct c; simpl; auto. Qed.

Lemma processGeminiStreamEvents_grows (env : Collaborators) (stream : Stream)
    (ts : N) (signal : AbortSignal) (st : State) :
  grows laterCall st (fst (processGeminiStreamEvents env stream ts signal st)).
Proof.
  unfold processGeminiStreamEvents.
  pose proof (grows_weaken handlerCall laterCall _ _ handlerCall_later
                (consume_grows env ts (arrivals stream)
                   {| live := st; geminiMessageBuffer := [];
                      toolCallRequests := [] |})) as H.
  simpl in H.
  destruct (thrown stream); simpl; [exact H|].
  destruct (0 <? _)%nat; [|exact H].
  apply grows_call; [exact I|exact H].
Qed.

(** ** Tool-call requests of one stream *)

Lemma arrive_requests (env : Collaborators) (ts : N) (a : Arrival) (l : Loop) :
  toolCallRequests (arrive env ts a l) = toolCallRequests l ++ requestsOf [a].
Proof.
  destruct a as [event|r key]; simpl; [|now rewrite app_nil_r].
  destruct event; simpl; rewrite ?app_nil_r; reflexivity.
Qed.

Lemma consume_requests (env : Collaborators) (ts : N) (arrived : list Arrival)
    (l : Loop) :
  toolCallRequests (consume env ts arrived l)
  = toolCallRequests l ++ requestsOf arrived.
Proof.
  revert l; induction arrived as [|a arrived IH]; intros l; simpl.
  - now rewrite app_nil_r.
  - rewrite IH, arrive_requests. unfold requestsOf. simpl.
    now rewrite app_nil_r, app_assoc.
Qed.

(** C7.  Whatever part of the stream has been consumed, the scheduler has
    received nothing from it: requests are only collected, in stream order.
    When the stream ends, [processGeminiStreamEvents] returns [Completed] and
    the scheduler has received exactly one batch, made of all the requests of
    the stream in order together with the abort signal of the turn, or nothing
    at all when the stream asked for no tool. *)
Theorem tool_requests_batched (env : Collaborators) (arrived : list Arrival)
    (ts : N) (signal : AbortSignal) (st : State) :
  let start := {| live := st; geminiMessageBuffer := [];
                  toolCallRequests := [] |} in
  let out := processGeminiStreamEvents env
               {| arrivals := arrived; thrown := None |} ts signal st in
  (forall n,
      let l := consume env ts (firstn n arrived) start in
      scheduledBatches (live l) = scheduledBatches st
      /\ toolCallRequests l = requestsOf (firstn n arrived))
  /\ snd out = inl Completed
  /\ scheduledBatches (fst out)
     = scheduledBatches st
       ++ match requestsOf arrived with
          | [] => []
          | requests => [(requests, signal)]
          end
  /\ (forall queryToSend,
        performMemoryRefresh env = None ->
        sendMessageStream env queryToSend signal
        = {| arrivals := arrived; thrown := None |} ->
        let ran := runStream env queryToSend ts signal st in
        openedStreams (fst (fst ran)) = openedStreams st ++ [(queryToSend, signal)]
        /\ scheduledBatches (fst (fst ran))
           = scheduledBatches st
             ++ match requestsOf arrived with
                | [] => []
                | requests => [(requests, signal)]
                end).
Proof.
  intros start out.
  assert (Hbatch : forall st0,
             scheduledBatches
               (fst (processGeminiStreamEvents env
                       {| arrivals := arrived; thrown := None |} ts signal st0))
             = scheduledBatches st0
               ++ match requestsOf arrived with
                  | [] => []
                  | requests => [(requests, signal)]
                  end).
  { intros st0. unfold processGeminiStreamEvents. simpl.
    set (start0 := {| live := st0; geminiMessageBuffer := [];
                      toolCallRequests := [] |}).
    pose proof (consume_requests env ts arrived start0) as Hr. simpl in Hr.
    pose proof (grows_scheduledBatches st0 _
                  (consume_grows env ts arrived start0)) as Hs.
    rewrite Hr.
    destruct (requestsOf arrived) as [|q qs] eqn:E; simpl.
    + now rewrite app_nil_r.
    + rewrite (scheduledBatches_app (live (consume env ts arrived start0))
                 (call (ScheduleToolCalls (q :: qs) signal)
                    (live (consume env ts arrived start0)))
                 [ScheduleToolCalls (q :: qs) signal] eq_refl).
      simpl. now rewrite Hs. }
  split; [|split; [|split]].
  - intros n l. split.
    + apply (grows_scheduledBatches st (live l)).
      apply (consume_grows env ts (firstn n arrived) start).
    + unfold l. now rewrite consume_requests.
  - reflexivity.
  - apply Hbatch.
  - intros queryToSend Href Hstream ran.
    assert (Hran : fst (fst ran)
                   = fst (processGeminiStreamEvents env
                            {| arrivals := arrived; thrown := None |} ts signal
                            (call (SendMessageStream queryToSend signal)
                               (call PerformMemoryRefresh st)))).
    { unfold ran, runStream. rewrite Href, Hstream. reflexivity. }
    rewrite Hran. split.
    + rewrite (grows_openedStreams _ _
                 (processGeminiStreamEvents_grows env _ ts signal _)).
      unfold openedStreams. simpl. rewrite !flat_map_app. simpl.
      now rewrite !app_nil_r.
    + rewrite Hbatch. f_equal.
      unfold scheduledBatches. simpl. rewrite !flat_map_app. simpl.
      now rewrite !app_nil_r.
Qed.

(** ** After cancellation *)

Lemma useInput_cancelled (r : Render) (key : InkKey) (st : State) :
  turnCancelledRef st = true -> useInput r key st = st.
Proof.
  intros H. unfold useInput. rewrite H.
  now destruct (isResponding_state (streamingState r) && escape key).
Qed.

Lemma handleErrorEvent_trace (env : Collaborators) (value : ErrorValue)
    (ts : N) (st : State) :
  trace (handleErrorEvent env value ts st)
  = trace st
    ++ match pendingHistoryItemRef st with
       | Some item => [AddItem item ts]
       | None => []
       end
    ++ [AddItem (textItem ty_error (parseAndFormatApiError env value)) ts].
Proof.
  unfold handleErrorEvent.
  destruct (pendingHistoryItemRef st); simpl; [|reflexivity].
  now rewrite <- app_assoc.
Qed.

Lemma arrive_keeps_cancelled (env : Collaborators) (ts : N) (a : Arrival)
    (l : Loop) :
  turnCancelledRef (live l) = true ->
  turnCancelledRef (live (arrive env ts a l)) = true.
Proof.
  intros H. destruct a as [event|r key]; simpl.
  - destruct event; simpl; auto.
    + unfold handleContentEvent. now rewrite H.
    + unfold handleUserCancelledEvent. now rewrite H.
    + unfold handleErrorEvent.
      destruct (pendingHistoryItemRef (live l)); simpl; exact H.
  - now rewrite useInput_cancelled.
Qed.

Lemma consume_keeps_cancelled (env : Collaborators) (ts : N)
    (arrived : list Arrival) (l : Loop) :
  turnCancelledRef (live l) = true ->
  turnCancelledRef (live (consume env ts arrived l)) = true.
Proof.
  revert l; induction arrived as [|a arrived IH]; intros l H; simpl.
  - exact H.
  - apply IH. now apply arrive_keeps_cancelled.
Qed.

(** C5, amended.  Once the cancellation flag of the turn is set, nothing that
    arrives during the stream resets it.  From then on a [Content] event
    commits nothing and leaves the pending item alone (the text buffer is
    emptied), and a [UserCancelled] event and a further key press do nothing.
    The other events are handled as before the cancellation: [Thought]
    replaces the current thought, [Error] commits the pending item and an
    error entry, [ChatCompressed] commits its notice. *)
Theorem events_after_cancellation (env : Collaborators) (ts : N) (l : Loop) :
  turnCancelledRef (live l) = true ->
  (forall arrived, turnCancelledRef (live (consume env ts arrived l)) = true)
  /\ (forall value,
        handleEvent env ts (Content value) l
        = {| live := live l; geminiMessageBuffer := [];
             toolCallRequests := toolCallRequests l |})
  /\ handleEvent env ts UserCancelledEvent l = l
  /\ (forall r key, arrive env ts (KeyPress r key) l = l)
  /\ (forall value,
        st_thought (live (handleEvent env ts (Thought value) l)) = Some value)
  /\ (forall value,
        trace (live (handleEvent env ts (ErrorEvent value) l))
        = trace (live l)
          ++ match pendingHistoryItemRef (live l) with
             | Some item => [AddItem item ts]
             | None => []
             end
          ++ [AddItem (textItem ty_error (parseAndFormatApiError env value)) ts])
  /\ (forall value, exists notice,
        trace (live (handleEvent env ts (ChatCompressed value) l))
        = trace (live l) ++ [AddItem (textItem ty_info notice) (now (live l))]).
Proof.
  intros H. repeat split.
  - intros arrived. now apply consume_keeps_cancelled.
  - intros value. simpl. unfold handleContentEvent. now rewrite H.
  - simpl. unfold handleUserCancelledEvent. rewrite H. now destruct l.
  - intros r key. simpl. rewrite useInput_cancelled by exact H. now destruct l.
  - intros value. simpl. apply handleErrorEvent_trace.
  - intros value. eexists. reflexivity.
Qed.

Lemma events_after_cancellation_witness :
  turnCancelledRef (live (loopAt cancelledTurn (js "Hel"))) = true
  /\ handleEvent (plainEnv emptyStream) 1700000000000%N (Content (js "lo"))
       (loopAt cancelledTurn (js "Hel"))
     = loopAt cancelledTurn [].
Proof.
  split; [reflexivity|].
  exact (proj1 (proj2 (events_after_cancellation (plainEnv emptyStream)
                         1700000000000%N (loopAt cancelledTurn (js "Hel"))
                         eq_refl)) (js "lo")).
Defined.

(** C5 as stated fails: an [Error] event that arrives after the user has
    cancelled the turn still appends an error entry to the history. *)
Lemma error_event_after_cancellation :
  turnCancelledRef cancelledTurn = true
  /\ history (live (handleEvent (plainEnv emptyStream) 1700000000000%N
                      (ErrorEvent quotaError) (loopAt cancelledTurn [])))
     = history cancelledTurn
       ++ [textItem ty_error (js "[API Error: quota exceeded]")].
Proof. split; reflexivity. Qed.

(** ** Content events *)

Lemma substring_prefix (s : jsstring) (i : Z) :
  (0 <= i <= Z.of_nat (length s))%Z ->
  substring s 0 i = firstn (Z.to_nat i) s.
Proof.
  intros H. unfold substring, clampIndex.
  replace (Z.max 0 (Z.min 0 (Z.of_nat (length s)))) with 0%Z by lia.
  replace (Z.max 0 (Z.min i (Z.of_nat (length s)))) with i by lia.
  replace (Z.min 0 i) with 0%Z by lia.
  replace (Z.max 0 i - 0)%Z with i by lia.
  reflexivity.
Qed.

Lemma substringFrom_suffix (s : jsstring) (i : Z) :
  (0 <= i <= Z.of_nat (length s))%Z ->
  substringFrom s i = skipn (Z.to_nat i) s.
Proof.
  intros H. unfold substringFrom, substring, clampIndex.
  replace (Z.max 0 (Z.min i (Z.of_nat (length s)))) with i by lia.
  replace (Z.max 0 (Z.min (Z.of_nat (length s)) (Z.of_nat (length s))))
    with (Z.of_nat (length s)) by lia.
  replace (Z.min i (Z.of_nat (length s))) with i by lia.
  replace (Z.max i (Z.of_nat (length s))) with (Z.of_nat (length s)) by lia.
  apply firstn_all2. rewrite length_skipn. lia.
Qed.

Lemma afterLastBlankLine_le (s : jsstring) : afterLastBlankLine s <= length s.
Proof.
  induction s as [|a s IH]; [apply le_n|].
  destruct s as [|b rest]; [simpl; lia|].
  change (afterLastBlankLine (a :: b :: rest))
    with (match afterLastBlankLine (b :: rest) with
          | O => if ((a =? LF) && (b =? LF))%N then 2 else 0
          | S k => S (S k)
          end).
  destruct (afterLastBlankLine (b :: rest)).
  - destruct ((a =? LF) && (b =? LF))%N; simpl; lia.
  - simpl length in *. lia.
Qed.

Lemma paragraphEnv_contract : splitContract paragraphEnv.
Proof.
  intros buffer. simpl. unfold paragraphSplit.
  pose proof (afterLastBlankLine_le buffer).
  destruct (afterLastBlankLine buffer); lia.
Qed.

(** C6.  The contract of the splitter being [0 <= index <= length buffer]:
    a [Content] event of a turn that is not cancelled computes the buffer
    (the old buffer followed by the event's text while a model-text item is
    pending) and asks the splitter for an index.  When the index is the
    length, nothing is committed and the whole buffer is the text of the
    pending item; when it is smaller, exactly the first [index] code units
    are committed to the history, under the pending item's type, and the rest
    becomes the pending item and the buffer.  The buffer returned is the one
    the loop hands to the next [Content] event. *)
Theorem content_buffer_split (env : Collaborators) (delta current : jsstring)
    (ts : N) (st : State) :
  splitContract env ->
  turnCancelledRef st = false ->
  let started := startGeminiItem delta current ts st in
  let buffer := snd started in
  let index := findLastSafeSplitPoint env buffer in
  let out := handleContentEvent env delta current ts st in
  (0 <= index <= Z.of_nat (length buffer))%Z
  /\ (isGeminiItem (pendingHistoryItemRef st) = true ->
      started = (st, current ++ delta))
  /\ (index = Z.of_nat (length buffer) ->
      snd out = buffer
      /\ trace (fst out) = trace (fst started)
      /\ pendingHistoryItemRef (fst out)
         = Some (textItem (typeOf (pendingHistoryItemRef (fst started)))
                   buffer))
  /\ ((index < Z.of_nat (length buffer))%Z ->
      trace (fst out)
      = trace (fst started)
        ++ [AddItem (textItem (typeOf (pendingHistoryItemRef (fst started)))
                       (firstn (Z.to_nat index) buffer)) ts]
      /\ pendingHistoryItemRef (fst out)
         = Some (textItem ty_gemini_content (skipn (Z.to_nat index) buffer))
      /\ snd out = skipn (Z.to_nat index) buffer
      /\ firstn (Z.to_nat index) buffer ++ snd out = buffer)
  /\ (forall requests,
        geminiMessageBuffer
          (handleEvent env ts (Content delta)
             {| live := st; geminiMessageBuffer := current;
                toolCallRequests := requests |})
        = snd out).
Proof.
  intros Hsplit Hlive started buffer index out.
  assert (Hout : out = splitGeminiMessage env buffer ts (fst started)).
  { unfold out, handleContentEvent. now rewrite Hlive. }
  pose proof (Hsplit buffer) as Hidx. fold index in Hidx.
  split; [exact Hidx|].
  split.
  { intros Hg. unfold started, startGeminiItem. now rewrite Hg. }
  split; [|split].
  - intros Heq. rewrite Hout. unfold splitGeminiMessage. fold index.
    rewrite Heq, Z.eqb_refl. simpl. auto.
  - intros Hlt. rewrite Hout. unfold splitGeminiMessage. fold index.
    destruct (Z.eqb_spec index (Z.of_nat (length buffer))) as [E|_]; [lia|].
    rewrite substring_prefix, substringFrom_suffix by exact Hidx.
    simpl. repeat split. apply firstn_skipn.
  - intros requests. reflexivity.
Qed.

Lemma content_buffer_split_witness :
  splitContract paragraphEnv
  /\ turnCancelledRef midTurn = false
  /\ snd (handleContentEvent paragraphEnv [10; 10; 119; 111]%N (js "Hel")
            1700000000000%N midTurn)
     = js "wo".
Proof.
  split; [exact paragraphEnv_contract|]. split; [reflexivity|].
  destruct (content_buffer_split paragraphEnv [10; 10; 119; 111]%N (js "Hel")
              1700000000000%N midTurn paragraphEnv_contract eq_refl)
    as (_ & _ & _ & H & _).
  destruct (H eq_refl) as (_ & _ & H' & _).
  exact H'.
Defined.

(** C10.  A [Content] event of a turn that is not cancelled, arriving while
    the pending item is not model text (there is none, or it is a tool group
    or another kind of item): the pending item, if any, is committed to the
    history first, an empty 'gemini' item becomes the pending item, and the
    buffer handed in is dropped, the event's text alone being the buffer that
    is then split.  The result does not depend on the old buffer. *)
Theorem content_restarts_buffer (env : Collaborators)
    (delta current : jsstring) (ts : N) (st : State) :
  turnCancelledRef st = false ->
  isGeminiItem (pendingHistoryItemRef st) = false ->
  let fresh := setPendingHistoryItem (Some (textItem ty_gemini []))
                 (addPendingItem ts st) in
  let out := handleContentEvent env delta current ts st in
  out = splitGeminiMessage env delta ts fresh
  /\ (forall current', handleContentEvent env delta current' ts st = out)
  /\ trace fresh
     = trace st ++ match pendingHistoryItemRef st with
                   | Some item => [AddItem item ts]
                   | None => []
                   end
  /\ grows handlerCall fresh (fst out)
  /\ (findLastSafeSplitPoint env delta = Z.of_nat (length delta) ->
      snd out = delta
      /\ pendingHistoryItemRef (fst out) = Some (textItem ty_gemini delta)
      /\ trace (fst out) = trace fresh)
  /\ ((0 <= findLastSafeSplitPoint env delta < Z.of_nat (length delta))%Z ->
      firstn (Z.to_nat (findLastSafeSplitPoint env delta)) delta ++ snd out
      = delta).
Proof.
  intros Hlive Hng fresh out.
  assert (Hall : forall c, handleContentEvent env delta c ts st
                           = splitGeminiMessage env delta ts fresh).
  { intros c. unfold handleContentEvent, startGeminiItem.
    now rewrite Hlive, Hng. }
  unfold out. rewrite Hall.
  split; [reflexivity|]. split; [exact Hall|].
  split.
  { unfold fresh, addPendingItem.
    destruct (pendingHistoryItemRef st); simpl; now rewrite ?app_nil_r. }
  split.
  { unfold splitGeminiMessage.
    destruct (_ =? _)%Z; simpl; unfold addItem; grows_tac. }
  split.
  - intros Heq. unfold splitGeminiMessage. rewrite Heq, Z.eqb_refl.
    simpl. auto.
  - intros Hlt. unfold splitGeminiMessage.
    destruct (Z.eqb_spec (findLastSafeSplitPoint env delta)
                (Z.of_nat (length delta))) as [E|_]; [lia|].
    simpl. rewrite substringFrom_suffix by lia. apply firstn_skipn.
Qed.

Lemma content_restarts_buffer_witness :
  turnCancelledRef toolGroupPending = false
  /\ isGeminiItem (pendingHistoryItemRef toolGroupPending) = false
  /\ handleContentEvent (plainEnv emptyStream) (js "Done.") (js "stale")
       1700000000000%N toolGroupPending
     = handleContentEvent (plainEnv emptyStream) (js "Done.") []
         1700000000000%N toolGroupPending.
Proof.
  split; [reflexivity|]. split; [reflexivity|].
  destruct (content_restarts_buffer (plainEnv emptyStream) (js "Done.") []
              1700000000000%N toolGroupPending eq_refl eq_refl)
    as (_ & H & _).
  exact (H (js "stale")).
Defined.

(** ** The tool-call re-entry effect *)

Lemma grows_submittedMarks (st st' : State) :
  grows laterCall st st' -> submittedMarks st' = submittedMarks st.
Proof.
  intros [_ [extra [H F]]]. unfold submittedMarks. rewrite H, flat_map_app.
  rewrite <- app_nil_r. f_equal. clear H.
  induction F as [|c cs Hc _ IH]; [reflexivity|].
  destruct c; simpl in *; try contradiction; exact IH.
Qed.

Lemma runStream_grows (env : Collaborators) (q : PartListUnion) (ts : N)
    (signal : AbortSignal) (st : State) :
  grows laterCall
    (match performMemoryRefresh env with
     | Some _ => call PerformMemoryRefresh st
     | None => call (SendMessageStream q signal) (call PerformMemoryRefresh st)
     end)
    (fst (fst (runStream env q ts signal st))).
Proof.
  assert (Hcatch : forall a b e,
             grows laterCall a b ->
             grows laterCall a
               (fst (fst
                  match e with
                  | UnauthorizedError => (call OnAuthError b, true, Completed)
                  | NodeError code _ =>
                      if eqb_js code (js "ERR_CANCELED")
                      then (b, true, UserCancelled)
                      else (handleErrorEvent env
                              {| message := getErrorMessage env e;
                                 errorStatus := None |} ts b, true, Completed)
                  | OtherError _ =>
                      (handleErrorEvent env
                         {| message := getErrorMessage env e;
                            errorStatus := None |} ts b, true, Completed)
                  end))).
  { intros a b e H.
    assert (He : forall v, grows laterCall a (handleErrorEvent env v ts b)).
    { intros v. eapply grows_trans; [exact H|].
      apply (grows_weaken handlerCall laterCall _ _ handlerCall_later),
        handleErrorEvent_grows. }
    destruct e as [|code m|m]; simpl.
    - apply grows_call; [exact I|exact H].
    - destruct (eqb_js code (js "ERR_CANCELED")); simpl; [exact H|apply He].
    - apply He. }
  unfold runStream.
  destruct (performMemoryRefresh env) as [e|]; cbn [snd fst].
  - apply Hcatch, grows_refl.
  - pose proof (processGeminiStreamEvents_grows env
                  (sendMessageStream env q signal) ts signal
                  (call (SendMessageStream q signal)
                     (call PerformMemoryRefresh st))) as H.
    destruct (processGeminiStreamEvents _ _ _ _ _) as [s [status|e]];
      cbn [snd fst] in *; [exact H|].
    apply Hcatch, H.
Qed.

Lemma finishTurn_grows (r : Render) (hasError : bool)
    (status : StreamProcessingStatus) (ts : N) (st : State) :
  grows laterCall st (fst (finishTurn r hasError status ts st)).
Proof.
  unfold finishTurn, submitNextFromQueue, addItem.
  destruct (pendingHistoryItemRef st); simpl;
    match goal with |- context [if ?c then _ else _] => destruct c end;
    try destruct (messageQueue r); simpl; grows_tac.
Qed.

Lemma prepareQueryForGemini_parts (env : Collaborators)
    (parts : list PartUnion) (ts : N) (signal : AbortSignal) (st : State) :
  turnCancelledRef st = false ->
  prepareQueryForGemini env (PLArray parts) ts signal st
  = (st, Some (PLArray parts)).
Proof. intros H. unfold prepareQueryForGemini. now rewrite H. Qed.

(** A continuation with tool responses goes straight to the model. *)
Lemma submitQueryOnce_continuation (r : Render) (env : Collaborators)
    (parts : list PartUnion) (st : State) :
  let turn := setThought None (setIsResponding true (fst (startTurn st))) in
  let ran := runStream env (PLArray parts) (now st) (controllers st) turn in
  submitQueryOnce r env (PLArray parts) true st
  = finishTurn r (snd (fst ran)) (snd ran) (now st) (fst (fst ran)).
Proof.
  intros turn ran. unfold submitQueryOnce.
  rewrite !andb_false_r.
  rewrite prepareQueryForGemini_parts by reflexivity.
  cbn [snd fst]. fold turn.
  change (now (fst (startTurn st))) with (now st).
  change (snd (startTurn st)) with (controllers st).
  fold ran. now destruct ran as [[s h] t].
Qed.

Lemma continuation_effects (r : Render) (env : Collaborators)
    (parts : list PartUnion) (st : State) :
  let out := submitQueryOnce r env (PLArray parts) true st in
  st_toolCalls (fst out) = st_toolCalls st
  /\ submittedMarks (fst out) = submittedMarks st
  /\ (toolCalls r <> [] -> snd out = None)
  /\ (performMemoryRefresh env = None ->
      openedStreams (fst out)
      = openedStreams st ++ [(PLArray parts, controllers st)]).
Proof.
  intros out. unfold out. rewrite submitQueryOnce_continuation.
  set (turn := setThought None (setIsResponding true (fst (startTurn st)))).
  set (ran := runStream env (PLArray parts) (now st) (controllers st) turn).
  pose proof (runStream_grows env (PLArray parts) (now st) (controllers st)
                turn) as Hrun.
  fold ran in Hrun.
  pose proof (finishTurn_grows r (snd (fst ran)) (snd ran) (now st)
                (fst (fst ran))) as Hfin.
  pose proof (grows_trans _ _ _ _ Hrun Hfin) as H.
  set (final := fst (finishTurn r (snd (fst ran)) (snd ran) (now st)
                       (fst (fst ran)))) in *.
  clearbody final. clear Hrun Hfin.
  repeat split.
  - destruct H as [E _]. rewrite E.
    now destruct (performMemoryRefresh env).
  - rewrite (grows_submittedMarks _ _ H).
    destruct (performMemoryRefresh env); unfold submittedMarks; simpl;
      rewrite !flat_map_app; simpl; now rewrite !app_nil_r.
  - intros Hne.
    destruct (finishTurn_spec r (snd (fst ran)) (snd ran) (now st)
                (fst (fst ran))) as (_ & _ & _ & _ & Hiff & _).
    destruct (snd (finishTurn _ _ _ _ _)) eqn:E; [|reflexivity].
    exfalso. apply Hne, Hiff. discriminate.
  - intros Href. rewrite Href in H. rewrite (grows_openedStreams _ _ H).
    unfold openedStreams. simpl. rewrite !flat_map_app. simpl.
    now rewrite !app_nil_r.
Qed.






(** * Further properties of the hook *)

(** ** What stream events leave alone *)

Lemma sameOutside_refl (st : State) : sameOutside st st.
Proof. repeat split. Qed.

Lemma sameOutside_trans (a b c : State) :
  sameOutside a b -> sameOutside b c -> sameOutside a c.
Proof.
  intros (A1 & A2 & A3 & A4 & A5) (B1 & B2 & B3 & B4 & B5).
  repeat split; congruence.
Qed.

Lemma handleContentEvent_frame (env : Collaborators) (v buf : jsstring)
    (ts : N) (st : State) :
  let st' := fst (handleContentEvent env v buf ts st) in
  sameOutside st st'
  /\ turnCancelledRef st' = turnCancelledRef st
  /\ st_thought st' = st_thought st
  /\ st_isResponding st' = st_isResponding st.
Proof.
  unfold handleContentEvent, startGeminiItem, splitGeminiMessage,
    addPendingItem, addItem, sameOutside.
  destruct (turnCancelledRef st) eqn:E; [simpl; rewrite ?E; repeat split|].
  destruct (negb (isGeminiItem (pendingHistoryItemRef st)));
    destruct (pendingHistoryItemRef st); simpl;
    match goal with |- context [(?a =? ?b)%Z] => destruct (a =? b)%Z end;
    simpl; rewrite ?E; repeat split.
Qed.

Lemma handleUserCancelledEvent_frame (ts : N) (st : State) :
  let st' := handleUserCancelledEvent ts st in
  sameOutside st st'
  /\ turnCancelledRef st' = turnCancelledRef st
  /\ st_thought st' = st_thought st.
Proof.
  unfold handleUserCancelledEvent, addItem, sameOutside.
  destruct (turnCancelledRef st) eqn:E; [simpl; rewrite ?E; repeat split|].
  destruct (pendingHistoryItemRef st) as [item|]; [destruct (type item)|];
    simpl; rewrite ?E; repeat split.
Qed.

Lemma handleErrorEvent_frame (env : Collaborators) (v : ErrorValue) (ts : N)
    (st : State) :
  let st' := handleErrorEvent env v ts st in
  sameOutside st st'
  /\ turnCancelledRef st' = turnCancelledRef st
  /\ st_thought st' = st_thought st
  /\ st_isResponding st' = st_isResponding st
  /\ pendingHistoryItemRef st' = None.
Proof.
  unfold handleErrorEvent, addItem, sameOutside.
  destruct (pendingHistoryItemRef st) eqn:E; simpl; rewrite ?E; repeat split.
Qed.

Lemma useInput_frame (r : Render) (key : InkKey) (st : State) :
  let st' := useInput r key st in
  sameOutside st st' /\ st_thought st' = st_thought st.
Proof.
  unfold useInput, addPendingItem, addItem, sameOutside. cbv zeta.
  destruct (isResponding_state (streamingState r) && escape key);
    [|repeat split].
  destruct (turnCancelledRef st); [repeat split|].
  simpl. destruct (abortControllerRef st) eqn:Ea; simpl;
    destruct (pendingHistoryItemRef st); simpl; repeat split; exact Ea.
Qed.

Lemma handleEvent_frame (env : Collaborators) (ts : N) (event : GeminiEvent)
    (l : Loop) :
  let st' := live (handleEvent env ts event l) in
  sameOutside (live l) st'
  /\ turnCancelledRef st' = turnCancelledRef (live l)
  /\ st_thought st'
     = match event with
       | Thought value => Some value
       | _ => st_thought (live l)
       end.
Proof.
  destruct event; simpl.
  - repeat split.
  - destruct (handleContentEvent_frame env value (geminiMessageBuffer l) ts
                (live l)) as (A & B & C & _). auto.
  - repeat split.
  - apply handleUserCancelledEvent_frame.
  - destruct (handleErrorEvent_frame env value ts (live l))
      as (A & B & C & _). auto.
  - repeat split.
  - repeat split.
  - repeat split.
  - repeat split.
Qed.

Lemma arrive_frame (env : Collaborators) (ts : N) (a : Arrival) (l : Loop) :
  sameOutside (live l) (live (arrive env ts a l)).
Proof.
  destruct a as [event|r key]; simpl.
  - apply handleEvent_frame.
  - apply useInput_frame.
Qed.

Lemma consume_frame (env : Collaborators) (ts : N) (arrived : list Arrival)
    (l : Loop) :
  sameOutside (live l) (live (consume env ts arrived l)).
Proof.
  revert l; induction arrived as [|a arrived IH]; intros l; simpl.
  - apply sameOutside_refl.
  - eapply sameOutside_trans; [apply arrive_frame|apply IH].
Qed.

Lemma stream_leaves_queue_and_flag_aux (env : Collaborators) (ts : N)
    (arrived : list Arrival) (l : Loop) :
  sameOutside (live l) (live (consume env ts arrived l))
  /\ (existsb isKeyPress arrived = false ->
      turnCancelledRef (live (consume env ts arrived l))
      = turnCancelledRef (live l)).
Proof.
  split; [apply consume_frame|].
  revert l.
  induction arrived as [|a arrived IH]; intros l H; simpl in *; [reflexivity|].
  apply orb_false_iff in H. destruct H as [Ha H].
  rewrite (IH _ H).
  destruct a as [event|r key]; [|discriminate].
  simpl. apply handleEvent_frame.
Qed.

(** X1.  Nothing that arrives while a stream is consumed (events and key
    presses alike) touches the message queue, the abort controller of the
    turn, the scheduler's list of tool calls or the clock; and a stream
    without key presses leaves the cancellation flag as it found it: no stream
    event sets it or clears it, [UserCancelled] included. *)
Theorem stream_leaves_queue_and_flag (env : Collaborators) (ts : N)
    (arrived : list Arrival) (l : Loop) :
  let st' := live (consume env ts arrived l) in
  st_messageQueue st' = st_messageQueue (live l)
  /\ abortControllerRef st' = abortControllerRef (live l)
  /\ st_toolCalls st' = st_toolCalls (live l)
  /\ controllers st' = controllers (live l)
  /\ (existsb isKeyPress arrived = false ->
      turnCancelledRef st' = turnCancelledRef (live l)).
Proof.
  intros st'.
  destruct (stream_leaves_queue_and_flag_aux env ts arrived l)
    as ((A & B & C & D & E) & F).
  repeat split; auto.
Qed.

Lemma stream_leaves_queue_and_flag_witness :
  existsb isKeyPress (arrivals twoToolStream) = false
  /\ turnCancelledRef
       (live (consume (plainEnv emptyStream) 1700000000000%N
                (arrivals twoToolStream) (loopAt midTurn [])))
     = false.
Proof.
  split; [reflexivity|].
  destruct (stream_leaves_queue_and_flag (plainEnv emptyStream)
              1700000000000%N (arrivals twoToolStream) (loopAt midTurn []))
    as (_ & _ & _ & _ & H).
  exact (H eq_refl).
Defined.

(** X2.  The thought shown after a stream is the value of its last [Thought]
    event, or the one shown before when the stream has none; thoughts never
    reach the history. *)
Theorem latest_thought_wins (env : Collaborators) (ts : N)
    (arrived : list Arrival) (l : Loop) :
  st_thought (live (consume env ts arrived l))
  = lastThought arrived (st_thought (live l))
  /\ (forall value,
        history (live (handleEvent env ts (Thought value) l))
        = history (live l)).
Proof.
  split; [|intros value; reflexivity].
  revert l; induction arrived as [|a arrived IH]; intros l; simpl;
    [reflexivity|].
  unfold lastThought in *. simpl. rewrite IH. f_equal.
  destruct a as [event|r key]; simpl.
  - destruct (handleEvent_frame env ts event l) as (_ & _ & H).
    rewrite H. now destruct event.
  - apply useInput_frame.
Qed.

(** X3.  A stream that throws hands nothing to the scheduler, however many
    tool-call requests it had delivered before: the requests collected so far
    are dropped with the loop, and the error is what the caller gets. *)
Theorem failed_stream_schedules_nothing (env : Collaborators)
    (arrived : list Arrival) (e : Thrown) (ts : N) (signal : AbortSignal)
    (st : State) :
  let out := processGeminiStreamEvents env
               {| arrivals := arrived; thrown := Some e |} ts signal st in
  snd out = inr e
  /\ scheduledBatches (fst out) = scheduledBatches st
  /\ fst out = live (consume env ts arrived (loopAt st [])).
Proof.
  intros out. split; [reflexivity|]. split; [|reflexivity].
  unfold out, processGeminiStreamEvents. simpl.
  apply (grows_scheduledBatches st _
           (consume_grows env ts arrived
              {| live := st; geminiMessageBuffer := [];
                 toolCallRequests := [] |})).
Qed.

(** ** The text of a message *)

Lemma history_call (c : Call) (st : State) :
  history (call c st)
  = history st ++ match c with AddItem item _ => [item] | _ => [] end.
Proof. unfold history. simpl. rewrite flat_map_app. simpl. now rewrite app_nil_r. Qed.

Lemma splitGeminiMessage_pieces (env : Collaborators) (buffer : jsstring)
    (ts : N) (st : State) (ty : ItemType) (shown : jsstring) :
  splitContract env ->
  pendingHistoryItemRef st = Some (textItem ty shown) ->
  let out := splitGeminiMessage env buffer ts st in
  turnCancelledRef (fst out) = turnCancelledRef st
  /\ ((history (fst out) = history st
       /\ snd out = buffer
       /\ pendingHistoryItemRef (fst out) = Some (textItem ty buffer))
      \/ (exists before,
             history (fst out) = history st ++ [textItem ty before]
             /\ before ++ snd out = buffer
             /\ pendingHistoryItemRef (fst out)
                = Some (textItem ty_gemini_content (snd out)))).
Proof.
  intros Hsplit Hp out. unfold out, splitGeminiMessage.
  pose proof (Hsplit buffer) as Hidx.
  destruct (Z.eqb_spec (findLastSafeSplitPoint env buffer)
              (Z.of_nat (length buffer))) as [E|NE].
  - simpl. split; [reflexivity|]. left. rewrite Hp. auto.
  - rewrite substring_prefix, substringFrom_suffix by exact Hidx.
    simpl. split; [reflexivity|]. right.
    exists (firstn (Z.to_nat (findLastSafeSplitPoint env buffer)) buffer).
    rewrite Hp. simpl. split; [apply history_call|].
    split; [apply firstn_skipn|reflexivity].
Qed.

Lemma consume_contents (env : Collaborators) (ts : N)
    (deltas : list jsstring) :
  splitContract env ->
  forall (l : Loop) (ty0 : ItemType),
    isModelText ty0 ->
    turnCancelledRef (live l) = false ->
    pendingHistoryItemRef (live l)
    = Some (textItem ty0 (geminiMessageBuffer l)) ->
    let l' := consume env ts (contentEvents deltas) l in
    exists pieces ty,
      history (live l') = history (live l) ++ pieces
      /\ pendingHistoryItemRef (live l')
         = Some (textItem ty (geminiMessageBuffer l'))
      /\ textOf pieces ++ geminiMessageBuffer l'
         = geminiMessageBuffer l ++ concat deltas
      /\ map type (pieces ++ [textItem ty []])
         = ty0 :: repeat ty_gemini_content (length pieces)
      /\ turnCancelledRef (live l') = false.
Proof.
  intros Hsplit.
  induction deltas as [|d deltas IH]; intros l ty0 Hty Hlive Hp; cbv zeta.
  - exists [], ty0. simpl. rewrite !app_nil_r. auto.
  - change (consume env ts (contentEvents (d :: deltas)) l)
      with (consume env ts (contentEvents deltas)
              (handleEvent env ts (Content d) l)).
    set (l1 := handleEvent env ts (Content d) l).
    assert (Hstart : startGeminiItem d (geminiMessageBuffer l) ts (live l)
                     = (live l, geminiMessageBuffer l ++ d)).
    { unfold startGeminiItem. rewrite Hp.
      destruct Hty as [-> | ->]; reflexivity. }
    assert (Hl1 : live l1
                  = fst (splitGeminiMessage env (geminiMessageBuffer l ++ d)
                           ts (live l))
                  /\ geminiMessageBuffer l1
                     = snd (splitGeminiMessage env (geminiMessageBuffer l ++ d)
                              ts (live l))).
    { unfold l1. simpl. unfold handleContentEvent.
      rewrite Hlive, Hstart. split; reflexivity. }
    destruct Hl1 as [Hlv Hbf].
    destruct (splitGeminiMessage_pieces env (geminiMessageBuffer l ++ d) ts
                (live l) ty0 (geminiMessageBuffer l) Hsplit Hp)
      as (Hflag & [(Hh & Hs & Hpn) | (before & Hh & Hs & Hpn)]);
      rewrite <- Hlv, <- Hbf in *.
    + destruct (IH l1 ty0 Hty (eq_trans Hflag Hlive)
                  ltac:(rewrite Hs; exact Hpn))
        as (pieces & ty & H1 & H2 & H3 & H4 & H5).
      exists pieces, ty. rewrite H1, Hh, H3, Hs, <- app_assoc. auto.
    + destruct (IH l1 ty_gemini_content (or_intror eq_refl)
                  (eq_trans Hflag Hlive) Hpn)
        as (pieces & ty & H1 & H2 & H3 & H4 & H5).
      exists (textItem ty0 before :: pieces), ty.
      rewrite H1, Hh, <- app_assoc. simpl.
      repeat split; auto.
      * unfold textOf in *. simpl. rewrite <- app_assoc, H3, app_assoc, Hs.
        now rewrite <- app_assoc.
      * f_equal. rewrite H4. reflexivity.
Qed.

Lemma consume_fresh_contents (env : Collaborators) (ts : N)
    (deltas : list jsstring) (l : Loop) :
  splitContract env ->
  turnCancelledRef (live l) = false ->
  isGeminiItem (pendingHistoryItemRef (live l)) = false ->
  deltas <> [] ->
  let l' := consume env ts (contentEvents deltas) l in
  exists pieces ty,
    history (live l') = history (live l) ++ pendingAsList (live l) ++ pieces
    /\ pendingHistoryItemRef (live l')
       = Some (textItem ty (geminiMessageBuffer l'))
    /\ textOf pieces ++ geminiMessageBuffer l' = concat deltas
    /\ map type (pieces ++ [textItem ty []])
       = ty_gemini :: repeat ty_gemini_content (length pieces).
Proof.
  intros Hsplit Hlive Hng Hne l'.
  destruct deltas as [|d deltas]; [contradiction|].
  set (fresh := {| live := setPendingHistoryItem (Some (textItem ty_gemini []))
                             (addPendingItem ts (live l));
                   geminiMessageBuffer := [];
                   toolCallRequests := toolCallRequests l |}).
  assert (Hsame : l' = consume env ts (contentEvents (d :: deltas)) fresh).
  { unfold l'. simpl. f_equal.
    unfold handleContentEvent, startGeminiItem. simpl.
    rewrite Hlive, Hng. simpl.
    assert (Hf : turnCancelledRef (addPendingItem ts (live l)) = false).
    { unfold addPendingItem. now destruct (pendingHistoryItemRef (live l)). }
    rewrite Hf. reflexivity. }
  assert (Hfl : turnCancelledRef (live fresh) = false).
  { simpl. unfold addPendingItem.
    now destruct (pendingHistoryItemRef (live l)). }
  destruct (consume_contents env ts (d :: deltas) Hsplit fresh ty_gemini
              (or_introl eq_refl) Hfl eq_refl)
    as (pieces & ty & H1 & H2 & H3 & H4 & _).
  rewrite <- Hsame in *.
  exists pieces, ty. repeat split; auto.
  rewrite H1. rewrite app_assoc. f_equal.
  simpl. unfold addPendingItem, pendingAsList, addItem.
  destruct (pendingHistoryItemRef (live l));
    [apply history_call|now rewrite app_nil_r].
Qed.

(** X4.  Splitting for display never changes what the model said.  For a run
    of [Content] events in a turn that is not cancelled, starting when no
    model text is pending (and with the splitter keeping to its contract):
    the pending item of before, if any, is committed first; then come the
    committed pieces of the message; their texts followed by the text still
    pending are exactly the deltas put together, in order.  The pending item
    holds the loop's buffer.  The first piece of the message is tagged
    'gemini' and every later one, and the pending rest after a split,
    'gemini_content'. *)
Theorem streamed_text_is_conserved (env : Collaborators) (ts : N)
    (deltas : list jsstring) (l : Loop) :
  splitContract env ->
  turnCancelledRef (live l) = false ->
  isGeminiItem (pendingHistoryItemRef (live l)) = false ->
  deltas <> [] ->
  let l' := consume env ts (contentEvents deltas) l in
  exists pieces ty,
    history (live l') = history (live l) ++ pendingAsList (live l) ++ pieces
    /\ pendingHistoryItemRef (live l')
       = Some (textItem ty (geminiMessageBuffer l'))
    /\ textOf pieces ++ geminiMessageBuffer l' = concat deltas
    /\ map type (pieces ++ [textItem ty []])
       = ty_gemini :: repeat ty_gemini_content (length pieces).
Proof.
  intros Hsplit Hlive Hng Hne.
  exact (consume_fresh_contents env ts deltas l Hsplit Hlive Hng Hne).
Qed.

Lemma streamed_text_is_conserved_witness :
  splitContract paragraphEnv
  /\ turnCancelledRef toolGroupPending = false
  /\ isGeminiItem (pendingHistoryItemRef toolGroupPending) = false
  /\ exists pieces ty,
       history (live (consume paragraphEnv 1700000000000%N
                        (contentEvents [js "One."; [LF; LF]; js "Two."])
                        (loopAt toolGroupPending (js "stale"))))
       = history toolGroupPending ++ pendingAsList toolGroupPending ++ pieces
       /\ pendingHistoryItemRef
            (live (consume paragraphEnv 1700000000000%N
                     (contentEvents [js "One."; [LF; LF]; js "Two."])
                     (loopAt toolGroupPending (js "stale"))))
          = Some (textItem ty
                    (geminiMessageBuffer
                       (consume paragraphEnv 1700000000000%N
                          (contentEvents [js "One."; [LF; LF]; js "Two."])
                          (loopAt toolGroupPending (js "stale")))))
       /\ textOf pieces
          ++ geminiMessageBuffer
               (consume paragraphEnv 1700000000000%N
                  (contentEvents [js "One."; [LF; LF]; js "Two."])
                  (loopAt toolGroupPending (js "stale")))
          = concat [js "One."; [LF; LF]; js "Two."]
       /\ map type (pieces ++ [textItem ty []])
          = ty_gemini :: repeat ty_gemini_content (length pieces).
Proof.
  split; [exact paragraphEnv_contract|].
  split; [reflexivity|]. split; [reflexivity|].
  apply (streamed_text_is_conserved paragraphEnv 1700000000000%N
           [js "One."; [LF; LF]; js "Two."]
           (loopAt toolGroupPending (js "stale")) paragraphEnv_contract
           eq_refl eq_refl).
  discriminate.
Defined.

(** ** Preparing the query *)

Lemma afterCalls_fields (extra : list Call) (st : State) :
  let st' := afterCalls extra st in
  trace st' = trace st ++ extra
  /\ st_messageQueue st' = st_messageQueue st
  /\ st_isResponding st' = st_isResponding st
  /\ st_thought st' = st_thought st
  /\ turnCancelledRef st' = turnCancelledRef st
  /\ abortControllerRef st' = abortControllerRef st
  /\ pendingHistoryItemRef st' = pendingHistoryItemRef st
  /\ st_toolCalls st' = st_toolCalls st
  /\ controllers st' = controllers st
  /\ now st' = now st.
Proof.
  revert st; induction extra as [|c extra IH]; intros st; simpl.
  - rewrite app_nil_r. repeat split.
  - destruct (IH (call c st)) as (H1 & H2 & H3 & H4 & H5 & H6 & H7 & H8 & H9 & H10).
    unfold afterCalls in *. simpl in *.
    rewrite H1, <- app_assoc. repeat split; assumption.
Qed.

Lemma prepareQueryForGemini_calls (env : Collaborators) (query : PartListUnion)
    (ts : N) (signal : AbortSignal) (st : State) :
  exists extra,
    fst (prepareQueryForGemini env query ts signal st) = afterCalls extra st
    /\ Forall (fun c => prepareCall c /\ usesSignal signal c) extra.
Proof.
  unfold prepareQueryForGemini, addItem.
  destruct (turnCancelledRef st); [exists []; split; [reflexivity|constructor]|].
  destruct (asString query) as [s|];
    [|exists []; split; [reflexivity|constructor]].
  destruct (length (trim s) =? 0)%nat;
    [exists []; split; [reflexivity|constructor]|].
  set (t := trim s).
  destruct (hasLogger env);
    (destruct (handleSlashCommand env t) as [[|]|[|] [n|] [a|]]; simpl;
     try destruct (0 <? length n)%nat; simpl;
     try destruct (shellModeActive env); simpl;
     try destruct (handleShellCommand env t signal); simpl;
     try destruct (isAtCommand env t); simpl;
     try destruct (atShouldProceed (handleAtCommand env t ts signal)); simpl;
     try destruct (processedQuery (handleAtCommand env t ts signal)); simpl;
     (eexists; split;
      [unfold afterCalls;
       match goal with
       | |- ?lhs = _ =>
           let rec build s :=
             lazymatch s with
             | call ?c ?s' =>
                 let rest := build s' in constr:(rest ++ [c])
             | _ => constr:(@nil Call)
             end in
           let l := build lhs in
           let l' := eval simpl in l in
           instantiate (1 := l')
       end; reflexivity
      |repeat constructor])).
Qed.

Lemma prepareQueryForGemini_blank (env : Collaborators) (s : jsstring)
    (ts : N) (signal : AbortSignal) (st : State) :
  nonBlank s = false ->
  prepareQueryForGemini env (textQuery s) ts signal st = (st, None).
Proof.
  intros H. unfold prepareQueryForGemini. simpl.
  destruct (turnCancelledRef st); [reflexivity|].
  rewrite <- nonBlank_trim in H. apply Nat.ltb_ge in H.
  replace (length (trim s)) with 0 by lia. reflexivity.
Qed.

(** X5.  A query of white space only (the empty string included), passing
    the busy check and the queue check, starts a turn and ends it at once:
    the only collaborator called is [startNewTurn], so nothing is logged,
    shown or sent to the model; [isResponding] is false again, the pending
    item is untouched, the next message of the render's queue (if any: only
    a continuation gets here with one) is submitted, and the abort controller
    made for the turn stays in place. *)
Theorem blank_query_contacts_nobody (r : Render) (env : Collaborators)
    (s : jsstring) (isContinuation : bool) (st : State) :
  isBusy (streamingState r) && negb isContinuation = false ->
  (0 <? length (messageQueue r))%nat && negb isContinuation = false ->
  nonBlank s = false ->
  let out := submitQueryOnce r env (textQuery s) isContinuation st in
  trace (fst out) = trace st ++ [StartNewTurn]
  /\ st_isResponding (fst out) = false
  /\ pendingHistoryItemRef (fst out) = pendingHistoryItemRef st
  /\ snd out = hd_error (messageQueue r)
  /\ abortControllerRef (fst out) = Some (controllers st).
Proof.
  intros Hbusy Hqueue Hblank out. unfold out, submitQueryOnce.
  rewrite Hbusy, Hqueue.
  rewrite prepareQueryForGemini_blank by exact Hblank.
  cbn [fst snd]. unfold submitNextFromQueue.
  destruct (messageQueue r); simpl; repeat split.
Qed.

Lemma blank_query_contacts_nobody_witness :
  isBusy (streamingState (renderOf mounted)) && negb false = false
  /\ (0 <? length (messageQueue (renderOf mounted)))%nat && negb false = false
  /\ nonBlank (js "  ") = false
  /\ trace (fst (submitQueryOnce (renderOf mounted) (plainEnv answerStream)
                   (textQuery (js "  ")) false mounted))
     = [StartNewTurn].
Proof.
  split; [reflexivity|]. split; [reflexivity|]. split; [reflexivity|].
  exact (proj1 (blank_query_contacts_nobody (renderOf mounted)
                  (plainEnv answerStream) (js "  ") false mounted
                  eq_refl eq_refl eq_refl)).
Defined.

(** ** What a whole activation keeps *)

Lemma runStream_frame (env : Collaborators) (q : PartListUnion) (ts : N)
    (signal : AbortSignal) (st : State) :
  let st' := fst (fst (runStream env q ts signal st)) in
  sameOutside st st'
  /\ (existsb isKeyPress (arrivals (sendMessageStream env q signal)) = false ->
      turnCancelledRef st' = turnCancelledRef st).
Proof.
  assert (Hcatch : forall b e,
             let c := fst (fst
                  match e with
                  | UnauthorizedError => (call OnAuthError b, true, Completed)
                  | NodeError code _ =>
                      if eqb_js code (js "ERR_CANCELED")
                      then (b, true, UserCancelled)
                      else (handleErrorEvent env
                              {| message := getErrorMessage env e;
                                 errorStatus := None |} ts b, true, Completed)
                  | OtherError _ =>
                      (handleErrorEvent env
                         {| message := getErrorMessage env e;
                            errorStatus := None |} ts b, true, Completed)
                  end) in
             sameOutside b c /\ turnCancelledRef c = turnCancelledRef b).
  { intros b e.
    assert (He : forall v, sameOutside b (handleErrorEvent env v ts b)
                           /\ turnCancelledRef (handleErrorEvent env v ts b)
                              = turnCancelledRef b).
    { intros v. destruct (handleErrorEvent_frame env v ts b) as (A & B & _).
      auto. }
    destruct e as [|code m|m]; simpl.
    - repeat split.
    - destruct (eqb_js code (js "ERR_CANCELED")); simpl;
        [repeat split|apply He].
    - apply He. }
  unfold runStream.
  destruct (performMemoryRefresh env) as [e|]; cbn [snd fst].
  - destruct (Hcatch (call PerformMemoryRefresh st) e) as [A B].
    split; [|intros _; rewrite B; reflexivity].
    eapply sameOutside_trans; [|exact A]. repeat split.
  - set (sent := call (SendMessageStream q signal)
                   (call PerformMemoryRefresh st)).
    set (stream := sendMessageStream env q signal).
    pose proof (stream_leaves_queue_and_flag_aux env ts (arrivals stream)
                  {| live := sent; geminiMessageBuffer := [];
                     toolCallRequests := [] |}) as Hc.
    simpl in Hc. destruct Hc as [Hout Hflag].
    unfold processGeminiStreamEvents.
    set (l := consume env ts (arrivals stream) _) in *.
    destruct (thrown stream) as [e|]; cbn [snd fst].
    + destruct (Hcatch (live l) e) as [A B].
      split; [eapply sameOutside_trans; [exact Hout|exact A]|].
      intros Hk. rewrite B. now apply Hflag.
    + split.
      * destruct (0 <? length (toolCallRequests l))%nat; exact Hout.
      * intros Hk.
        destruct (0 <? length (toolCallRequests l))%nat; now apply Hflag.
Qed.

Lemma finishTurn_frame (r : Render) (hasError : bool)
    (status : StreamProcessingStatus) (ts : N) (st : State) :
  let st' := fst (finishTurn r hasError status ts st) in
  turnCancelledRef st' = turnCancelledRef st
  /\ controllers st' = controllers st
  /\ st_toolCalls st' = st_toolCalls st
  /\ (st_messageQueue st' = st_messageQueue st
      \/ st_messageQueue st' = tl (st_messageQueue st)).
Proof.
  unfold finishTurn, submitNextFromQueue, addItem.
  destruct (pendingHistoryItemRef st); simpl;
    match goal with |- context [if ?c then _ else _] => destruct c end;
    try destruct (messageQueue r); simpl; repeat split; auto.
Qed.

(** The ways an activation of [submitQuery] can go once it is past the busy
    check. *)
Lemma submitQueryOnce_cases (r : Render) (env : Collaborators)
    (query : PartListUnion) (isContinuation : bool) (st : State) :
  isBusy (streamingState r) && negb isContinuation = false ->
  let out := submitQueryOnce r env query isContinuation st in
  ((0 <? length (messageQueue r))%nat && negb isContinuation = true
   /\ out = submitNextFromQueue r (fst (startTurn st)))
  \/ ((0 <? length (messageQueue r))%nat && negb isContinuation = false
      /\ exists extra,
           Forall (fun c => prepareCall c /\ usesSignal (controllers st) c)
             extra
           /\ let prepared :=
                afterCalls extra
                  (setThought None (setIsResponding true (fst (startTurn st))))
              in
              out = submitNextFromQueue r (setIsResponding false prepared)
              \/ exists queryToSend,
                   let ran := runStream env queryToSend (now st)
                                (controllers st) prepared in
                   out = finishTurn r (snd (fst ran)) (snd ran) (now st)
                           (fst (fst ran))).
Proof.
  intros Hbusy out. unfold out, submitQueryOnce. rewrite Hbusy.
  destruct ((0 <? length (messageQueue r))%nat && negb isContinuation) eqn:Hq;
    [left; auto|right; split; [reflexivity|]].
  destruct (prepareQueryForGemini_calls env query (now (fst (startTurn st)))
              (snd (startTurn st))
              (setThought None (setIsResponding true (fst (startTurn st)))))
    as (extra & Hfst & Hall).
  exists extra. split; [exact Hall|]. cbv zeta. rewrite <- Hfst.
  destruct (snd (prepareQueryForGemini _ _ _ _ _)) as [queryToSend|];
    [right; exists queryToSend|left; reflexivity].
  change (now (fst (startTurn st))) with (now st).
  change (snd (startTurn st)) with (controllers st).
  now destruct (runStream _ _ _ _ _) as [[s h] t].
Qed.

(** X6.  An activation of [submitQuery] that is past the busy check makes
    exactly one abort controller.  Provided the collaborators awaited by the
    preprocessing return (here they always do: a logger, a command handler
    or an at-command processor that rejects is not modelled), the activation
    ends with [isResponding] false unless it only hands over to the queue at
    its start: the hook is not left looking busy by a turn that has settled,
    be it refused by the preprocessing, finished, failed in the memory
    refresh or in the stream, or cancelled. *)
Theorem settled_turn_is_not_responding (r : Render) (env : Collaborators)
    (query : PartListUnion) (isContinuation : bool) (st : State) :
  isBusy (streamingState r) && negb isContinuation = false ->
  let out := submitQueryOnce r env query isContinuation st in
  controllers (fst out) = S (controllers st)
  /\ ((0 <? length (messageQueue r))%nat && negb isContinuation = false ->
      st_isResponding (fst out) = false).
Proof.
  intros Hbusy out.
  destruct (submitQueryOnce_cases r env query isContinuation st Hbusy)
    as [[Hq Hout] | [Hq (extra & _ & [Hout | (q & Hout)])]];
    fold out in Hout; rewrite Hout; clear Hout.
  - unfold submitNextFromQueue. rewrite Hq.
    destruct (messageQueue r); simpl; repeat split; discriminate.
  - destruct (afterCalls_fields extra
                (setThought None (setIsResponding true (fst (startTurn st)))))
      as (_ & _ & _ & _ & _ & _ & _ & H8 & H9 & _).
    cbv zeta in H8, H9. simpl in H8, H9.
    set (prepared := afterCalls extra _) in *. clearbody prepared.
    unfold submitNextFromQueue.
    destruct (messageQueue r); simpl; rewrite H9; repeat split.
  - cbv zeta.
    set (prepared := afterCalls extra _).
    destruct (afterCalls_fields extra
                (setThought None (setIsResponding true (fst (startTurn st)))))
      as (_ & _ & _ & _ & _ & _ & _ & H8 & H9 & _).
    fold prepared in H8, H9. cbv zeta in H8, H9. simpl in H8, H9.
    clearbody prepared.
    destruct (runStream_frame env q (now st) (controllers st) prepared)
      as ((_ & _ & R3 & _ & R5) & _).
    set (ran := runStream env q (now st) (controllers st) prepared) in *.
    destruct (finishTurn_frame r (snd (fst ran)) (snd ran) (now st)
                (fst (fst ran))) as (_ & F2 & F3 & _).
    destruct (finishTurn_spec r (snd (fst ran)) (snd ran) (now st)
                (fst (fst ran))) as (_ & S2 & _).
    rewrite F2, R3, H9. repeat split. intros _. exact S2.
Qed.

Lemma settled_turn_is_not_responding_witness :
  isBusy (streamingState (renderOf mounted)) && negb false = false
  /\ (0 <? length (messageQueue (renderOf mounted)))%nat && negb false = false
  /\ st_isResponding
       (fst (submitQueryOnce (renderOf mounted) (plainEnv twoToolStream)
               (textQuery (js "what is in here?")) false mounted))
     = false.
Proof.
  split; [reflexivity|]. split; [reflexivity|].
  destruct (settled_turn_is_not_responding (renderOf mounted)
              (plainEnv twoToolStream) (textQuery (js "what is in here?"))
              false mounted eq_refl) as (_ & H).
  exact (H eq_refl).
Defined.

(** X7.  Every activation of [submitQuery] that is past the busy check
    clears the cancellation flag at its start, and after that no step of the
    activation itself writes it: not the preprocessing, not the handling of
    a stream event, not the [catch] and [finally] blocks.  Only the escape
    key handler sets it.  So when no escape key press is handled while the
    activation runs, the flag is false at the end, whatever it was before
    and however the turn went: a cancellation does not carry over into the
    next turn.  (Key presses are delivered here between the events of the
    stream; one handled while the activation waits for the preprocessing or
    the memory refresh would leave the flag set in the same way.) *)
Theorem new_turn_is_not_cancelled (r : Render) (env : Collaborators)
    (query : PartListUnion) (isContinuation : bool) (st : State) :
  isBusy (streamingState r) && negb isContinuation = false ->
  (forall q signal,
      existsb isKeyPress (arrivals (sendMessageStream env q signal)) = false) ->
  turnCancelledRef (fst (submitQueryOnce r env query isContinuation st)) = false.
Proof.
  intros Hbusy Hkeys.
  destruct (submitQueryOnce_cases r env query isContinuation st Hbusy)
    as [[Hq Hout] | [Hq (extra & _ & [Hout | (q & Hout)])]];
    rewrite Hout; clear Hout.
  - unfold submitNextFromQueue. destruct (messageQueue r); reflexivity.
  - destruct (afterCalls_fields extra
                (setThought None (setIsResponding true (fst (startTurn st)))))
      as (_ & _ & _ & _ & H5 & _).
    cbv zeta in H5. simpl in H5.
    set (prepared := afterCalls extra _) in *. clearbody prepared.
    unfold submitNextFromQueue.
    destruct (messageQueue r); simpl; rewrite H5; reflexivity.
  - cbv zeta.
    set (prepared := afterCalls extra _).
    destruct (afterCalls_fields extra
                (setThought None (setIsResponding true (fst (startTurn st)))))
      as (_ & _ & _ & _ & H5 & _).
    fold prepared in H5. cbv zeta in H5. simpl in H5. clearbody prepared.
    destruct (runStream_frame env q (now st) (controllers st) prepared)
      as (_ & R).
    set (ran := runStream env q (now st) (controllers st) prepared) in *.
    destruct (finishTurn_frame r (snd (fst ran)) (snd ran) (now st)
                (fst (fst ran))) as (F1 & _).
    rewrite F1, (R (Hkeys _ _)), H5. reflexivity.
Qed.

Lemma new_turn_is_not_cancelled_witness :
  isBusy (streamingState (renderOf cancelledTurn)) && negb false = false
  /\ turnCancelledRef cancelledTurn = true
  /\ turnCancelledRef
       (fst (submitQueryOnce (renderOf cancelledTurn) (plainEnv answerStream)
               (textQuery (js "again")) false cancelledTurn))
     = false.
Proof.
  split; [reflexivity|]. split; [reflexivity|].
  apply (new_turn_is_not_cancelled (renderOf cancelledTurn)
           (plainEnv answerStream) (textQuery (js "again")) false
           cancelledTurn eq_refl).
  intros q signal. reflexivity.
Defined.

(** ** The message queue *)

Lemma split_app (sep : N) (a b : jsstring) :
  split sep (a ++ sep :: b) = split sep a ++ split sep b.
Proof.
  induction a as [|c a IH]; simpl.
  - now rewrite N.eqb_refl.
  - destruct (c =? sep)%N; [now rewrite IH|].
    rewrite IH.
    pose proof (split_nonempty sep a) as Hne.
    destruct (split sep a) as [|l ls]; [contradiction|reflexivity].
Qed.

Lemma split_lines (sep : N) (s : jsstring) :
  Forall (fun line => ~ In sep line) (split sep s).
Proof.
  induction s as [|c s IH]; simpl.
  - constructor; [intros []|constructor].
  - destruct (N.eqb_spec c sep) as [->|Hne].
    + constructor; [intros []|exact IH].
    + pose proof (split_nonempty sep s) as Hs.
      destruct (split sep s) as [|l ls]; [contradiction|].
      inversion IH as [|? ? Hl Hls]; subst.
      constructor; [|exact Hls].
      intros [E|Hin]; [congruence|contradiction].
Qed.

Lemma enqueueQuery_lines (s : jsstring) (st : State) :
  enqueueQuery (textQuery s) st
  = match filter nonBlank (split LF s) with
    | [] => st
    | lines => setMessageQueue (fun prev => prev ++ lines) st
    end.
Proof.
  unfold enqueueQuery. simpl.
  rewrite (filter_ext _ _ nonBlank_trim).
  now destruct (filter nonBlank (split LF s)).
Qed.

(** X8.  Submitting while busy composes: a query of several lines is queued
    exactly as its parts submitted one after the other would be.  Whatever
    the two texts, queueing one text made of the first, a line feed and the
    second gives the same state as queueing the first and then the second. *)
Theorem enqueue_composes (a b : jsstring) (st : State) :
  enqueueQuery (textQuery (a ++ LF :: b)) st
  = enqueueQuery (textQuery b) (enqueueQuery (textQuery a) st).
Proof.
  rewrite !enqueueQuery_lines, split_app, filter_app.
  destruct (filter nonBlank (split LF a)) as [|x xs];
    destruct (filter nonBlank (split LF b)) as [|y ys]; simpl;
    try reflexivity.
  - now rewrite app_nil_r.
  - unfold setMessageQueue. simpl. f_equal.
    now rewrite <- app_assoc.
Qed.

(** What one activation does to the live queue, and what it resubmits. *)
Lemma submitQueryOnce_queue (r : Render) (env : Collaborators)
    (query : PartListUnion) (isContinuation : bool) (st : State) :
  let out := submitQueryOnce r env query isContinuation st in
  (snd out = None
   /\ (st_messageQueue (fst out) = st_messageQueue st
       \/ exists s, asString query = Some s
                    /\ st_messageQueue (fst out)
                       = st_messageQueue st ++ filter nonBlank (split LF s)))
  \/ (exists next,
         snd out = Some next
         /\ hd_error (messageQueue r) = Some next
         /\ st_messageQueue (fst out) = tl (st_messageQueue st)).
Proof.
  intros out.
  destruct (isBusy (streamingState r) && negb isContinuation) eqn:Hbusy.
  - left. unfold out, submitQueryOnce. rewrite Hbusy. simpl.
    split; [reflexivity|].
    destruct (enqueueQuery_queue query st) as [_ Hq]. rewrite Hq.
    destruct (asString query) as [s|]; [right; now exists s|left].
    now rewrite app_nil_r.
  - assert (Hnext : forall s0,
               let o := submitNextFromQueue r s0 in
               (snd o = None /\ st_messageQueue (fst o) = st_messageQueue s0)
               \/ (exists next, snd o = Some next
                                /\ hd_error (messageQueue r) = Some next
                                /\ st_messageQueue (fst o)
                                   = tl (st_messageQueue s0))).
    { intros s0. unfold submitNextFromQueue.
      destruct (messageQueue r) as [|q qs]; simpl; [left; auto|right].
      exists q. auto. }
    destruct (submitQueryOnce_cases r env query isContinuation st Hbusy)
      as [[Hq Hout] | [Hq (extra & _ & [Hout | (q & Hout)])]];
      fold out in Hout; rewrite Hout; clear Hout.
    + destruct (Hnext (fst (startTurn st))) as [[H1 H2] | (n & H1 & H2 & H3)].
      * left. split; [exact H1|left; exact H2].
      * right. exists n. auto.
    + destruct (afterCalls_fields extra
                  (setThought None (setIsResponding true (fst (startTurn st)))))
        as (_ & H2 & _).
      cbv zeta in H2. simpl in H2.
      set (prepared := afterCalls extra _) in *. clearbody prepared.
      destruct (Hnext (setIsResponding false prepared))
        as [[H1 H3] | (n & H1 & H3 & H4)]; simpl in *.
      * left. split; [exact H1|left; congruence].
      * right. exists n. rewrite H4, H2. auto.
    + cbv zeta.
      destruct (afterCalls_fields extra
                  (setThought None (setIsResponding true (fst (startTurn st)))))
        as (_ & H2 & _).
      cbv zeta in H2. simpl in H2.
      set (prepared := afterCalls extra _) in *. clearbody prepared.
      destruct (runStream_frame env q (now st) (controllers st) prepared)
        as ((R1 & _) & _).
      set (ran := runStream env q (now st) (controllers st) prepared) in *.
      destruct (finishTurn_spec r (snd (fst ran)) (snd ran) (now st)
                  (fst (fst ran))) as (_ & _ & _ & _ & _ & S6 & S7).
      destruct (snd (finishTurn r (snd (fst ran)) (snd ran) (now st)
                       (fst (fst ran)))) as [next|] eqn:E.
      * right. exists next. destruct (S6 next eq_refl) as (rest & Hr & Hl).
        rewrite Hr, Hl, R1, H2. auto.
      * left. split; [reflexivity|left]. rewrite (S7 eq_refl), R1, H2.
        reflexivity.
Qed.

(** X9.  One activation of [submitQuery], whatever its query, collaborators
    and stream, does one of three things to the live queue: it leaves it as
    it is, or appends the non-blank lines of a textual query at its end, or
    removes its first entry.  In the first two cases it resubmits nothing; in
    the last it resubmits the first entry of its render's queue.  It never
    reorders, rewrites or drops an entry behind the first. *)
Theorem queue_discipline (r : Render) (env : Collaborators)
    (query : PartListUnion) (isContinuation : bool) (st : State) :
  let out := submitQueryOnce r env query isContinuation st in
  (snd out = None
   /\ (st_messageQueue (fst out) = st_messageQueue st
       \/ exists s, asString query = Some s
                    /\ st_messageQueue (fst out)
                       = st_messageQueue st ++ filter nonBlank (split LF s)))
  \/ (exists next,
         snd out = Some next
         /\ hd_error (messageQueue r) = Some next
         /\ st_messageQueue (fst out) = tl (st_messageQueue st)).
Proof. apply submitQueryOnce_queue. Qed.

(** X10.  Every entry of the queue is a single line that is not blank, and
    stays so: if the live queue holds only such entries before an activation
    of [submitQuery], it holds only such entries after it.  (A queued entry
    is later submitted as a query of its own: it never splits again and never
    is a blank query.) *)
Theorem queue_holds_lines (r : Render) (env : Collaborators)
    (query : PartListUnion) (isContinuation : bool) (st : State) :
  Forall queuedLine (st_messageQueue st) ->
  Forall queuedLine
    (st_messageQueue (fst (submitQueryOnce r env query isContinuation st))).
Proof.
  intros H.
  destruct (submitQueryOnce_queue r env query isContinuation st)
    as [[_ [Hq | (s & _ & Hq)]] | (next & _ & _ & Hq)]; rewrite Hq.
  - exact H.
  - apply Forall_app. split; [exact H|].
    apply Forall_forall. intros line Hin. apply filter_In in Hin.
    destruct Hin as [Hin Hnb]. split; [|exact Hnb].
    pose proof (split_lines LF s) as Hl.
    rewrite Forall_forall in Hl. now apply Hl.
  - destruct (st_messageQueue st) as [|q qs]; [constructor|].
    now inversion H.
Qed.

Lemma queue_holds_lines_witness :
  Forall queuedLine (st_messageQueue backlog)
  /\ Forall queuedLine
       (st_messageQueue
          (fst (submitQueryOnce streamingRender (plainEnv emptyStream)
                  (textQuery (js "c" ++ [LF; LF] ++ js "d")) false backlog))).
Proof.
  assert (H : Forall queuedLine (st_messageQueue backlog)).
  { repeat constructor; simpl; intros [E|[]]; discriminate. }
  split; [exact H|].
  exact (queue_holds_lines streamingRender (plainEnv emptyStream)
           (textQuery (js "c" ++ [LF; LF] ++ js "d")) false backlog H).
Defined.

(** ** Failures *)

Lemma authErrors_call (c : Call) (st : State) :
  authErrors (call c st)
  = authErrors st + match c with OnAuthError => 1 | _ => 0 end.
Proof.
  unfold authErrors. simpl. rewrite filter_app, length_app. simpl.
  now destruct c.
Qed.

Lemma handleErrorEvent_history (env : Collaborators) (v : ErrorValue) (ts : N)
    (st : State) :
  history (handleErrorEvent env v ts st)
  = history st ++ pendingAsList st
    ++ [textItem ty_error (parseAndFormatApiError env v)]
  /\ authErrors (handleErrorEvent env v ts st) = authErrors st.
Proof.
  unfold handleErrorEvent, pendingAsList, addItem.
  destruct (pendingHistoryItemRef st) as [item|]; simpl.
  - split.
    + rewrite history_call.
      change (history (setPendingHistoryItem None (call (AddItem item ts) st)))
        with (history (call (AddItem item ts) st)).
      rewrite history_call. now rewrite <- app_assoc.
    + rewrite authErrors_call.
      change (authErrors (setPendingHistoryItem None
                            (call (AddItem item ts) st)))
        with (authErrors (call (AddItem item ts) st)).
      rewrite authErrors_call. lia.
  - split; [apply history_call|rewrite authErrors_call; lia].
Qed.

(** X11.  What a failing memory refresh or a throwing stream leaves behind.
    [runStream] reports [hasError] in every such case, and when the refresh
    fails no request is sent to the model at all.  An [UnauthorizedError]
    calls [onAuthError] once and shows nothing; a failure with code
    [ERR_CANCELED] shows nothing and calls nobody, and is the only one
    reported as [UserCancelled]; every other failure commits the pending item
    and appends exactly one error entry, made from the failure's message. *)
Theorem failure_outcomes (env : Collaborators) (q : PartListUnion) (ts : N)
    (signal : AbortSignal) (st : State) (e : Thrown) :
  let stream := sendMessageStream env q signal in
  (performMemoryRefresh env = Some e
   \/ (performMemoryRefresh env = None /\ thrown stream = Some e)) ->
  let reached :=
    match performMemoryRefresh env with
    | Some _ => call PerformMemoryRefresh st
    | None =>
        live (consume env ts (arrivals stream)
                (loopAt (call (SendMessageStream q signal)
                           (call PerformMemoryRefresh st)) []))
    end in
  let ran := runStream env q ts signal st in
  snd (fst ran) = true
  /\ (performMemoryRefresh env = Some e ->
      openedStreams (fst (fst ran)) = openedStreams st)
  /\ (snd ran = UserCancelled <-> cancelShaped e = true)
  /\ history (fst (fst ran))
     = history reached
       ++ match e with
          | UnauthorizedError => []
          | _ => if cancelShaped e then []
                 else pendingAsList reached
                      ++ [textItem ty_error
                            (parseAndFormatApiError env
                               {| message := getErrorMessage env e;
                                  errorStatus := None |})]
          end
  /\ authErrors (fst (fst ran))
     = authErrors reached
       + match e with UnauthorizedError => 1 | _ => 0 end.
Proof.
  intros stream Hfail reached ran.
  assert (Hran : ran
                 = match e with
                   | UnauthorizedError =>
                       (call OnAuthError reached, true, Completed)
                   | NodeError code _ =>
                       if eqb_js code (js "ERR_CANCELED")
                       then (reached, true, UserCancelled)
                       else (handleErrorEvent env
                               {| message := getErrorMessage env e;
                                  errorStatus := None |} ts reached,
                             true, Completed)
                   | OtherError _ =>
                       (handleErrorEvent env
                          {| message := getErrorMessage env e;
                             errorStatus := None |} ts reached,
                        true, Completed)
                   end).
  { unfold ran, runStream, reached.
    destruct Hfail as [Href | [Href Hthrown]]; rewrite Href; cbn [fst snd].
    - reflexivity.
    - unfold processGeminiStreamEvents. fold stream. rewrite Hthrown.
      reflexivity. }
  pose proof (handleErrorEvent_history env
                {| message := getErrorMessage env e; errorStatus := None |}
                ts reached) as [Hh Ha].
  split; [rewrite Hran; destruct e as [|code m|m]; simpl;
          try destruct (eqb_js code (js "ERR_CANCELED")); reflexivity|].
  split.
  { intros Href. rewrite Hran. unfold reached. rewrite Href.
    pose proof (grows_openedStreams _ _
                  (grows_weaken handlerCall laterCall _ _ handlerCall_later
                     (handleErrorEvent_grows env
                        {| message := getErrorMessage env e;
                           errorStatus := None |} ts
                        (call PerformMemoryRefresh st)))) as Hg.
    assert (Hbase : openedStreams (call PerformMemoryRefresh st)
                    = openedStreams st).
    { unfold openedStreams. simpl. rewrite flat_map_app. simpl.
      now rewrite app_nil_r. }
    destruct e as [|code m|m]; simpl.
    - unfold openedStreams. simpl. rewrite !flat_map_app. simpl.
      now rewrite !app_nil_r.
    - destruct (eqb_js code (js "ERR_CANCELED")); simpl;
        [exact Hbase|now rewrite Hg].
    - now rewrite Hg. }
  split.
  { rewrite Hran. destruct e as [|code m|m]; simpl;
      try (split; discriminate).
    destruct (eqb_js code (js "ERR_CANCELED")); simpl;
      split; try discriminate; reflexivity. }
  rewrite Hran. destruct e as [|code m|m]; simpl.
  - rewrite history_call, authErrors_call. simpl. now rewrite app_nil_r.
  - destruct (eqb_js code (js "ERR_CANCELED")); simpl.
    + rewrite app_nil_r. split; [reflexivity|lia].
    + split; [exact Hh|rewrite Ha; lia].
  - split; [exact Hh|rewrite Ha; lia].
Qed.

Lemma failure_outcomes_witness :
  thrown {| arrivals := [StreamEvent (Content (js "Hel"))];
            thrown := Some (NodeError (js "ERR_CANCELED") (js "aborted")) |}
  = Some (NodeError (js "ERR_CANCELED") (js "aborted"))
  /\ snd (runStream
            (plainEnv {| arrivals := [StreamEvent (Content (js "Hel"))];
                         thrown := Some (NodeError (js "ERR_CANCELED")
                                           (js "aborted")) |})
            (textQuery (js "hi")) 1700000000000%N 0 mounted)
     = UserCancelled.
Proof.
  split; [reflexivity|].
  destruct (failure_outcomes
              (plainEnv {| arrivals := [StreamEvent (Content (js "Hel"))];
                           thrown := Some (NodeError (js "ERR_CANCELED")
                                             (js "aborted")) |})
              (textQuery (js "hi")) 1700000000000%N 0 mounted
              (NodeError (js "ERR_CANCELED") (js "aborted"))
              (or_intror (conj eq_refl eq_refl)))
    as (_ & _ & H & _).
  apply H. reflexivity.
Defined.

(** ** A cancellation reported by the stream *)

(** X13.  A [UserCancelled] event in a turn whose flag is not set finishes
    the pending display: a pending tool group is committed with every tool
    that was pending, confirming or executing marked [Canceled] and the
    others as they were, the tools keeping their ids, names and order; any
    other pending item is committed as it is.  The notice "User cancelled the
    request." follows, the pending item is cleared and [isResponding] is
    false.  The cancellation flag is not touched: a second such event
    appends the notice again. *)
Theorem user_cancelled_event_finalizes (ts : N) (st : State) :
  turnCancelledRef st = false ->
  let st' := handleUserCancelledEvent ts st in
  history st'
  = history st
    ++ match pendingHistoryItemRef st with
       | Some item =>
           [if isToolGroup item
            then {| type := type item; text := text item;
                    tools := map cancelTool (tools item) |}
            else item]
       | None => []
       end
    ++ [textItem ty_info (js "User cancelled the request.")]
  /\ (forall item, pendingHistoryItemRef st = Some item ->
        map displayCallId (map cancelTool (tools item)) = shownIds item
        /\ map displayName (map cancelTool (tools item))
           = map displayName (tools item)
        /\ existsb underWay (map cancelTool (tools item)) = false
        /\ (forall tool, In tool (tools item) -> underWay tool = false ->
              cancelTool tool = tool))
  /\ pendingHistoryItemRef st' = None
  /\ st_isResponding st' = false
  /\ turnCancelledRef st' = false
  /\ history (handleUserCancelledEvent ts st')
     = history st' ++ [textItem ty_info (js "User cancelled the request.")].
Proof.
  intros Hc st'.
  assert (Hst' : history st'
                 = history st
                   ++ match pendingHistoryItemRef st with
                      | Some item =>
                          [if isToolGroup item
                           then {| type := type item; text := text item;
                                   tools := map cancelTool (tools item) |}
                           else item]
                      | None => []
                      end
                   ++ [textItem ty_info (js "User cancelled the request.")]
                 /\ pendingHistoryItemRef st' = None
                 /\ st_isResponding st' = false
                 /\ turnCancelledRef st' = false).
  { unfold st', handleUserCancelledEvent, addItem, isToolGroup. rewrite Hc.
    destruct (pendingHistoryItemRef st) as [item|] eqn:E;
      [destruct (type item)|];
      simpl; repeat split; try exact Hc; try exact E;
      unfold history; simpl; rewrite ?flat_map_app; simpl;
      rewrite ?app_nil_r, <- ?app_assoc; reflexivity. }
  destruct Hst' as (Hh & Hp & Hr & Hf).
  split; [exact Hh|]. split; [|split; [exact Hp|split; [exact Hr|split;
    [exact Hf|]]]].
  - intros item _. unfold shownIds.
    assert (Hone : forall tool,
               displayCallId (cancelTool tool) = displayCallId tool
               /\ displayName (cancelTool tool) = displayName tool
               /\ underWay (cancelTool tool) = false
               /\ (underWay tool = false -> cancelTool tool = tool)).
    { intros tool. unfold cancelTool, underWay.
      destruct (displayStatus tool) eqn:E; simpl; rewrite ?E;
        repeat split; try discriminate; auto. }
    repeat split.
    + rewrite map_map. apply map_ext. intros tool. apply Hone.
    + rewrite map_map. apply map_ext. intros tool. apply Hone.
    + induction (tools item) as [|tool rest IH]; [reflexivity|].
      simpl. destruct (Hone tool) as (_ & _ & -> & _). exact IH.
    + intros tool _. apply Hone.
  - unfold handleUserCancelledEvent, addItem. rewrite Hf, Hp. simpl.
    unfold history. simpl. rewrite flat_map_app. reflexivity.
Qed.

Lemma user_cancelled_event_finalizes_witness :
  turnCancelledRef (setPendingHistoryItem (Some executingGroup) midTurn) = false
  /\ history (handleUserCancelledEvent 1700000000000%N
                (setPendingHistoryItem (Some executingGroup) midTurn))
     = [textItem ty_user (js "hi");
        {| type := ty_tool_group; text := [];
           tools := [{| displayCallId := js "call-1";
                        displayName := js "read_file";
                        displayStatus := Success |};
                     {| displayCallId := js "call-2";
                        displayName := js "shell";
                        displayStatus := Canceled |}] |};
        textItem ty_info (js "User cancelled the request.")].
Proof.
  split; [reflexivity|].
  exact (proj1 (user_cancelled_event_finalizes 1700000000000%N
                  (setPendingHistoryItem (Some executingGroup) midTurn)
                  eq_refl)).
Defined.

(** ** The streaming state, again *)

(** X14.  The hook is [Idle] exactly when [isResponding] is false and every
    tracked tool call is finished (success, error or cancelled) with its
    response submitted: one call in any other condition keeps the hook
    busy. *)
Theorem idle_iff_all_settled (r : Render) :
  streamingState r = Idle <-> isResponding r = false /\ allSettled r.
Proof.
  unfold streamingState, allSettled. rewrite Forall_forall.
  destruct (existsb (fun tc => isStatus (status tc) awaiting_approval)
              (toolCalls r)) eqn:EA.
  - split; [discriminate|]. intros [_ H]. exfalso.
    apply existsb_exists in EA. destruct EA as (tc & Hin & Hs).
    apply isStatus_eq in Hs. destruct (H tc Hin) as [Hf _].
    unfold finished in Hf. rewrite Hs in Hf.
    destruct Hf as [Hf|[Hf|Hf]]; discriminate.
  - destruct (isResponding r || _) eqn:EF.
    + split; [discriminate|]. intros [Hr H]. exfalso.
      rewrite Hr in EF. simpl in EF.
      apply existsb_exists in EF. destruct EF as (tc & Hin & Hs).
      destruct (H tc Hin) as [Hf Hsub].
      unfold completedAndUnsubmitted in Hs. rewrite Hsub in Hs.
      rewrite andb_false_r, orb_false_r in Hs.
      rewrite !orb_true_iff, !isStatus_eq in Hs.
      unfold finished in Hf.
      destruct Hs as [[Hs|Hs]|Hs]; rewrite Hs in Hf;
        destruct Hf as [Hf|[Hf|Hf]]; discriminate.
    + split; [intros _|reflexivity].
      apply orb_false_iff in EF. destruct EF as [Hr EF].
      split; [exact Hr|]. intros tc Hin.
      assert (Ha : isStatus (status tc) awaiting_approval = false).
      { destruct (isStatus (status tc) awaiting_approval) eqn:E;
          [|reflexivity].
        rewrite <- EA. symmetry. apply existsb_exists. now exists tc. }
      assert (Hb : isStatus (status tc) executing
                   || isStatus (status tc) scheduled
                   || isStatus (status tc) validating
                   || completedAndUnsubmitted tc = false).
      { match goal with |- ?b = false => destruct b eqn:E end;
          [|reflexivity].
        rewrite <- EF. symmetry. apply existsb_exists. now exists tc. }
      unfold completedAndUnsubmitted, finished in *.
      destruct (status tc); simpl in *; try discriminate;
        destruct (responseSubmittedToGemini tc); simpl in *;
        try discriminate; auto.
Qed.

(** ** What is shown as pending *)

Lemma skipn_nth_error {A : Type} (i : nat) (items : list A) :
  skipn i items
  = match nth_error items i with
    | Some x => x :: skipn (S i) items
    | None => []
    end.
Proof.
  revert items; induction i as [|i IH]; intros [|x items]; simpl; auto.
Qed.

Lemma everyFrom_prefix (shown mine : list IndividualToolCallDisplay) (i : nat) :
  everyFrom i (fun t k =>
                 match nth_error shown k with
                 | Some s => eqb_js (displayCallId t) (displayCallId s)
                 | None => false
                 end) mine = true
  <-> exists rest,
        map displayCallId (skipn i shown) = map displayCallId mine ++ rest.
Proof.
  revert i; induction mine as [|t mine IH]; intros i; simpl.
  - split; [intros _; eexists; reflexivity|reflexivity].
  - rewrite andb_true_iff, IH, (skipn_nth_error i shown).
    destruct (nth_error shown i) as [s|]; simpl.
    + rewrite eqb_js_eq. split.
      * intros [E (rest & Hr)]. exists rest. now rewrite E, Hr.
      * intros (rest & Hr). inversion Hr. split; [reflexivity|].
        now exists rest.
    + split; [intros [E _]; discriminate|intros (rest & Hr); discriminate].
Qed.

(** X15.  The list of pending items is memoised on the display of the
    tracked tool calls alone.  When it is computed (at the first render, and
    when React finds the display changed) it is the pending item (if any)
    followed by the display (if any), hence at most two items; the display
    is left out exactly when the pending item is a tool group whose tool
    ids, in order, are the first ids of the display.  In particular a
    pending tool group without tools hides every display, and with no
    tracked tool call there is no display to show.  At any other render the
    list computed before is returned, whatever is pending by then: text that
    became pending since the display last changed is not in it. *)
Theorem pending_items_shown (display : option HistoryItemWithoutId)
    (st : State) :
  let items := listPendingItems display st in
  pendingGeminiHistoryItems None false display st = items
  /\ (forall memo changed,
        pendingGeminiHistoryItems None changed display st = items
        /\ pendingGeminiHistoryItems (Some memo) true display st = items
        /\ pendingGeminiHistoryItems (Some memo) false display st = memo)
  /\ length items <= 2
  /\ (display = None -> items = pendingAsList st)
  /\ (forall group, display = Some group ->
        (items = pendingAsList st \/ items = pendingAsList st ++ [group])
        /\ (items = pendingAsList st <->
            exists item rest,
              pendingHistoryItemRef st = Some item
              /\ type item = ty_tool_group
              /\ shownIds group = shownIds item ++ rest))
  /\ (pendingHistoryItemRef st = Some emptyGroup -> items = [emptyGroup])
  /\ (forall mapToDisplay r,
        toolCalls r = [] ->
        listPendingItems (pendingToolCallGroupDisplay mapToDisplay r) st
        = pendingAsList st)
  /\ pendingGeminiHistoryItems
       (Some (pendingGeminiHistoryItems None false None mounted)) false None
       midTurn
     = [].
Proof.
  intros items.
  split; [reflexivity|].
  split; [intros memo changed; repeat split|].
  unfold items, listPendingItems, pendingAsList, every.
  split; [|split; [|split; [|split; [|split;
    [intros mapToDisplay r Hr; unfold pendingToolCallGroupDisplay;
     rewrite Hr; reflexivity|reflexivity]]]]].
  - destruct display; destruct (pendingHistoryItemRef st); simpl;
      try match goal with |- context [if ?c then _ else _] => destruct c end;
      simpl; lia.
  - intros ->. reflexivity.
  - intros group ->.
    destruct (pendingHistoryItemRef st) as [item|]; simpl.
    + pose proof (everyFrom_prefix (tools group) (tools item) 0) as Hp.
      simpl in Hp. unfold isToolGroup, shownIds.
      destruct (type item) eqn:Ety; simpl;
        try (split; [right; reflexivity|];
             split; [intros H; inversion H
                    |intros (i & rest & Hi & Ht & _); inversion Hi; subst;
                     congruence]).
      destruct (everyFrom 0 _ (tools item)) eqn:Eev; simpl.
      * split; [left; reflexivity|]. split; [intros _|reflexivity].
        destruct (proj1 Hp eq_refl) as (rest & Hr).
        exists item, rest. auto.
      * split; [right; reflexivity|].
        split; [intros H; inversion H|].
        intros (i & rest & Hi & _ & Hr). inversion Hi; subst.
        assert (false = true) by (apply Hp; now exists rest).
        discriminate.
    + split; [right; reflexivity|].
      split; [intros H; inversion H|].
      intros (i & rest & Hi & _). discriminate.
  - intros ->. destruct display; reflexivity.
Qed.

(** ** Merging tool responses *)

(** X16.  [mergePartListUnions] flattens one level: the result is always an
    array, holding the parts of the items in order, an item that is not an
    array counting as one part.  So merging a concatenation concatenates the
    merges, merging what is already merged changes nothing, and the merged
    payload is never a string: [prepareQueryForGemini] hands it on as it is,
    without a call to any command handler. *)
Theorem merge_flattens (a b : list PartListUnion) (env : Collaborators)
    (ts : N) (signal : AbortSignal) (st : State) :
  mergePartListUnions (a ++ b)
  = PLArray (partsOf (mergePartListUnions a) ++ partsOf (mergePartListUnions b))
  /\ partsOf (mergePartListUnions a) = flat_map partsOf a
  /\ mergePartListUnions [mergePartListUnions a] = mergePartListUnions a
  /\ length (partsOf (mergePartListUnions a))
     = list_sum (map (fun q => length (partsOf q)) a)
  /\ asString (mergePartListUnions a) = None
  /\ (turnCancelledRef st = false ->
      prepareQueryForGemini env (mergePartListUnions a) ts signal st
      = (st, Some (mergePartListUnions a))).
Proof.
  unfold mergePartListUnions. simpl.
  split; [now rewrite flat_map_app|].
  split; [reflexivity|].
  split; [now rewrite app_nil_r|].
  split.
  { induction a as [|q a IH]; [reflexivity|].
    simpl. rewrite length_app, IH. now destruct q. }
  split; [reflexivity|].
  intros H. now apply prepareQueryForGemini_parts.
Qed.

Lemma merge_flattens_witness :
  turnCancelledRef toolFinished = false
  /\ prepareQueryForGemini (plainEnv emptyStream)
       (mergePartListUnions [toolResult; PLSingle (PartString (js "/quit"))])
       1700000000000%N 0 toolFinished
     = (toolFinished,
        Some (mergePartListUnions
                [toolResult; PLSingle (PartString (js "/quit"))])).
Proof.
  split; [reflexivity|].
  destruct (merge_flattens [toolResult; PLSingle (PartString (js "/quit"))] []
              (plainEnv emptyStream) 1700000000000%N 0 toolFinished)
    as (_ & _ & _ & _ & _ & H).
  exact (H eq_refl).
Defined.

(** ** A whole turn of plain text *)

Lemma collect_afterCalls {A : Type} (f : Call -> list A) (ok : Call -> Prop)
    (extra : list Call) (st : State) :
  (forall c, ok c -> f c = []) ->
  Forall ok extra ->
  flat_map f (trace (afterCalls extra st)) = flat_map f (trace st).
Proof.
  intros Hok Hall.
  destruct (afterCalls_fields extra st) as (Ht & _). rewrite Ht, flat_map_app.
  rewrite <- app_nil_r. f_equal. clear Ht.
  induction Hall as [|c cs Hc _ IH]; [reflexivity|].
  simpl. now rewrite (Hok c Hc).
Qed.

Lemma grows_collect {A : Type} (f : Call -> list A) (ok : Call -> Prop)
    (st st' : State) :
  (forall c, ok c -> f c = []) ->
  grows ok st st' ->
  flat_map f (trace st') = flat_map f (trace st).
Proof.
  intros Hok [_ [extra [H F]]]. rewrite H, flat_map_app.
  rewrite <- app_nil_r. f_equal. clear H.
  induction F as [|c cs Hc _ IH]; [reflexivity|].
  simpl. now rewrite (Hok c Hc).
Qed.

Lemma prepareQueryForGemini_plain (env : Collaborators) (s : jsstring)
    (ts : N) (signal : AbortSignal) (st : State) :
  turnCancelledRef st = false ->
  nonBlank s = true ->
  plainPrompt env (trim s) ->
  exists notices,
    Forall noticeCall notices
    /\ prepareQueryForGemini env (textQuery s) ts signal st
       = (addItem (textItem ty_user (trim s)) ts (afterCalls notices st),
          Some (textQuery (trim s))).
Proof.
  intros Hc Hnb (Hslash & Hshell & Hat).
  unfold prepareQueryForGemini. simpl. rewrite Hc.
  rewrite <- nonBlank_trim in Hnb. apply Nat.ltb_lt in Hnb.
  destruct (Nat.eqb_spec (length (trim s)) 0) as [E|_]; [lia|].
  set (t := trim s) in *.
  assert (Hx : shellModeActive env = true ->
               handleShellCommand env t signal = false).
  { intros Ht. destruct Hshell as [Hs|Hs]; [congruence|apply Hs]. }
  destruct (hasLogger env);
    (destruct Hslash as [-> | (n & a & ->)];
     (destruct (shellModeActive env) eqn:Esh;
      [rewrite (Hx eq_refl)|]; simpl; rewrite Hat;
      (eexists; split;
       [|unfold afterCalls;
         match goal with
         | |- (addItem _ _ ?lhs, _) = _ =>
             let rec build s :=
               lazymatch s with
               | call ?c ?s' =>
                   let rest := build s' in constr:(rest ++ [c])
               | _ => constr:(@nil Call)
               end in
             let l := build lhs in
             let l' := eval simpl in l in
             instantiate (1 := l')
         end; reflexivity];
       repeat constructor))).
Qed.

Lemma contentEvents_no_keys (deltas : list jsstring) :
  existsb isKeyPress (contentEvents deltas) = false.
Proof. induction deltas; [reflexivity|exact IHdeltas]. Qed.

Lemma requestsOf_contentEvents (deltas : list jsstring) :
  requestsOf (contentEvents deltas) = [].
Proof. induction deltas; [reflexivity|exact IHdeltas]. Qed.

Lemma finishTurn_grows_handler (r : Render) (hasError : bool)
    (status : StreamProcessingStatus) (ts : N) (st : State) :
  grows handlerCall st (fst (finishTurn r hasError status ts st)).
Proof.
  unfold finishTurn, submitNextFromQueue, addItem.
  destruct (pendingHistoryItemRef st); simpl;
    match goal with |- context [if ?c then _ else _] => destruct c end;
    try destruct (messageQueue r); simpl; grows_tac.
Qed.

Lemma modelText_pieces (pieces : list HistoryItemWithoutId) (ty : ItemType) :
  map type (pieces ++ [textItem ty []])
  = ty_gemini :: repeat ty_gemini_content (length pieces) ->
  Forall (fun p => isModelText (type p)) (pieces ++ [textItem ty []]).
Proof.
  intros H. apply Forall_forall. intros p Hin.
  apply (in_map type) in Hin. rewrite H in Hin.
  destruct Hin as [E|Hin]; [left; now rewrite <- E|].
  apply repeat_spec in Hin. now right.
Qed.

Lemma collect_call {A : Type} (f : Call -> list A) (c : Call) (st : State) :
  flat_map f (trace (call c st)) = flat_map f (trace st) ++ f c.
Proof. simpl. rewrite flat_map_app. simpl. now rewrite app_nil_r. Qed.

(** X17.  A plain prompt put to the idle hook, answered by a stream of text
    only.  With no queue, nothing pending, a prompt that is not blank and
    that no command handler takes, a memory refresh that succeeds and a
    splitter that keeps its contract: the trimmed prompt is committed as the
    user's message and is what is sent, on one stream carrying the turn's own
    abort signal; after it the history holds the answer as model-text items
    whose texts, put together, are the deltas put together, nothing lost and
    nothing added.  No tool is scheduled, nothing stays pending,
    [isResponding] is false and nothing is resubmitted. *)
Theorem plain_turn_is_committed (r : Render) (env : Collaborators)
    (s : jsstring) (deltas : list jsstring) (st : State) :
  splitContract env ->
  isBusy (streamingState r) = false ->
  messageQueue r = [] ->
  pendingHistoryItemRef st = None ->
  nonBlank s = true ->
  plainPrompt env (trim s) ->
  performMemoryRefresh env = None ->
  sendMessageStream env (textQuery (trim s)) (controllers st)
  = {| arrivals := contentEvents deltas; thrown := None |} ->
  let out := submitQueryOnce r env (textQuery s) false st in
  exists pieces,
    history (fst out) = history st ++ textItem ty_user (trim s) :: pieces
    /\ textOf pieces = concat deltas
    /\ Forall (fun p => isModelText (type p)) pieces
    /\ openedStreams (fst out)
       = openedStreams st ++ [(textQuery (trim s), controllers st)]
    /\ scheduledBatches (fst out) = scheduledBatches st
    /\ pendingHistoryItemRef (fst out) = None
    /\ st_isResponding (fst out) = false
    /\ snd out = None.
Proof.
  intros Hsplit Hbusy Hq Hpend Hnb Hplain Href Hstream out.
  set (turn := setThought None (setIsResponding true (fst (startTurn st)))).
  destruct (prepareQueryForGemini_plain env s (now st) (controllers st) turn
              eq_refl Hnb Hplain) as (notices & Hnotices & Hprep).
  set (announced := afterCalls notices turn) in *.
  set (q := textQuery (trim s)) in *.
  set (sent := call (SendMessageStream q (controllers st))
                 (call PerformMemoryRefresh
                    (addItem (textItem ty_user (trim s)) (now st) announced))).
  set (l := consume env (now st) (contentEvents deltas)
              {| live := sent; geminiMessageBuffer := [];
                 toolCallRequests := [] |}).
  assert (Hreq : toolCallRequests l = []).
  { unfold l. now rewrite consume_requests, requestsOf_contentEvents. }
  assert (Hout : out = finishTurn r false Completed (now st) (live l)).
  { unfold out, submitQueryOnce. rewrite Hbusy, Hq.
    change (now (fst (startTurn st))) with (now st).
    change (snd (startTurn st)) with (controllers st).
    cbn [andb negb length Nat.ltb Nat.leb]. fold turn. rewrite Hprep.
    cbn [fst snd]. unfold runStream. rewrite Href. cbn [fst snd].
    fold q. rewrite Hstream. unfold processGeminiStreamEvents.
    cbn [arrivals thrown]. fold sent. fold l. rewrite Hreq. reflexivity. }
  (* the state in which the stream is opened *)
  destruct (afterCalls_fields notices turn)
    as (At & _ & _ & _ & Aflag & _ & Apend & _).
  fold announced in At, Aflag, Apend.
  cbv zeta in Apend, Aflag. simpl in Apend, Aflag.
  assert (Hp : pendingHistoryItemRef sent = None).
  { unfold sent. simpl. now rewrite Apend. }
  assert (Hf : turnCancelledRef sent = false).
  { unfold sent. simpl. exact Aflag. }
  assert (Hsent : history sent = history st ++ [textItem ty_user (trim s)]
                  /\ openedStreams sent
                     = openedStreams st ++ [(q, controllers st)]
                  /\ scheduledBatches sent = scheduledBatches st).
  { unfold sent, addItem, history, openedStreams, scheduledBatches.
    rewrite !collect_call. unfold announced.
    rewrite !(collect_afterCalls _ noticeCall notices turn)
      by (try exact Hnotices; intros [] Hc; try contradiction; reflexivity).
    unfold turn. simpl. rewrite !flat_map_app. simpl.
    rewrite !app_nil_r. repeat split. }
  destruct Hsent as (Hh & Ho & Hb).
  (* what the stream does *)
  assert (Hstreams : openedStreams (live l) = openedStreams sent
                     /\ scheduledBatches (live l) = scheduledBatches sent).
  { pose proof (consume_grows env (now st) (contentEvents deltas)
                  {| live := sent; geminiMessageBuffer := [];
                     toolCallRequests := [] |}) as Hg.
    fold l in Hg. simpl in Hg. split.
    - apply grows_openedStreams.
      exact (grows_weaken handlerCall laterCall _ _ handlerCall_later Hg).
    - exact (grows_scheduledBatches _ _ Hg). }
  destruct Hstreams as (Ho' & Hb').
  assert (Htext : exists pieces,
             history (live l) ++ pendingAsList (live l)
             = history sent ++ pieces
             /\ textOf pieces = concat deltas
             /\ Forall (fun p => isModelText (type p)) pieces
             /\ turnCancelledRef (live l) = false).
  { destruct deltas as [|d deltas].
    - exists []. assert (Hl : live l = sent) by reflexivity.
      rewrite Hl. unfold pendingAsList. rewrite Hp.
      repeat split; auto.
    - assert (Hng : isGeminiItem (pendingHistoryItemRef sent) = false)
        by now rewrite Hp.
      destruct (consume_fresh_contents env (now st) (d :: deltas)
                  {| live := sent; geminiMessageBuffer := [];
                     toolCallRequests := [] |} Hsplit Hf Hng
                  ltac:(discriminate))
        as (pieces & ty & H1 & H2 & H3 & H4).
      fold l in H1, H2, H3.
      change (live {| live := sent; geminiMessageBuffer := [];
                      toolCallRequests := [] |}) with sent in H1.
      unfold pendingAsList in H1. rewrite Hp in H1. simpl app in H1.
      exists (pieces ++ [textItem ty (geminiMessageBuffer l)]).
      unfold pendingAsList. rewrite H2, H1.
      split; [now rewrite <- app_assoc|].
      split; [unfold textOf in *; rewrite map_app, concat_app; simpl;
              now rewrite app_nil_r|].
      split.
      + pose proof (modelText_pieces pieces ty H4) as Hm.
        apply Forall_app in Hm. destruct Hm as [Hm1 Hm2].
        apply Forall_app. split; [exact Hm1|].
        inversion Hm2; subst. constructor; [assumption|constructor].
      + pose proof (stream_leaves_queue_and_flag_aux env (now st)
                      (contentEvents (d :: deltas))
                      {| live := sent; geminiMessageBuffer := [];
                         toolCallRequests := [] |}) as [_ Hk].
        fold l in Hk.
        change (live {| live := sent; geminiMessageBuffer := [];
                        toolCallRequests := [] |}) with sent in Hk.
        rewrite Hk; [exact Hf|apply contentEvents_no_keys]. }
  destruct Htext as (pieces & Hhist & Htxt & Hty & Hfl).
  exists pieces. rewrite Hout.
  destruct (finishTurn_spec r false Completed (now st) (live l))
    as (S1 & S2 & _ & S4 & S5 & _).
  pose proof (finishTurn_grows r false Completed (now st) (live l)) as Gl.
  pose proof (finishTurn_grows_handler r false Completed (now st) (live l))
    as Gh.
  repeat split.
  - unfold history at 1. rewrite S4, flat_map_app.
    fold (history (live l)).
    replace (flat_map _ match pendingHistoryItemRef (live l) with
                        | Some item => [AddItem item (now st)]
                        | None => []
                        end)
      with (pendingAsList (live l))
      by (unfold pendingAsList; now destruct (pendingHistoryItemRef (live l))).
    rewrite Hhist, Hh, <- app_assoc. reflexivity.
  - exact Htxt.
  - exact Hty.
  - rewrite (grows_openedStreams _ _ Gl), Ho', Ho. reflexivity.
  - rewrite (grows_scheduledBatches _ _ Gh), Hb', Hb. reflexivity.
  - exact S1.
  - exact S2.
  - destruct (snd (finishTurn r false Completed (now st) (live l))) eqn:E;
      [|reflexivity].
    exfalso. assert (Hne : Some j <> None) by discriminate.
    apply S5 in Hne. destruct Hne as (_ & _ & _ & _ & Hne).
    now apply Hne.
Qed.

Lemma plain_turn_is_committed_witness :
  splitContract (plainEnv answerStream)
  /\ nonBlank (js " What is 2+2? ") = true
  /\ exists pieces,
       history (fst (submitQueryOnce (renderOf mounted)
                       (plainEnv answerStream)
                       (textQuery (js " What is 2+2? ")) false mounted))
       = history mounted ++ textItem ty_user (js "What is 2+2?") :: pieces
       /\ textOf pieces = js "2+2 is 4.".
Proof.
  assert (Hc : splitContract (plainEnv answerStream)).
  { intros buffer. simpl. lia. }
  split; [exact Hc|]. split; [reflexivity|].
  assert (Hp : plainPrompt (plainEnv answerStream) (trim (js " What is 2+2? "))).
  { split; [left; reflexivity|]. split; [left; reflexivity|reflexivity]. }
  destruct (plain_turn_is_committed (renderOf mounted) (plainEnv answerStream)
              (js " What is 2+2? ") [js "2+2 "; js "is 4."] mounted
              Hc eq_refl eq_refl eq_refl eq_refl Hp eq_refl eq_refl)
    as (pieces & H1 & H2 & _).
  exists pieces. split; [exact H1|exact H2].
Defined.

(** ** Usage reports and abort signals *)

Lemma handleContentEvent_shows (env : Collaborators) (v buf : jsstring)
    (ts : N) (st : State) :
  grows showCall st (fst (handleContentEvent env v buf ts st)).
Proof.
  unfold handleContentEvent, startGeminiItem, splitGeminiMessage,
    addPendingItem, addItem.
  destruct (turnCancelledRef st); [apply grows_refl|].
  destruct (negb (isGeminiItem (pendingHistoryItemRef st)));
    destruct (pendingHistoryItemRef st); simpl;
    match goal with |- context [(?a =? ?b)%Z] => destruct (a =? b)%Z end;
    simpl; grows_tac.
Qed.

Lemma handleUserCancelledEvent_shows (ts : N) (st : State) :
  grows showCall st (handleUserCancelledEvent ts st).
Proof.
  unfold handleUserCancelledEvent, addItem.
  destruct (turnCancelledRef st); [apply grows_refl|].
  destruct (pendingHistoryItemRef st) as [item|]; [destruct (type item)|];
    simpl; grows_tac.
Qed.

Lemma handleErrorEvent_shows (env : Collaborators) (v : ErrorValue) (ts : N)
    (st : State) :
  grows showCall st (handleErrorEvent env v ts st).
Proof.
  unfold handleErrorEvent, addItem.
  destruct (pendingHistoryItemRef st); simpl; grows_tac.
Qed.


Lemma useInput_aborts (r : Render) (key : InkKey) (st : State) :
  grows (abortOf (abortControllerRef st)) st (useInput r key st).
Proof.
  unfold useInput, addPendingItem, addItem.
  destruct (isResponding_state (streamingState r) && escape key);
    [|apply grows_refl].
  destruct (turnCancelledRef st); [apply grows_refl|].
  simpl. destruct (abortControllerRef st); simpl;
    destruct (pendingHistoryItemRef st); simpl; grows_tac.
Qed.

(** What one arrival calls: a usage report for a [UsageMetadata] event,
    else history items, and for a key press possibly the abort of the
    controller in place. *)
Lemma arrive_calls (env : Collaborators) (ts : N) (a : Arrival) (l : Loop) :
  exists extra,
    trace (live (arrive env ts a l)) = trace (live l) ++ extra
    /\ flat_map (fun c => match c with AddUsage u => [u] | _ => [] end) extra
       = usageOf [a]
    /\ Forall (fun c => match c with
                        | AddItem _ _ | AddUsage _ => True
                        | Abort s => abortControllerRef (live l) = Some s
                        | _ => False
                        end) extra.
Proof.
  assert (Hshow : forall st',
             grows showCall (live l) st' ->
             exists extra,
               trace st' = trace (live l) ++ extra
               /\ flat_map (fun c => match c with
                                     | AddUsage u => [u]
                                     | _ => []
                                     end) extra = []
               /\ Forall (fun c => match c with
                                   | AddItem _ _ | AddUsage _ => True
                                   | Abort s =>
                                       abortControllerRef (live l) = Some s
                                   | _ => False
                                   end) extra).
  { intros st' [_ (extra & Ht & Hall)]. exists extra.
    split; [exact Ht|]. clear Ht.
    induction Hall as [|c cs Hc _ [IH1 IH2]]; [split; [reflexivity|constructor]|].
    destruct c; simpl in Hc; try contradiction.
    split; [exact IH1|constructor; [exact I|exact IH2]]. }
  destruct a as [event|r key].
  - destruct event as [v|v|v| |v|v|v| |].
    + refine (Hshow (live (handleEvent env ts _ l)) _); simpl. grows_tac.
    + refine (Hshow (live (handleEvent env ts _ l)) _); simpl.
      apply handleContentEvent_shows.
    + refine (Hshow (live (handleEvent env ts _ l)) _); simpl.
      apply grows_refl.
    + refine (Hshow (live (handleEvent env ts _ l)) _); simpl.
      apply handleUserCancelledEvent_shows.
    + refine (Hshow (live (handleEvent env ts _ l)) _); simpl.
      apply handleErrorEvent_shows.
    + refine (Hshow (live (handleEvent env ts _ l)) _); simpl.
      unfold handleChatCompressionEvent, addItem. grows_tac.
    + exists [AddUsage v]. simpl. repeat split. repeat constructor.
    + refine (Hshow (live (handleEvent env ts _ l)) _); simpl.
      apply grows_refl.
    + refine (Hshow (live (handleEvent env ts _ l)) _); simpl.
      apply grows_refl.
  - change (live (arrive env ts (KeyPress r key) l))
      with (useInput r key (live l)).
    destruct (useInput_aborts r key (live l)) as [_ (extra & Ht & Hall)].
    exists extra. split; [exact Ht|]. clear Ht.
    induction Hall as [|c cs Hc _ [IH1 IH2]]; [split; [reflexivity|constructor]|].
    destruct c; simpl in Hc; try contradiction;
      (split; [exact IH1|constructor; [first [exact I|exact Hc]|exact IH2]]).
Qed.

Lemma consume_calls (env : Collaborators) (ts : N) (arrived : list Arrival)
    (l : Loop) :
  exists extra,
    trace (live (consume env ts arrived l)) = trace (live l) ++ extra
    /\ flat_map (fun c => match c with AddUsage u => [u] | _ => [] end) extra
       = usageOf arrived
    /\ Forall (fun c => match c with
                        | AddItem _ _ | AddUsage _ => True
                        | Abort s => abortControllerRef (live l) = Some s
                        | _ => False
                        end) extra.
Proof.
  revert l; induction arrived as [|a arrived IH]; intros l.
  - exists []. simpl. rewrite app_nil_r. repeat split. constructor.
  - change (consume env ts (a :: arrived) l)
      with (consume env ts arrived (arrive env ts a l)).
    destruct (arrive_calls env ts a l) as (x & Hx & Ux & Fx).
    destruct (IH (arrive env ts a l)) as (y & Hy & Uy & Fy).
    destruct (arrive_frame env ts a l) as (_ & Habort & _).
    rewrite Habort in Fy.
    exists (x ++ y). rewrite Hy, Hx, app_assoc, flat_map_app, Ux, Uy.
    split; [reflexivity|]. split; [|now apply Forall_app].
    unfold usageOf. simpl. now rewrite app_nil_r.
Qed.

(** X18.  Every usage report of a stream is handed to [addUsage], once and
    in stream order, whatever else the stream carries: key presses, a
    cancellation, error events or a failure at its end change nothing to
    that, and nothing else is reported. *)
Theorem usage_is_forwarded (env : Collaborators) (stream : Stream) (ts : N)
    (signal : AbortSignal) (st : State) :
  usageReports (fst (processGeminiStreamEvents env stream ts signal st))
  = usageReports st ++ usageOf (arrivals stream).
Proof.
  unfold processGeminiStreamEvents.
  destruct (consume_calls env ts (arrivals stream)
              {| live := st; geminiMessageBuffer := [];
                 toolCallRequests := [] |}) as (extra & Ht & Hu & _).
  simpl in Ht.
  set (l := consume env ts (arrivals stream) _) in *.
  assert (Hl : usageReports (live l) = usageReports st ++ usageOf (arrivals stream)).
  { unfold usageReports. now rewrite Ht, flat_map_app, Hu. }
  destruct (thrown stream); simpl; [exact Hl|].
  destruct (0 <? length (toolCallRequests l))%nat; [|exact Hl].
  unfold usageReports in *. rewrite collect_call. simpl.
  now rewrite app_nil_r.
Qed.









(** ** Events between two pieces of text *)

Lemma handleContentEvent_reads (env : Collaborators) (d buf : jsstring)
    (ts : N) (st1 st2 : State) :
  turnCancelledRef st1 = turnCancelledRef st2 ->
  pendingHistoryItemRef st1 = pendingHistoryItemRef st2 ->
  snd (handleContentEvent env d buf ts st1)
  = snd (handleContentEvent env d buf ts st2)
  /\ pendingHistoryItemRef (fst (handleContentEvent env d buf ts st1))
     = pendingHistoryItemRef (fst (handleContentEvent env d buf ts st2)).
Proof.
  intros Hf Hp.
  unfold handleContentEvent, startGeminiItem, splitGeminiMessage,
    addPendingItem, addItem.
  rewrite Hf, Hp.
  destruct (turnCancelledRef st2); [simpl; auto|].
  destruct (negb (isGeminiItem (pendingHistoryItemRef st2)));
    destruct (pendingHistoryItemRef st2) eqn:E2; simpl;
    rewrite ?Hp, ?E2;
    match goal with |- context [(?a =? ?b)%Z] => destruct (a =? b)%Z end;
    simpl; rewrite ?Hp, ?E2; auto.
Qed.

(** X20.  Thoughts, tool-call requests, compression notices, usage reports
    and the scheduler's echoes do not interrupt the message being streamed:
    such an event leaves the pending item and the text buffer as they are,
    so the text that comes after it is joined to the text that came before,
    exactly as if the event had not been there. *)
Theorem events_beside_the_message (env : Collaborators) (ts : N)
    (event : GeminiEvent) (delta : jsstring) (l : Loop) :
  besideMessage event = true ->
  let l' := handleEvent env ts event l in
  pendingHistoryItemRef (live l') = pendingHistoryItemRef (live l)
  /\ geminiMessageBuffer l' = geminiMessageBuffer l
  /\ geminiMessageBuffer (handleEvent env ts (Content delta) l')
     = geminiMessageBuffer (handleEvent env ts (Content delta) l)
  /\ pendingHistoryItemRef (live (handleEvent env ts (Content delta) l'))
     = pendingHistoryItemRef (live (handleEvent env ts (Content delta) l)).
Proof.
  intros Hb l'.
  assert (H : pendingHistoryItemRef (live l') = pendingHistoryItemRef (live l)
              /\ geminiMessageBuffer l' = geminiMessageBuffer l
              /\ turnCancelledRef (live l') = turnCancelledRef (live l)).
  { unfold l'. destruct event; try discriminate; simpl; auto. }
  destruct H as (Hp & Hbuf & Hf).
  split; [exact Hp|]. split; [exact Hbuf|].
  simpl. rewrite Hbuf.
  apply handleContentEvent_reads; assumption.
Qed.

Lemma events_beside_the_message_witness :
  besideMessage (ChatCompressed None) = true
  /\ geminiMessageBuffer
       (handleEvent (plainEnv emptyStream) 1700000000000%N (Content (js "lo"))
          (handleEvent (plainEnv emptyStream) 1700000000000%N
             (ChatCompressed None) (loopAt midTurn (js "Hel"))))
     = js "Hello".
Proof.
  split; [reflexivity|].
  destruct (events_beside_the_message (plainEnv emptyStream) 1700000000000%N
              (ChatCompressed None) (js "lo") (loopAt midTurn (js "Hel"))
              eq_refl) as (_ & _ & H & _).
  rewrite H. reflexivity.
Defined.

(** X21.  An [Error] event ends the message being streamed: the text
    pending so far is committed before the error entry and nothing stays
    pending, so that text arriving after the error starts a new 'gemini' item
    from the event's text alone; what was in the buffer is not repeated. *)
Theorem error_event_ends_message (env : Collaborators) (ts : N)
    (value : ErrorValue) (delta : jsstring) (l : Loop) :
  turnCancelledRef (live l) = false ->
  let failed := handleEvent env ts (ErrorEvent value) l in
  history (live failed)
  = history (live l) ++ pendingAsList (live l)
    ++ [textItem ty_error (parseAndFormatApiError env value)]
  /\ pendingHistoryItemRef (live failed) = None
  /\ handleContentEvent env delta (geminiMessageBuffer failed) ts (live failed)
     = splitGeminiMessage env delta ts
         (setPendingHistoryItem (Some (textItem ty_gemini [])) (live failed)).
Proof.
  intros Hf failed.
  destruct (handleErrorEvent_frame env value ts (live l))
    as (_ & Hflag & _ & _ & Hnone).
  destruct (handleErrorEvent_history env value ts (live l)) as [Hh _].
  change (live failed) with (handleErrorEvent env value ts (live l)).
  split; [exact Hh|]. split; [exact Hnone|].
  unfold handleContentEvent, startGeminiItem, addPendingItem.
  cbv zeta in Hflag, Hnone. rewrite Hflag, Hf, Hnone. reflexivity.
Qed.

Lemma error_event_ends_message_witness :
  turnCancelledRef (live (loopAt midTurn (js "Hel"))) = false
  /\ history (live (handleEvent (plainEnv emptyStream) 1700000000000%N
                      (ErrorEvent quotaError) (loopAt midTurn (js "Hel"))))
     = [textItem ty_user (js "hi"); textItem ty_gemini (js "Hel");
        textItem ty_error (js "[API Error: quota exceeded]")].
Proof.
  split; [reflexivity|].
  exact (proj1 (error_event_ends_message (plainEnv emptyStream)
                  1700000000000%N quotaError (js "x")
                  (loopAt midTurn (js "Hel")) eq_refl)).
Defined.

(** ** Returning *)

(** X22.  A call of [submitQuery] from a render whose queue is empty always
    returns and never calls itself: one activation is the whole call,
    whatever the query, the collaborators and the stream. *)
Theorem submitQuery_returns_without_backlog (r : Render) (env : Collaborators)
    (query : PartListUnion) (isContinuation : bool) (st : State)
    (fuel : nat) :
  messageQueue r = [] ->
  snd (submitQueryOnce r env query isContinuation st) = None
  /\ submitQuery (S fuel) r env query isContinuation st
     = Some (fst (submitQueryOnce r env query isContinuation st)).
Proof.
  intros Hq.
  assert (Hnone : snd (submitQueryOnce r env query isContinuation st) = None).
  { destruct (submitQueryOnce_queue r env query isContinuation st)
      as [[H _] | (next & _ & Hhd & _)]; [exact H|].
    rewrite Hq in Hhd. discriminate. }
  split; [exact Hnone|]. simpl.
  destruct (submitQueryOnce r env query isContinuation st) as [st' next].
  simpl in Hnone. now rewrite Hnone.
Qed.

Lemma submitQuery_returns_without_backlog_witness :
  messageQueue (renderOf mounted) = []
  /\ submitQuery 1 (renderOf mounted) (plainEnv answerStream)
       (textQuery (js "What is 2+2?")) false mounted
     = Some (fst (submitQueryOnce (renderOf mounted) (plainEnv answerStream)
                    (textQuery (js "What is 2+2?")) false mounted)).
Proof.
  split; [reflexivity|].
  exact (proj2 (submitQuery_returns_without_backlog (renderOf mounted)
                  (plainEnv answerStream) (textQuery (js "What is 2+2?"))
                  false mounted 0 eq_refl)).
Defined.

(** X23.  A continuation carrying tool responses, entered from a render that
    tracks tool calls (as the effect enters it), never takes a message from
    the queue: whatever the streaming state and however the turn goes, it
    resubmits nothing when it settles, and the live queue is as before. *)
Theorem continuation_leaves_queue (r : Render) (env : Collaborators)
    (responses : list PartListUnion) (st : State) :
  toolCalls r <> [] ->
  let out := submitQueryOnce r env (mergePartListUnions responses) true st in
  snd out = None
  /\ st_messageQueue (fst out) = st_messageQueue st.
Proof.
  intros Hne out.
  destruct (continuation_effects r env
              (flat_map (fun item => match item with
                                     | PLArray ps => ps
                                     | PLSingle p => [p]
                                     end) responses) st)
    as (_ & _ & Hnone & _).
  change (PLArray (flat_map _ responses))
    with (mergePartListUnions responses) in Hnone.
  fold out in Hnone. specialize (Hnone Hne).
  split; [exact Hnone|].
  destruct (submitQueryOnce_queue r env (mergePartListUnions responses) true
              st) as [[_ [H | (s & Hs & _)]] | (next & Hn & _)].
  - exact H.
  - discriminate.
  - fold out in Hn. rewrite Hnone in Hn. discriminate.
Qed.

Lemma continuation_leaves_queue_witness :
  toolCalls {| isResponding := false; toolCalls := [readFileCall];
               messageQueue := [js "a"; js "b"] |} <> []
  /\ st_messageQueue
       (fst (submitQueryOnce
               {| isResponding := false; toolCalls := [readFileCall];
                  messageQueue := [js "a"; js "b"] |}
               (plainEnv answerStream) (mergePartListUnions [toolResult])
               true backlog))
     = [js "a"; js "b"].
Proof.
  split; [discriminate|].
  refine (proj2 (continuation_leaves_queue
                   {| isResponding := false; toolCalls := [readFileCall];
                      messageQueue := [js "a"; js "b"] |}
                   (plainEnv answerStream) [toolResult] backlog _)).
  discriminate.
Defined.

(** * Whole calls *)

(** ** A submission that finds a backlog *)

Lemma skipn_tl {A : Type} (n : nat) (items : list A) :
  skipn n (tl items) = skipn (S n) items.
Proof. destruct items; [now rewrite !skipn_nil|reflexivity]. Qed.

(** The two descriptions of the recursion agree: the call completes within
    the depth exactly when the stack is not exhausted. *)
Lemma submitQuery_within (depth : nat) (r : Render) (env : Collaborators)
    (query : PartListUnion) (isContinuation : bool) (st : State) :
  submitQuery depth r env query isContinuation st
  = (if snd (submitQueryWithin depth r env query isContinuation st)
     then None
     else Some (fst (submitQueryWithin depth r env query isContinuation st))).
Proof.
  revert query isContinuation st.
  induction depth as [|depth IH]; intros query isContinuation st;
    [reflexivity|].
  simpl. destruct (submitQueryOnce r env query isContinuation st) as [st' [next|]];
    [apply IH|reflexivity].
Qed.

(** C9.  A non-continuation call of [submitQuery] through the callback of an
    idle render whose queue is not empty.  The activation starts a turn,
    drops the first entry of the live queue and calls itself with the first
    entry of its render's queue; the call it makes reads the same render and
    does the same with the same entry, whatever the live queue holds by
    then.  No activation gets past the queue check: the stack is exhausted
    at every depth, and when the outermost call has returned, [startNewTurn]
    has been called once per activation, the live queue has lost one entry
    per activation (all of them when the stack is deeper than the queue is
    long), and nothing was sent to the model or shown: neither the queued
    entry nor the caller's query is processed. *)
Theorem backlog_call_exhausts_stack (r : Render) (env : Collaborators)
    (query : PartListUnion) (st : State) (depth : nat) :
  streamingState r = Idle ->
  messageQueue r <> [] ->
  let out := submitQueryWithin depth r env query false st in
  snd out = true
  /\ submitQuery depth r env query false st = None
  /\ trace (fst out) = trace st ++ repeat StartNewTurn depth
  /\ st_messageQueue (fst out) = skipn depth (st_messageQueue st)
  /\ (length (st_messageQueue st) <= depth -> st_messageQueue (fst out) = [])
  /\ openedStreams (fst out) = openedStreams st
  /\ history (fst out) = history st
  /\ st_isResponding (fst out) = st_isResponding st
  /\ exists next,
       hd_error (messageQueue r) = Some next
       /\ snd (submitQueryOnce r env query false st) = Some next
       /\ forall st', snd (submitQueryOnce r env (textQuery next) false st')
                      = Some next.
Proof.
  intros Hidle Hq out.
  assert (Hstep : forall q s,
             exists next,
               hd_error (messageQueue r) = Some next
               /\ submitQueryOnce r env q false s
                  = (setMessageQueue (@tl jsstring) (fst (startTurn s)),
                     Some next)).
  { intros q s. unfold submitQueryOnce, submitNextFromQueue. rewrite Hidle.
    destruct (messageQueue r) as [|next rest]; [contradiction|].
    exists next. split; reflexivity. }
  assert (Hrun : snd out = true
                 /\ trace (fst out) = trace st ++ repeat StartNewTurn depth
                 /\ st_messageQueue (fst out) = skipn depth (st_messageQueue st)
                 /\ st_isResponding (fst out) = st_isResponding st).
  { unfold out. clear out. revert query st.
    induction depth as [|depth IH]; intros query st.
    - simpl. rewrite app_nil_r. auto.
    - simpl. destruct (Hstep query st) as (next & _ & ->).
      destruct (IH (PLSingle (PartString next))
                  (setMessageQueue (@tl jsstring) (fst (startTurn st))))
        as (I1 & I2 & I3 & I4).
      split; [exact I1|]. split; [|split].
      + rewrite I2. simpl. rewrite <- app_assoc. reflexivity.
      + rewrite I3. simpl. apply skipn_tl.
      + rewrite I4. reflexivity. }
  destruct Hrun as (H1 & H2 & H3 & H4).
  split; [exact H1|].
  split; [rewrite submitQuery_within; fold out; now rewrite H1|].
  split; [exact H2|]. split; [exact H3|].
  split; [intros Hlen; rewrite H3; now apply skipn_all2|].
  assert (Hnone : forall {A : Type} (f : Call -> list A),
             f StartNewTurn = [] ->
             flat_map f (trace (fst out)) = flat_map f (trace st)).
  { intros A f Hf.
    assert (Hrep : forall n, flat_map f (repeat StartNewTurn n) = []).
    { intros n. induction n as [|n IHn]; [reflexivity|].
      simpl. now rewrite Hf. }
    rewrite H2, flat_map_app, Hrep. apply app_nil_r. }
  split; [apply (Hnone _ (fun c => match c with
                                   | SendMessageStream q s => [(q, s)]
                                   | _ => []
                                   end)); reflexivity|].
  split; [apply (Hnone _ (fun c => match c with
                                   | AddItem i _ => [i]
                                   | _ => []
                                   end)); reflexivity|].
  split; [exact H4|].
  destruct (Hstep query st) as (next & Hhd & Hout).
  exists next. split; [exact Hhd|]. split; [now rewrite Hout|].
  intros st'. destruct (Hstep (textQuery next) st') as (next' & Hhd' & ->).
  simpl. congruence.
Qed.

Lemma backlog_call_exhausts_stack_witness :
  streamingState backlogRender = Idle
  /\ messageQueue backlogRender <> []
  /\ st_messageQueue backlog = [js "a"; js "b"]
  /\ (let out := submitQueryWithin 2000 backlogRender (plainEnv answerStream)
                   (textQuery (js "c")) false backlog in
      snd out = true
      /\ st_messageQueue (fst out) = []
      /\ openedStreams (fst out) = []
      /\ history (fst out) = []).
Proof.
  split; [reflexivity|]. split; [discriminate|]. split; [reflexivity|].
  assert (Hq : messageQueue backlogRender <> []) by discriminate.
  destruct (backlog_call_exhausts_stack backlogRender (plainEnv answerStream)
              (textQuery (js "c")) backlog 2000 eq_refl Hq)
    as (H1 & _ & _ & _ & H5 & H6 & H7 & _).
  split; [exact H1|]. split; [apply H5; simpl; lia|].
  split; [exact H6|exact H7].
Defined.

(** ** The suspended continuation *)

(** An activation is its part before the first [await] followed by the
    rest. *)
Lemma submitQueryOnce_split (r : Render) (env : Collaborators)
    (query : PartListUnion) (isContinuation : bool) (st : State) :
  submitQueryOnce r env query isContinuation st
  = match submitQueryUntilAwait r query isContinuation st with
    | inl ended => ended
    | inr (suspended, userMessageTimestamp, signal) =>
        submitQueryAfterAwait r env query userMessageTimestamp signal suspended
    end.
Proof.
  unfold submitQueryOnce, submitQueryUntilAwait, submitQueryAfterAwait.
  destruct (isBusy (streamingState r) && negb isContinuation); [reflexivity|].
  destruct ((0 <? length (messageQueue r))%nat && negb isContinuation);
    reflexivity.
Qed.

(** A firing that finds something to submit, step by step. *)
Lemma toolCompletionEffect_fires (r : Render) (env : Collaborators)
    (st : State) :
  let completedAndUnsubmittedTools :=
    filter completedAndUnsubmitted (toolCalls r) in
  let callIds :=
    map (fun tool => callId (request tool)) completedAndUnsubmittedTools in
  let payload :=
    mergePartListUnions (map responseParts completedAndUnsubmittedTools) in
  let turn :=
    markToolsAsSubmitted callIds
      (setThought None
         (setIsResponding true
            (fst (startTurn (markToolsAsSubmitted callIds st))))) in
  let ran := runStream env payload (now st) (controllers st) turn in
  completedAndUnsubmittedTools <> [] ->
  toolCompletionEffect r env st
  = finishTurn r (snd (fst ran)) (snd ran) (now st) (fst (fst ran)).
Proof.
  intros done ids payload turn ran Hne.
  unfold toolCompletionEffect. fold done. fold ids. fold payload.
  destruct done as [|d ds] eqn:Ed; [contradiction|].
  cbn [length Nat.ltb Nat.leb].
  unfold submitQueryUntilAwait. rewrite !andb_false_r.
  unfold submitQueryAfterAwait.
  assert (Hprep : prepareQueryForGemini env payload (now st) (controllers st)
                    turn = (turn, Some payload))
    by (apply prepareQueryForGemini_parts; reflexivity).
  change (now (fst (startTurn (markToolsAsSubmitted ids st)))) with (now st).
  change (snd (startTurn (markToolsAsSubmitted ids st))) with (controllers st).
  fold turn. rewrite Hprep. cbn [snd fst].
  fold ran. now destruct ran as [[s h] t].
Qed.

Lemma toolCompletionEffect_idle (r : Render) (env : Collaborators)
    (st : State) :
  filter completedAndUnsubmitted (toolCalls r) = [] ->
  toolCompletionEffect r env st = (st, None).
Proof. intros E. unfold toolCompletionEffect. now rewrite E. Qed.

(** ** The queue after a turn *)

(** C3.  What the [finally] block does with the queue, call site by call
    site.  A submission of the user that starts a turn has passed the busy
    check and the queue check: its render is idle with an empty queue, and
    that queue is the one the [finally] block reads.  So however the turn
    went and whatever was queued in the live storage meanwhile, the block
    resubmits nothing and leaves the live queue as it is.  The other call
    site is the effect that sends tool responses: its render tracks tool
    calls, so its [finally] block resubmits nothing either.  Messages
    queued during a turn are not taken up when the turn has finished. *)
Theorem queue_waits_after_finished_turn (r : Render) (env : Collaborators) :
  (isBusy (streamingState r) && negb false = false ->
   (0 <? length (messageQueue r))%nat && negb false = false ->
   (forall query st,
      let out := submitQueryOnce r env query false st in
      snd out = None /\ st_messageQueue (fst out) = st_messageQueue st)
   /\ (forall hasError status ts ended,
         let out := finishTurn r hasError status ts ended in
         snd out = None
         /\ st_messageQueue (fst out) = st_messageQueue ended))
  /\ (forall st,
        let out := toolCompletionEffect r env st in
        snd out = None /\ st_messageQueue (fst out) = st_messageQueue st).
Proof.
  split.
  - intros Hbusy Hqueue.
    assert (Hq : messageQueue r = []).
    { rewrite andb_true_r in Hqueue.
      destruct (messageQueue r); [reflexivity|discriminate]. }
    assert (Hfin : forall hasError status ts ended,
               let out := finishTurn r hasError status ts ended in
               snd out = None
               /\ st_messageQueue (fst out) = st_messageQueue ended).
    { intros hasError status ts ended out.
      destruct (finishTurn_spec r hasError status ts ended)
        as (_ & _ & _ & _ & Hiff & _ & Hkeep).
      fold out in Hiff, Hkeep.
      assert (Hnone : snd out = None).
      { destruct (snd out) eqn:E; [|reflexivity]. exfalso.
        assert (Hsome : Some j <> None) by discriminate.
        apply Hiff in Hsome. destruct Hsome as (_ & _ & _ & _ & Hne).
        now apply Hne. }
      split; [exact Hnone|now apply Hkeep]. }
    split; [|exact Hfin].
    intros query st out.
    destruct (submitQueryOnce_cases r env query false st Hbusy)
      as [[Hc _] | [_ (extra & _ & [Hout | (q & Hout)])]].
    + rewrite Hqueue in Hc. discriminate.
    + fold out in Hout. rewrite Hout. unfold submitNextFromQueue.
      rewrite Hq. cbn [fst snd]. split; [reflexivity|].
      destruct (afterCalls_fields extra
                  (setThought None
                     (setIsResponding true (fst (startTurn st)))))
        as (_ & Hmq & _).
      cbv zeta in Hmq. simpl. simpl in Hmq. exact Hmq.
    + fold out in Hout. cbv zeta in Hout. rewrite Hout.
      set (prepared := afterCalls extra _).
      destruct (Hfin (snd (fst (runStream env q (now st) (controllers st)
                                  prepared)))
                  (snd (runStream env q (now st) (controllers st) prepared))
                  (now st)
                  (fst (fst (runStream env q (now st) (controllers st)
                               prepared)))) as [F1 F2].
      split; [exact F1|]. rewrite F2.
      destruct (runStream_frame env q (now st) (controllers st) prepared)
        as ((R1 & _) & _).
      rewrite R1. unfold prepared.
      destruct (afterCalls_fields extra
                  (setThought None
                     (setIsResponding true (fst (startTurn st)))))
        as (_ & Hmq & _).
      cbv zeta in Hmq. simpl in Hmq. exact Hmq.
  - intros st out.
    destruct (filter completedAndUnsubmitted (toolCalls r)) as [|d ds] eqn:Ed.
    + unfold out. rewrite toolCompletionEffect_idle by exact Ed. auto.
    + assert (Hne : filter completedAndUnsubmitted (toolCalls r) <> [])
        by (rewrite Ed; discriminate).
      assert (Htc : toolCalls r <> []).
      { intros E. rewrite E in Ed. discriminate. }
      unfold out. rewrite (toolCompletionEffect_fires r env st Hne).
      set (ids := map (fun tool => callId (request tool))
                    (filter completedAndUnsubmitted (toolCalls r))).
      set (turn := markToolsAsSubmitted ids _).
      set (ran := runStream env _ (now st) (controllers st) turn).
      destruct (finishTurn_spec r (snd (fst ran)) (snd ran) (now st)
                  (fst (fst ran))) as (_ & _ & _ & _ & Hiff & _ & Hkeep).
      assert (Hnone : snd (finishTurn r (snd (fst ran)) (snd ran) (now st)
                             (fst (fst ran))) = None).
      { destruct (snd (finishTurn _ _ _ _ _)) eqn:E; [|reflexivity].
        exfalso. apply Htc, Hiff. discriminate. }
      split; [exact Hnone|]. rewrite (Hkeep Hnone).
      destruct (runStream_frame env
                  (mergePartListUnions
                     (map responseParts
                        (filter completedAndUnsubmitted (toolCalls r))))
                  (now st) (controllers st) turn) as ((R1 & _) & _).
      fold ran in R1. rewrite R1. reflexivity.
Qed.

Lemma queue_waits_after_finished_turn_witness :
  isBusy (streamingState (renderOf mounted)) && negb false = false
  /\ (0 <? length (messageQueue (renderOf mounted)))%nat && negb false = false
  /\ streamingState (renderOf helloSoFar) = Responding
  /\ st_messageQueue helloSoFar = []
  /\ st_messageQueue streamEnded = [js "a"; js "b"]
  /\ turnCancelledRef streamEnded = false
  /\ st_toolCalls streamEnded = []
  /\ (let out := finishTurn (renderOf mounted) false Completed
                   1700000000000%N streamEnded in
      snd out = None
      /\ st_messageQueue (fst out) = [js "a"; js "b"]
      /\ streamingState (renderOf (fst out)) = Idle
      /\ history (fst out)
         = [textItem ty_user (js "hi"); textItem ty_gemini (js "Hello")]).
Proof.
  split; [reflexivity|]. split; [reflexivity|]. split; [reflexivity|].
  split; [reflexivity|]. split; [reflexivity|]. split; [reflexivity|].
  split; [reflexivity|].
  destruct (queue_waits_after_finished_turn (renderOf mounted)
              (plainEnv emptyStream)) as [H _].
  destruct (H eq_refl eq_refl) as [_ Hfin].
  destruct (Hfin false Completed 1700000000000%N streamEnded) as [H1 H2].
  split; [exact H1|]. split; [exact H2|]. split; reflexivity.
Defined.

(** The check for outstanding tool calls reads the render's list as well: a
    continuation entered from a render without tracked calls takes the next
    message although the turn has just handed two tool calls to the
    scheduler. *)
Example tools_of_the_turn_do_not_count :
  let out := submitQueryOnce backlogRender (plainEnv twoToolStream) toolResult
               true backlog in
  scheduledBatches (fst out) = [([readFileRequest; listDirRequest], 0)]
  /\ snd out = Some (js "a").
Proof. split; reflexivity. Qed.

(** ** Tool responses *)





(** ** Cancellation input *)




(** ** Cancelling, then settling *)

Lemma cancelledSince_same (shown : list HistoryItemWithoutId) (a b : State) :
  turnCancelledRef b = turnCancelledRef a ->
  pendingHistoryItemRef b = pendingHistoryItemRef a ->
  history b = history a ->
  cancelledSince shown a -> cancelledSince shown b.
Proof.
  intros Hc Hp Hh (C & P & later & H & F).
  split; [congruence|]. split; [congruence|].
  exists later. split; [congruence|exact F].
Qed.

Lemma cancelledSince_report (shown : list HistoryItemWithoutId) (a b : State)
    (item : HistoryItemWithoutId) :
  turnCancelledRef b = turnCancelledRef a ->
  pendingHistoryItemRef b = pendingHistoryItemRef a ->
  history b = history a ++ [item] ->
  isReport item ->
  cancelledSince shown a -> cancelledSince shown b.
Proof.
  intros Hc Hp Hh Hi (C & P & later & H & F).
  split; [congruence|]. split; [congruence|].
  exists (later ++ [item]). split.
  - rewrite Hh, H. now rewrite app_assoc.
  - apply Forall_app. split; [exact F|]. constructor; [exact Hi|constructor].
Qed.

Lemma handleErrorEvent_cancelledSince (shown : list HistoryItemWithoutId)
    (env : Collaborators) (v : ErrorValue) (ts : N) (st : State) :
  cancelledSince shown st -> cancelledSince shown (handleErrorEvent env v ts st).
Proof.
  intros H. pose proof H as (C & P & _).
  apply (cancelledSince_report shown st _
           (textItem ty_error (parseAndFormatApiError env v))); try exact H.
  - unfold handleErrorEvent. rewrite P. reflexivity.
  - unfold handleErrorEvent. rewrite P. simpl. exact P.
  - destruct (handleErrorEvent_history env v ts st) as [Hh _].
    rewrite Hh. unfold pendingAsList. rewrite P. reflexivity.
  - left. reflexivity.
Qed.

Lemma arrive_cancelledSince (shown : list HistoryItemWithoutId)
    (env : Collaborators) (ts : N) (a : Arrival) (l : Loop) :
  cancelledSince shown (live l) ->
  cancelledSince shown (live (arrive env ts a l)).
Proof.
  intros H. pose proof H as (C & P & _).
  destruct a as [event|r key]; simpl.
  - destruct event; simpl.
    + apply (cancelledSince_same shown (live l)); auto.
    + unfold handleContentEvent. rewrite C. exact H.
    + exact H.
    + unfold handleUserCancelledEvent. rewrite C. exact H.
    + now apply handleErrorEvent_cancelledSince.
    + eapply (cancelledSince_report shown (live l));
        [reflexivity|reflexivity
        |unfold handleChatCompressionEvent, addItem; rewrite history_call;
         reflexivity
        |right; reflexivity|exact H].
    + apply (cancelledSince_same shown (live l)); auto.
      rewrite history_call. apply app_nil_r.
    + exact H.
    + exact H.
  - rewrite useInput_cancelled; [exact H|exact C].
Qed.

Lemma consume_cancelledSince (shown : list HistoryItemWithoutId)
    (env : Collaborators) (ts : N) (arrived : list Arrival) (l : Loop) :
  cancelledSince shown (live l) ->
  cancelledSince shown (live (consume env ts arrived l)).
Proof.
  revert l; induction arrived as [|a arrived IH]; intros l H; simpl.
  - exact H.
  - apply IH. now apply arrive_cancelledSince.
Qed.

(** X12.  A turn cancelled with the escape key in the middle of its stream,
    whatever the stream does afterwards (more events of any kind, a normal
    end, a failure of any kind).  The key handler commits the pending item
    and the notice "Request cancelled."; from then on the turn shows
    nothing but reports (error entries and notices: an error event or a
    failure of the stream is still reported), no text of the model, and the
    pending item is not committed a second time: the [finally] block finds
    nothing pending.  No queued message is submitted after the cancelled
    turn, whatever the queue of the render, and the live queue is left as it
    was. *)
Theorem cancelled_turn_settles_once (env : Collaborators) (q : PartListUnion)
    (ts : N) (signal : AbortSignal) (st : State) (r r' : Render)
    (key : InkKey) (before after : list Arrival) (failure : option Thrown) :
  performMemoryRefresh env = None ->
  sendMessageStream env q signal
  = {| arrivals := before ++ KeyPress r key :: after; thrown := failure |} ->
  streamingState r = Responding ->
  escape key = true ->
  let sent := call (SendMessageStream q signal) (call PerformMemoryRefresh st) in
  let pressedAt := live (consume env ts before (loopAt sent [])) in
  turnCancelledRef pressedAt = false ->
  let ran := runStream env q ts signal st in
  let out := finishTurn r' (snd (fst ran)) (snd ran) ts (fst (fst ran)) in
  cancelledSince
    (history pressedAt ++ pendingAsList pressedAt
     ++ [textItem ty_info (js "Request cancelled.")])
    (fst out)
  /\ snd out = None
  /\ st_messageQueue (fst out) = st_messageQueue st.
Proof.
  intros Href Hstream Hr He sent pressedAt Hc ran out.
  set (shown := history pressedAt ++ pendingAsList pressedAt
                ++ [textItem ty_info (js "Request cancelled.")]).
  set (l1 := consume env ts before (loopAt sent [])).
  assert (Hpressed : cancelledSince shown
                       (live (arrive env ts (KeyPress r key) l1))).
  { cbn [arrive live]. change (live l1) with pressedAt.
    unfold cancelledSince, shown, useInput, addPendingItem, addItem,
      pendingAsList.
    rewrite Hr, He, Hc. simpl.
    destruct (abortControllerRef pressedAt); simpl;
      destruct (pendingHistoryItemRef pressedAt); simpl;
      (split; [reflexivity|]); (split; [reflexivity|]);
      exists []; (split; [|constructor]);
      unfold history; simpl;
      rewrite ?flat_map_app; simpl; rewrite ?app_nil_r, <- ?app_assoc;
      reflexivity. }
  pose proof (consume_cancelledSince shown env ts after _ Hpressed) as Hafter.
  assert (Hsplit : consume env ts (before ++ KeyPress r key :: after)
                     (loopAt sent [])
                   = consume env ts after
                       (arrive env ts (KeyPress r key) l1)).
  { unfold consume. rewrite fold_left_app. reflexivity. }
  assert (Hran : cancelledSince shown (fst (fst ran))).
  { unfold ran, runStream. rewrite Href. cbn [snd fst].
    unfold processGeminiStreamEvents. rewrite Hstream. cbn [arrivals thrown].
    fold sent. change {| live := sent; geminiMessageBuffer := [];
                         toolCallRequests := [] |} with (loopAt sent []).
    rewrite Hsplit.
    set (l2 := consume env ts after (arrive env ts (KeyPress r key) l1)) in *.
    clearbody l2.
    destruct failure as [e|]; cbn [snd fst].
    - destruct e as [|code m|m]; cbn [snd fst].
      + apply (cancelledSince_same shown (live l2)); auto.
        rewrite history_call. apply app_nil_r.
      + destruct (eqb_js code (js "ERR_CANCELED")); cbn [snd fst];
          [exact Hafter|now apply handleErrorEvent_cancelledSince].
      + now apply handleErrorEvent_cancelledSince.
    - destruct (0 <? length (toolCallRequests l2))%nat; [|exact Hafter].
      apply (cancelledSince_same shown (live l2)); auto.
      rewrite history_call. apply app_nil_r. }
  pose proof Hran as (C & P & _).
  assert (Hout : out = (setAbortController None
                          (setIsResponding false (fst (fst ran))), None)).
  { unfold out, finishTurn. rewrite P. cbn [turnCancelledRef setIsResponding
      setAbortController]. rewrite C. reflexivity. }
  rewrite Hout. cbn [fst snd].
  split; [|split; [reflexivity|]].
  - apply (cancelledSince_same shown (fst (fst ran))); auto.
  - destruct (runStream_frame env q ts signal st) as ((R1 & _) & _).
    fold ran in R1. exact R1.
Qed.

Lemma cancelled_turn_settles_once_witness :
  let env := plainEnv brokenStream in
  let turn := setThought None (setIsResponding true (fst (startTurn backlog))) in
  let ran := runStream env (textQuery (js "hi")) 1700000000000%N 0 turn in
  let out := finishTurn backlogRender (snd (fst ran)) (snd ran)
               1700000000000%N (fst (fst ran)) in
  performMemoryRefresh env = None
  /\ streamingState streamingRender = Responding
  /\ escape escapeKey = true
  /\ history (fst out)
     = [textItem ty_gemini (js "Hel");
        textItem ty_info (js "Request cancelled.");
        textItem ty_error (js "[API Error: socket hang up]")]
  /\ snd out = None
  /\ st_messageQueue (fst out) = [js "a"; js "b"].
Proof.
  intros env turn ran out.
  split; [reflexivity|]. split; [reflexivity|]. split; [reflexivity|].
  destruct (cancelled_turn_settles_once env (textQuery (js "hi"))
              1700000000000%N 0 turn streamingRender backlogRender escapeKey
              [StreamEvent (Content (js "Hel"))]
              [StreamEvent (Content (js "lo"))]
              (Some (OtherError (js "socket hang up")))
              eq_refl eq_refl eq_refl eq_refl eq_refl)
    as (_ & Hnone & Hqueue).
  split; [reflexivity|]. split; [exact Hnone|exact Hqueue].
Defined.
